(** * The trade aggregation and performance-metrics engine of [main.py]

    A shallow embedding of [compute_metrics] and of the forecast / message
    part of [ai_insights] (file [src/main.py]), and the properties the
    specification states about them.

    Layout
    - [Py]: the Python values a trade document holds, exceptions, the two
      string methods the code calls.
    - [PyFloat]: the float operations the code uses, as an interface with
      two implementations: [binary64] (IEEE 754 doubles, what CPython
      runs) and [exact] (real numbers, no rounding).
    - [Datetime]: dates, [date.isoformat] and a model of
      [datetime.fromisoformat].
    - [Engine]: [compute_metrics] and [ai_insights], written once over
      the interface.
    - [Binary64Order], [Binary64Gain]: how a binary64 number, given by
      mantissa and exponent, compares with another: what the range of
      the win rate and the days of gains rest on.
    - [Handlers]: the record [upload_trades] builds from a CSV row, its
      insertion loop over a store taken as given, and
      [portfolio_summary]; [Diagnostics]: [test_database].
    - the theorems, one block per property. *)

From Stdlib Require Import ZArith Reals Lra Lia Floats Ascii String.
From stdpp Require Import gmap strings list sorting.

Set Warnings "-inexact-float".
Local Open Scope Z_scope.

(* ===================================================================== *)
(** ** Python values, exceptions, strings *)
(* ===================================================================== *)

Module Py.

(** The exceptions of the model: the four that can leave
    [compute_metrics], and the one the truth test of a database handle
    can raise. *)
Inductive exn :=
  AttributeError | TypeError | ValueError | OverflowError | NotImplementedError.

Inductive result (A : Type) :=
| Ok (a : A)
| Raise (e : exn).
Arguments Ok {A} a.
Arguments Raise {A} e.

#[global] Instance result_ret : MRet result := λ A a, Ok a.
#[global] Instance result_bind : MBind result := λ A B k r,
  match r with Ok a => k a | Raise e => Raise e end.

Definition is_Ok {A} (r : result A) : Prop := ∃ a, r = Ok a.

(** The values found under the keys of a trade document; [F] is the
    type of floats. *)
Inductive value (F : Type) :=
| VNone
| VBool (b : bool)
| VInt (n : Z)
| VFloat (x : F)
| VStr (s : string).
Arguments VNone {F}.
Arguments VBool {F} b.
Arguments VInt {F} n.
Arguments VFloat {F} x.
Arguments VStr {F} s.

(** [str.lower], on the ASCII letters. (No character outside ASCII
    lowers to a letter of ["buy"], the only string the result is
    compared with.) *)
Definition lower_ascii (c : ascii) : ascii :=
  let n := nat_of_ascii c in
  if ((65 <=? n) && (n <=? 90))%nat then ascii_of_nat (n + 32) else c.

Fixpoint lower (s : string) : string :=
  match s with
  | EmptyString => EmptyString
  | String c s' => String (lower_ascii c) (lower s')
  end.

(** The value of an ASCII digit. *)
Definition digit_of (c : ascii) : option Z :=
  let n := nat_of_ascii c in
  if ((48 <=? n) && (n <=? 57))%nat then Some (Z.of_nat n - 48) else None.

(** [s.replace(old, new)] for a one-character [old]. *)
Fixpoint replace_char (old : ascii) (new : string) (s : string) : string :=
  match s with
  | EmptyString => EmptyString
  | String c s' =>
      if Ascii.eqb c old then new +:+ replace_char old new s'
      else String c (replace_char old new s')
  end.

End Py.
Export Py.

(* ===================================================================== *)
(** ** The text [float] accepts *)
(* ===================================================================== *)

Module FloatLiteral.

(** What [float(s)] denotes: an infinity, a NaN, or the decimal
    [(-1)^neg * mant * 10^exp10]. *)
Inductive literal :=
| LInf (neg : bool)
| LNan
| LDec (neg : bool) (mant : Z) (exp10 : Z).

(** The characters [float] skips on both sides of the text of a number
    in a string of ASCII characters: the space and
    [\t], [\n], [\v], [\f], [\r]. *)
Definition is_space (c : ascii) : bool :=
  let n := nat_of_ascii c in
  ((n =? 32) || ((9 <=? n) && (n <=? 13)))%nat.

Fixpoint lstrip (s : string) : string :=
  match s with
  | String c s' => if is_space c then lstrip s' else s
  | EmptyString => EmptyString
  end.

(** The text without its trailing blanks. *)
Fixpoint rstrip (s : string) : string :=
  match s with
  | EmptyString => EmptyString
  | String c s' =>
      match rstrip s' with
      | EmptyString => if is_space c then EmptyString else String c EmptyString
      | r => String c r
      end
  end.

Definition starts_with_digit (s : string) : bool :=
  match s with
  | String c _ => bool_decide (is_Some (digit_of c))
  | EmptyString => false
  end.

(** A [digitpart], [digit (["_"] digit)*], read from the front of [s]
    onto the digits [acc] read so far: the number, how many digits
    were read, and the rest. An underscore counts only between two
    digits. *)
Fixpoint digitpart (s : string) (acc : Z) (count : Z) (after_digit : bool)
    : Z * Z * string :=
  match s with
  | EmptyString => (acc, count, s)
  | String c s' =>
      match digit_of c with
      | Some d => digitpart s' (10 * acc + d) (count + 1) true
      | None =>
          if Ascii.eqb c "_" && after_digit && starts_with_digit s'
          then digitpart s' acc count false
          else (acc, count, s)
      end
  end.

Definition sign (s : string) : bool * string :=
  match s with
  | String "-" s' => (true, s')
  | String "+" s' => (false, s')
  | _ => (false, s)
  end.

(** [exponent ::= ("e" | "E") [sign] digitpart], or nothing. *)
Definition exponent (s : string) : option Z :=
  match s with
  | EmptyString => Some 0
  | String c s' =>
      if Ascii.eqb c "e" || Ascii.eqb c "E" then
        let '(neg, s') := sign s' in
        match digitpart s' 0 0 false with
        | (e, n, EmptyString) =>
            if 0 <? n then Some (if neg then - e else e) else None
        | _ => None
        end
      else None
  end.

(** [number [exponent]]. *)
Definition floatnumber (neg : bool) (s : string) : option literal :=
  let '(i, ni, s) := digitpart s 0 0 false in
  let '(m, nf, s) :=
    match s with
    | String "." s' =>
        let '(m, n, s'') := digitpart s' i 0 false in (m, n, s'')
    | _ => (i, 0, s)
    end in
  if 0 <? ni + nf then e ← exponent s; Some (LDec neg m (e - nf))
  else None.

(** The grammar of [float] on a string of ASCII characters. (On a
    string with other characters [float] first turns every Unicode
    blank into a space and every Unicode decimal digit into its ASCII
    digit; here such a string is not the text of a number.) *)
Definition parse (s : string) : option literal :=
  let '(neg, s) := sign (rstrip (lstrip s)) in
  let l := lower s in
  if String.eqb l "inf" || String.eqb l "infinity" then Some (LInf neg)
  else if String.eqb l "nan" then Some LNan
  else floatnumber neg s.

End FloatLiteral.

(* ===================================================================== *)
(** ** The float operations the engine uses *)
(* ===================================================================== *)

(** Everything [compute_metrics] does with numbers, as an interface.
    [round_nd] is the builtin [round(x, ndigits)], [float_of_str] the
    builtin [float] on a string ([None]: it raises [ValueError]). *)
Class PyFloat (F : Type) := {
  of_int : Z → F;                  (* float(n) for a Python int n *)
  int_too_large : Z → bool;        (* float(n) raises OverflowError *)
  fadd : F → F → F;                (* x + y *)
  fsub : F → F → F;                (* x - y *)
  fmul : F → F → F;                (* x * y *)
  fdiv : F → F → F;                (* x / y *)
  fsquare : F → F;                 (* x ** 2 *)
  square_overflows : F → bool;     (* x ** 2 raises OverflowError *)
  fsqrt : F → F;                   (* x ** 0.5 *)
  fltb : F → F → bool;             (* x < y *)
  feqb : F → F → bool;             (* x == y *)
  f1e_9 : F;                       (* the literal 1e-9 *)
  float_of_str : string → option F;
  round_nd : F → Z → F;
}.

Section Conversions.
Context {F : Type} {PF : PyFloat F}.

(** The literal [0.0] (and [float(0)], the same float). *)
Definition fzero : F := of_int 0.

(** [bool(v)]: what [v or 0] tests. *)
Definition truthy (v : value F) : bool :=
  match v with
  | VNone => false
  | VBool b => b
  | VInt n => negb (n =? 0)
  | VFloat x => negb (feqb x fzero)
  | VStr s => negb (String.eqb s "")
  end.

(** [float(v)]. *)
Definition py_float (v : value F) : result F :=
  match v with
  | VNone => Raise TypeError
  | VBool b => Ok (of_int (if b then 1 else 0))
  | VInt n => if int_too_large n then Raise OverflowError else Ok (of_int n)
  | VFloat x => Ok x
  | VStr s =>
      match float_of_str s with
      | Some x => Ok x
      | None => Raise ValueError
      end
  end.

(** [float(v or 0)]; [float(0)] is [0.0]. *)
Definition float_or_zero (v : value F) : result F :=
  if truthy v then py_float v else Ok fzero.

(** [x ** 2]. *)
Definition py_square (x : F) : result F :=
  if square_overflows x then Raise OverflowError else Ok (fsquare x).

(** [sum(xs)]: a left fold from the int [0] (the summation of CPython
    up to 3.11; from 3.12 on [sum] compensates the rounding errors of
    float addends). *)
Definition py_sum (xs : list F) : F := fold_left fadd xs fzero.

End Conversions.

(* ===================================================================== *)
(** ** Dates *)
(* ===================================================================== *)

Module Datetime.

Definition is_leap (y : Z) : bool :=
  (y mod 4 =? 0) && (negb (y mod 100 =? 0) || (y mod 400 =? 0)).

Definition days_in_month (y m : Z) : Z :=
  if m =? 2 then (if is_leap y then 29 else 28)
  else if (m =? 4) || (m =? 6) || (m =? 9) || (m =? 11) then 30
  else 31.

(** What the constructors of [date] and [datetime] check
    ([MINYEAR = 1], [MAXYEAR = 9999]). *)
Definition valid_ymd (y m d : Z) : bool :=
  (1 <=? y) && (y <=? 9999) && (1 <=? m) && (m <=? 12)
  && (1 <=? d) && (d <=? days_in_month y m).

Definition valid_hms (h mi s us : Z) : bool :=
  (0 <=? h) && (h <=? 23) && (0 <=? mi) && (mi <=? 59)
  && (0 <=? s) && (s <=? 59) && (0 <=? us) && (us <=? 999999).

(** A [date] object: it cannot be built outside these ranges. *)
Record date := Date {
  year : Z;
  month : Z;
  day : Z;
  date_ok : Is_true (valid_ymd year month day);
}.

(** A [datetime] object; [utcoffset] in microseconds, [None] when the
    object is naive. *)
Record datetime := DateTime {
  dt_date : date;                 (* dt.date() *)
  hour : Z;
  minute : Z;
  second : Z;
  microsecond : Z;
  utcoffset : option Z;
}.

(** Chronological order of dates. *)
Definition date_lt (d1 d2 : date) : Prop :=
  year d1 < year d2
  ∨ (year d1 = year d2
     ∧ (month d1 < month d2 ∨ (month d1 = month d2 ∧ day d1 < day d2))).

(** *** [date.isoformat]: ["%04d-%02d-%02d"] *)

Definition digit_char (d : Z) : ascii := ascii_of_nat (48 + Z.to_nat d).

(** The [n] low decimal digits of [z], most significant first: ["%0nd"]
    for [0 <= z < 10^n]. *)
Fixpoint zfill (n : nat) (z : Z) : string :=
  match n with
  | O => EmptyString
  | S k => String (digit_char ((z / 10 ^ Z.of_nat k) mod 10)) (zfill k z)
  end.

Definition isoformat (d : date) : string :=
  zfill 4 (year d) +:+ "-" +:+ zfill 2 (month d) +:+ "-" +:+ zfill 2 (day d).

(** *** A model of [datetime.fromisoformat]

    After the reference implementation of Python 3.7 to 3.10
    ([Lib/datetime.py]), which reads
    [YYYY-MM-DD[*HH[:MM[:SS[.fff[fff]]]][+HH:MM[:SS[.ffffff]]]]];
    number fields are runs of ASCII digits. [None]: it raises. *)

Fixpoint read_digits (n : nat) (s : string) (acc : Z) : option (Z * string) :=
  match n with
  | O => Some (acc, s)
  | S k =>
      match s with
      | String c s' => d ← digit_of c; read_digits k s' (10 * acc + d)
      | EmptyString => None
      end
  end.

Definition expect (c : ascii) (s : string) : option string :=
  match s with
  | String c' s' => if Ascii.eqb c c' then Some s' else None
  | EmptyString => None
  end.

(** [s.find(c)]: the text before the first [c] and the text after it. *)
Fixpoint split_on (c : ascii) (s : string) : option (string * string) :=
  match s with
  | EmptyString => None
  | String c' s' =>
      if Ascii.eqb c c' then Some (EmptyString, s')
      else '(a, b) ← split_on c s'; Some (String c' a, b)
  end.

(** [_parse_isoformat_date]: [YYYY-MM-DD], and what follows it. *)
Definition parse_isoformat_date (s : string) : option (Z * Z * Z * string) :=
  '(y, s) ← read_digits 4 s 0;
  s ← expect "-" s;
  '(m, s) ← read_digits 2 s 0;
  s ← expect "-" s;
  '(d, s) ← read_digits 2 s 0;
  Some (y, m, d, s).

(** The fraction of [_parse_hh_mm_ss_ff]: nothing, or [.fff], or
    [.ffffff]. *)
Definition parse_fraction (s : string) : option Z :=
  match s with
  | EmptyString => Some 0
  | String c s' =>
      if Ascii.eqb c "." then
        if (String.length s' =? 3)%nat then
          '(us, _) ← read_digits 3 s' 0; Some (us * 1000)
        else if (String.length s' =? 6)%nat then
          '(us, _) ← read_digits 6 s' 0; Some us
        else None
      else None
  end.

(** [_parse_hh_mm_ss_ff]: [HH[:MM[:SS[.fff[fff]]]]]. *)
Definition parse_hh_mm_ss_ff (s : string) : option (Z * Z * Z * Z) :=
  '(h, s) ← read_digits 2 s 0;
  match s with
  | EmptyString => Some (h, 0, 0, 0)
  | _ =>
      s ← expect ":" s;
      '(mi, s) ← read_digits 2 s 0;
      match s with
      | EmptyString => Some (h, mi, 0, 0)
      | _ =>
          s ← expect ":" s;
          '(sec, s) ← read_digits 2 s 0;
          us ← parse_fraction s;
          Some (h, mi, sec, us)
      end
  end.

(** The offset of [_parse_isoformat_time], in microseconds: the text
    after the sign has length 5, 8 or 15, and [timezone] wants the
    offset strictly between minus and plus one day. *)
Definition parse_offset (negative : bool) (s : string) : option Z :=
  let n := String.length s in
  if ((n =? 5) || (n =? 8) || (n =? 15))%nat then
    '(h, mi, sec, us) ← parse_hh_mm_ss_ff s;
    let off := ((h * 3600 + mi * 60 + sec) * 1000000 + us) in
    if off <? 86400000000 then Some (if negative then - off else off)
    else None
  else None.

(** [_parse_isoformat_time]: the time, then the offset from the first
    ["-"], or else from the first ["+"]. *)
Definition parse_isoformat_time (s : string)
    : option (Z * Z * Z * Z * option Z) :=
  match split_on "-" s with
  | Some (t, z) =>
      hms ← parse_hh_mm_ss_ff t; off ← parse_offset true z;
      Some (hms, Some off)
  | None =>
      match split_on "+" s with
      | Some (t, z) =>
          hms ← parse_hh_mm_ss_ff t; off ← parse_offset false z;
          Some (hms, Some off)
      | None => hms ← parse_hh_mm_ss_ff s; Some (hms, None)
      end
  end.

Definition make_date (y m d : Z) : option date :=
  match Is_true_dec (valid_ymd y m d) with
  | left ok => Some (Date y m d ok)
  | right _ => None
  end.

Definition fromisoformat_model (s : string) : option datetime :=
  '(y, m, d, s) ← parse_isoformat_date s;
  date ← make_date y m d;
  match s with
  | EmptyString => Some (DateTime date 0 0 0 0 None)
  | String _sep EmptyString => Some (DateTime date 0 0 0 0 None)
  | String _sep t =>
      '(h, mi, sec, us, off) ← parse_isoformat_time t;
      if valid_hms h mi sec us then Some (DateTime date h mi sec us off)
      else None
  end.

End Datetime.

(** [datetime.fromisoformat], which the engine takes as given. *)
Class IsoParser := fromisoformat : string → option Datetime.datetime.

(* ===================================================================== *)
(** ** The engine: [compute_metrics] and [ai_insights] *)
(* ===================================================================== *)

(** A trade document: a Python dict from field names to values. *)
Abbreviation trade F := (gmap string (value F)).

Record metrics (F : Type) := Metrics {
  total_return : F;
  win_rate : F;
  volatility : F;
  sharpe : F;
  max_drawdown : F;
}.
Arguments Metrics {F}.
Arguments total_return {F} m.
Arguments win_rate {F} m.
Arguments volatility {F} m.
Arguments sharpe {F} m.
Arguments max_drawdown {F} m.

(** One entry of [daily_list]: [{"timestamp": d, "pnl": daily[d]}]. *)
Record daily_point (F : Type) := DailyPoint {
  timestamp : string;
  pnl : F;
}.
Arguments DailyPoint {F}.
Arguments timestamp {F} d.
Arguments pnl {F} d.

(** The pieces of the f-string of [ai_insights]: literal text, a float
    printed by [str], a float printed with [:.2f]. *)
Inductive fragment (F : Type) :=
| Text (s : string)
| Num (x : F)
| Num2f (x : F).
Arguments Text {F} s.
Arguments Num {F} x.
Arguments Num2f {F} x.

Record insight (F : Type) := Insight {
  title : string;
  message : list (fragment F);
  tags : list string;
  risk_exposure : F;
  snapshot : metrics F;
  forecast_pnl : option F;
}.
Arguments Insight {F}.
Arguments title {F} i.
Arguments message {F} i.
Arguments tags {F} i.
Arguments risk_exposure {F} i.
Arguments snapshot {F} i.
Arguments forecast_pnl {F} i.

Section Engine.
Context {F : Type} {PF : PyFloat F} {P : IsoParser}.
Import Datetime.

(** *** Aggregation into date buckets (lines 159-172) *)

(** Lines 161-166: the date key of a trade, [None] when the [try]
    block raised (no timestamp, not a string, not ISO 8601) and the
    loop goes on to the next trade. *)
Definition parse_day (t : trade F) : option string :=
  match t !! "timestamp" with
  | Some (VStr ts) =>
      dt ← fromisoformat (replace_char "Z" "+00:00" ts);
      Some (isoformat (dt_date dt))
  | _ => None
  end.

(** [float(t.get(key, 0) or 0)]. *)
Definition get_float (t : trade F) (key : string) : result F :=
  float_or_zero (default (VInt 0) (t !! key)).

(** [(t.get("side", "buy")).lower()]. *)
Definition get_side (t : trade F) : result string :=
  match default (VStr "buy") (t !! "side") with
  | VStr s => Ok (lower s)
  | _ => Raise AttributeError
  end.

(** [1 if side == "buy" else -1]. *)
Definition sign_of (side : string) : Z :=
  if String.eqb side "buy" then 1 else -1.

(** Lines 167-171. *)
Definition signed_notional (t : trade F) : result F :=
  qty ← get_float t "quantity";
  price ← get_float t "price";
  side ← get_side t;
  Ok (fmul (fmul price qty) (of_int (sign_of side))).

(** Line 172: [daily[day] = daily.get(day, 0.0) + notional]. *)
Definition add_to_bucket (daily : gmap string F) (day : string) (notional : F)
    : gmap string F :=
  <[day := fadd (default fzero (daily !! day)) notional]> daily.

(** The loop of lines 160-172, from the dict built so far. *)
Fixpoint aggregate (trades : list (trade F)) (daily : gmap string F)
    : result (gmap string F) :=
  match trades with
  | [] => Ok daily
  | t :: rest =>
      match parse_day t with
      | None => aggregate rest daily
      | Some day =>
          notional ← signed_notional t;
          aggregate rest (add_to_bucket daily day notional)
      end
  end.

(** *** The daily series (lines 174-175, 206) *)

(** [sorted(daily.keys())]. *)
Definition sorted_days (daily : gmap string F) : list string :=
  merge_sort String.le (map fst (map_to_list daily)).

(** [daily[d]] for a key [d] of [daily]. *)
Definition bucket (daily : gmap string F) (d : string) : F :=
  default fzero (daily !! d).

Definition daily_list_of (daily : gmap string F) : list (daily_point F) :=
  map (λ d, DailyPoint d (bucket daily d)) (sorted_days daily).

Definition pnl_series_of (daily : gmap string F) : list F :=
  map (bucket daily) (sorted_days daily).

(** *** Statistics (lines 177-196) *)

Definition float_of_nat (n : nat) : F := of_int (Z.of_nat n).

(** [sum(1 for v in pnl_series if v > 0)]. *)
Definition count_wins (series : list F) : nat :=
  length (List.filter (λ v, fltb fzero v) series).

(** Line 179. *)
Definition win_rate_of (series : list F) : F :=
  match series with
  | [] => fzero
  | _ => fmul (fdiv (float_of_nat (count_wins series))
                    (float_of_nat (length series)))
              (of_int 100)
  end.

(** Line 181. *)
Definition mean_of (series : list F) : F :=
  match series with
  | [] => fzero
  | _ => fdiv (py_sum series) (float_of_nat (length series))
  end.

(** Line 182, the generator: [(v - mean) ** 2 for v in pnl_series]. *)
Fixpoint squared_deviations (mean : F) (series : list F) : result (list F) :=
  match series with
  | [] => Ok []
  | v :: rest =>
      s ← py_square (fsub v mean);
      ss ← squared_deviations mean rest;
      Ok (s :: ss)
  end.

(** Line 182. *)
Definition variance_of (series : list F) : result F :=
  if (1 <? length series)%nat then
    squares ← squared_deviations (mean_of series) series;
    Ok (fdiv (py_sum squares) (float_of_nat (length series - 1)))
  else Ok fzero.

(** Line 183. *)
Definition std_of (variance : F) : F := fsqrt variance.

(** Line 184. *)
Definition sharpe_of (mean std : F) : F :=
  if fltb f1e_9 std then fdiv mean std else fzero.

(** The variables of the loop of lines 187-196. [peak = None] is
    [float('-inf')], the peak before the first point. *)
Record drawdown_state := DrawdownState {
  cum : F;
  peak : option F;
  max_dd : F;
}.

(** [cum > peak]. *)
Definition above_peak (c : F) (p : option F) : bool :=
  match p with
  | None => true
  | Some p => fltb p c
  end.

(** One turn of the loop, lines 191-196. *)
Definition drawdown_step (st : drawdown_state) (v : F) : drawdown_state :=
  let c := fadd (cum st) v in
  let p := if above_peak c (peak st) then Some c else peak st in
  let dd := fsub (default c p) c in
  let m := if fltb (max_dd st) dd then dd else max_dd st in
  DrawdownState c p m.

Definition max_drawdown_of (series : list F) : F :=
  max_dd (fold_left drawdown_step series (DrawdownState fzero None fzero)).

(** Lines 177-204. *)
Definition metrics_of (series : list F) : result (metrics F) :=
  let total := py_sum series in
  let win := win_rate_of series in
  let mean := mean_of series in
  variance ← variance_of series;
  let std := std_of variance in
  let sharpe := sharpe_of mean std in
  let max_dd := max_drawdown_of series in
  Ok (Metrics (round_nd total 4) (round_nd win 2) (round_nd std 4)
              (round_nd sharpe 4) (round_nd max_dd 4)).

(** *** [compute_metrics] (lines 157-207) *)
Definition compute_metrics (trades : list (trade F))
    : result (metrics F * list (daily_point F)) :=
  daily ← aggregate trades ∅;
  m ← metrics_of (pnl_series_of daily);
  Ok (m, daily_list_of daily).

(** *** Forecast and message of [ai_insights] (lines 235-258) *)

(** [l[-n:]]. *)
Definition last_n {A} (n : nat) (l : list A) : list A :=
  drop (length l - n) l.

(** Lines 241-243. *)
Definition forecast_of (daily : list (daily_point F)) : option F :=
  match map pnl (last_n 3 daily) with
  | [] => None
  | last => Some (round_nd (fdiv (py_sum last) (float_of_nat (length last))) 4)
  end.

(** Lines 245-250. *)
Definition message_of (m : metrics F) (forecast : option F) : list (fragment F) :=
  [Text "Your win rate is "; Num (win_rate m); Text "%. ";
   Text "Estimated Sharpe "; Num (sharpe m); Text ". ";
   Text "Max drawdown observed "; Num (max_drawdown m); Text ". "]
  ++ match forecast with
     | Some f => [Text "Model projects next-day PnL around "; Num2f f; Text "."]
     | None => [Text "Insufficient data for projection."]
     end.

(** [ai_insights] from the trades of the user on (lines 234-265): the
    insights of the response. The tests of the database handle and of
    the user that come first (lines 228-232) are not part of it. *)
Definition ai_insights (trades : list (trade F)) : result (list (insight F)) :=
  match trades with
  | [] => Ok []
  | _ =>
      '(m, daily) ← compute_metrics trades;
      let forecast := forecast_of daily in
      Ok [Insight "Daily Risk & Trend Overview" (message_of m forecast)
                  ["risk"; "trend"; "forecast"]
                  (volatility m) m forecast]
  end.

End Engine.


(* ===================================================================== *)
(** ** Implementation 1: IEEE 754 binary64, the floats of CPython *)
(* ===================================================================== *)

Module Binary64.
Import FloatLiteral.

(** The double nearest to the integer [n] (ties to even). *)
Definition of_Z (n : Z) : float :=
  SF2Prim (binary_normalize prec emax n 0 false).

(** [float(n)] raises [OverflowError] when the nearest double would be
    an infinity. *)
Definition Z_too_large (n : Z) : bool :=
  match binary_normalize prec emax n 0 false with
  | S754_infinity _ => true
  | _ => false
  end.

(** The double nearest to [(-1)^neg * m * 10^e], for [m >= 0]. *)
Definition of_decimal (neg : bool) (m e : Z) : float :=
  match m with
  | Z.pos p =>
      if 0 <=? e then
        SF2Prim (binary_round prec emax neg (Z.to_pos (Z.pos p * 10 ^ e)) 0)
      else
        SF2Prim (SFdiv prec emax (S754_finite neg p 0)
                       (S754_finite false (Z.to_pos (10 ^ (- e))) 0))
  | _ => if neg then (-0)%float else 0%float
  end.

Definition of_literal (l : literal) : float :=
  match l with
  | LInf neg => if neg then neg_infinity else infinity
  | LNan => nan
  | LDec neg m e => of_decimal neg m e
  end.

(** The integer nearest to [num / den] (ties to even), for [num >= 0]
    and [den > 0]. *)
Definition div_half_even (num den : Z) : Z :=
  let q := num / den in
  let r := num mod den in
  match 2 * r ?= den with
  | Lt => q
  | Gt => q + 1
  | Eq => if Z.even q then q else q + 1
  end.

(** The builtin [round(x, ndigits)] for [ndigits >= 0]: the exact value
    of [x] is rounded to [ndigits] decimals (ties to even), and the
    result is the double nearest to that decimal. *)
Definition round (x : float) (ndigits : Z) : float :=
  match Prim2SF x with
  | S754_finite s m e =>
      let scale := 10 ^ ndigits in
      let n :=
        if 0 <=? e then Z.pos m * 2 ^ e * scale
        else div_half_even (Z.pos m * scale) (2 ^ (- e)) in
      of_decimal s n (- ndigits)
  | _ => x
  end.

(** [x ** 2] raises [OverflowError] when [x] is finite and its square
    is not. *)
Definition pow2_overflows (x : float) : bool :=
  is_finite x && is_infinity (x * x)%float.

(** [x ** 2] and [x ** 0.5] are taken as the correctly rounded square
    and square root. *)
#[global] Instance binary64 : PyFloat float := {|
  of_int := of_Z;
  int_too_large := Z_too_large;
  fadd := PrimFloat.add;
  fsub := PrimFloat.sub;
  fmul := PrimFloat.mul;
  fdiv := PrimFloat.div;
  fsquare := λ x, PrimFloat.mul x x;
  square_overflows := pow2_overflows;
  fsqrt := PrimFloat.sqrt;
  fltb := PrimFloat.ltb;
  feqb := PrimFloat.eqb;
  f1e_9 := 0x1.12e0be826d695p-30%float;
  float_of_str := λ s, of_literal <$> parse s;
  round_nd := round;
|}.

End Binary64.

(* ===================================================================== *)
(** ** Implementation 2: exact arithmetic on the real numbers *)
(* ===================================================================== *)

(** Floats without rounding, overflow, infinities or NaN: the numbers
    the specification reasons with. *)
Module Exact.
Import FloatLiteral.
Local Open Scope R_scope.

#[global] Instance Rlt_decision (x y : R) : Decision (x < y) := Rlt_dec x y.
#[global] Instance Req_decision (x y : R) : Decision (x = y) := Req_dec_T x y.

(** The integer nearest to [x], ties to even. *)
Definition nearest_even (x : R) : Z :=
  let f := Int_part x in
  let r := x - IZR f in
  if decide (r < 1 / 2) then f
  else if decide (1 / 2 < r) then (f + 1)%Z
  else if Z.even f then f else (f + 1)%Z.

(** [round(x, ndigits)] for [ndigits >= 0]. *)
Definition round (x : R) (ndigits : Z) : R :=
  IZR (nearest_even (x * IZR (10 ^ ndigits))) / IZR (10 ^ ndigits).

Definition of_literal (l : literal) : option R :=
  match l with
  | LDec neg m e => Some (IZR (if neg then - m else m) * powerRZ 10 e)
  | _ => None
  end.

#[global] Instance exact : PyFloat R := {|
  of_int := IZR;
  int_too_large := λ _, false;
  fadd := Rplus;
  fsub := Rminus;
  fmul := Rmult;
  fdiv := Rdiv;
  fsquare := λ x, x * x;
  square_overflows := λ _, false;
  fsqrt := R_sqrt.sqrt;
  fltb := λ x y, bool_decide (x < y);
  feqb := λ x y, bool_decide (x = y);
  f1e_9 := / 1000000000;
  float_of_str := λ s, parse s ≫= of_literal;
  round_nd := round;
|}.

End Exact.

(* ===================================================================== *)
(** ** Concrete inputs: the scenarios of the specification *)
(* ===================================================================== *)

Module Scenarios.
Import Binary64.

(** A stored trade document, as [upload_trades] writes it. *)
Definition stored (ts side : string) (qty price : float) : trade float :=
  {[ "symbol" := VStr "ACME"; "timestamp" := VStr ts; "side" := VStr side;
     "quantity" := VFloat qty; "price" := VFloat price; "fees" := VFloat 0%float ]}.

(** Scenario A: a buy and a sell on the same day. *)
Definition scenario_A : list (trade float) :=
  [ stored "2024-03-04T09:30:00" "buy" 10 100;
    stored "2024-03-04T15:45:00Z" "sell" 10 110 ].

(** Scenario B: one buy on each of three days. *)
Definition scenario_B : list (trade float) :=
  [ stored "2024-03-04T09:30:00" "buy" 1 100;
    stored "2024-03-05T09:30:00" "buy" 1 105;
    stored "2024-03-06T09:30:00" "buy" 1 98 ].

(** A document whose quantity is text that is not a number. *)
Definition bad_quantity : trade float :=
  {[ "timestamp" := VStr "2024-03-04T09:30:00"; "side" := VStr "buy";
     "quantity" := VStr "ten"; "price" := VFloat 100%float ]}.

(** A document whose side is [None]. *)
Definition null_side : trade float :=
  {[ "timestamp" := VStr "2024-03-04T09:30:00"; "side" := VNone;
     "quantity" := VFloat 10%float; "price" := VFloat 100%float ]}.

(** A document without a side. *)
Definition no_side : trade float :=
  {[ "timestamp" := VStr "2024-03-04T09:30:00";
     "quantity" := VFloat 10%float; "price" := VFloat 100%float ]}.

(** A document whose timestamp is not ISO 8601. *)
Definition bad_timestamp : trade float :=
  {[ "timestamp" := VStr "04/03/2024"; "side" := VStr "buy";
     "quantity" := VFloat 7%float; "price" := VFloat 3%float ]}.

(** Three fills of one day, and the same three in another order. *)
Definition three_fills : list (trade float) :=
  [ stored "2024-03-04T09:30:00" "buy" 1 0.1;
    stored "2024-03-04T11:00:00" "buy" 1 0.2;
    stored "2024-03-04T15:45:00" "buy" 1 0.3 ].

Definition three_fills_reordered : list (trade float) :=
  [ stored "2024-03-04T15:45:00" "buy" 1 0.3;
    stored "2024-03-04T11:00:00" "buy" 1 0.2;
    stored "2024-03-04T09:30:00" "buy" 1 0.1 ].

(** Two days with the same P&L. *)
Definition two_equal_days : list (trade float) :=
  [ stored "2024-03-04T09:30:00" "buy" 1 5;
    stored "2024-03-05T09:30:00" "buy" 1 5 ].

(** Three days whose P&L is 0, 1e-9 and 2e-9: the standard deviation is
    the double [1e-9] itself. *)
Definition nano_days : list (trade float) :=
  [ stored "2024-03-04T09:30:00" "buy" 1 0;
    stored "2024-03-05T09:30:00" "buy" 1 0x1.12e0be826d695p-30;
    stored "2024-03-06T09:30:00" "buy" 2 0x1.12e0be826d695p-30 ].

(** Three days whose P&L is 1, 1 and 2. *)
Definition thirds : list (trade float) :=
  [ stored "2024-03-04T09:30:00" "buy" 1 1;
    stored "2024-03-05T09:30:00" "buy" 1 1;
    stored "2024-03-06T09:30:00" "buy" 1 2 ].

(** A gain of 1e200 one day, the same loss the next. *)
Definition huge_swing : list (trade float) :=
  [ stored "2024-03-04T09:30:00" "buy" 1 1e200;
    stored "2024-03-05T09:30:00" "sell" 1 1e200 ].

(** A document whose side is written in capitals, and one whose side
    is neither buy nor sell. *)
Definition shouted_buy : trade float :=
  stored "2024-03-04T09:30:00" "BUY" 10 100.

Definition hold_side : trade float :=
  stored "2024-03-04T09:30:00" "hold" 10 100.

(** A document without a quantity and without a side. *)
Definition no_quantity : trade float :=
  {[ "timestamp" := VStr "2024-03-04T09:30:00"; "price" := VFloat 100%float ]}.

(** Three days whose P&L is 100, -30 and 20: the cumulative P&L falls
    from 100 to 70. *)
Definition drawdown_days : list (trade float) :=
  [ stored "2024-03-04T09:30:00" "buy" 1 100;
    stored "2024-03-05T09:30:00" "sell" 1 30;
    stored "2024-03-06T09:30:00" "buy" 1 20 ].

Definition series_D : list (daily_point float) :=
  [ {| timestamp := "2024-03-04"; pnl := 100%float |};
    {| timestamp := "2024-03-05"; pnl := (-30)%float |};
    {| timestamp := "2024-03-06"; pnl := 20%float |} ].

Definition metrics_D : metrics float :=
  {| total_return := 90%float; win_rate := 66.67%float;
     volatility := 65.5744%float; sharpe := 0.4575%float;
     max_drawdown := 30%float |}.

(** Two days whose P&L is 1 and [-2^-15]: the cumulative P&L falls by
    [2^-15], less than half of [0.0001]. *)
Definition tiny_drawdown : list (trade float) :=
  [ stored "2024-03-04T09:30:00" "buy" 1 1;
    stored "2024-03-05T09:30:00" "sell" 1 0x1p-15 ].

(** A single stored trade, its numbers as the reals they are. *)
Definition one_trade : list (trade R) :=
  [ {[ "timestamp" := VStr "2024-03-04T09:30:00"; "side" := VStr "buy";
       "quantity" := VInt 10; "price" := VInt 100 ]} ].

(** Scenario B, as the engine returns it on binary64. *)
Definition series_B : list (daily_point float) :=
  [ {| timestamp := "2024-03-04"; pnl := 100%float |};
    {| timestamp := "2024-03-05"; pnl := 105%float |};
    {| timestamp := "2024-03-06"; pnl := 98%float |} ].

Definition metrics_B : metrics float :=
  {| total_return := 303%float; win_rate := 100%float;
     volatility := 3.6056%float; sharpe := 28.0124%float;
     max_drawdown := 0%float |}.

(** The P&L of [one_trade], a buy of 10 at 100, in exact arithmetic. *)
Definition pnl_one : R := (0 + 100 * 10 * 1)%R.

End Scenarios.


(* ===================================================================== *)
(** ** The engine on binary64 with the model of [fromisoformat] *)
(* ===================================================================== *)

Module CPython.
Import Binary64.

Definition compute_metrics64 : list (trade float) → result (metrics float * list (daily_point float)) :=
  compute_metrics (PF := binary64) (P := Datetime.fromisoformat_model).

Definition aggregate64 : list (trade float) → gmap string float → result (gmap string float) :=
  aggregate (PF := binary64) (P := Datetime.fromisoformat_model).

Definition ai_insights64 : list (trade float) → result (list (insight float)) :=
  ai_insights (PF := binary64) (P := Datetime.fromisoformat_model).

End CPython.


(* ===================================================================== *)
(** ** Vocabulary of the specification *)
(* ===================================================================== *)

Section Shapes.
Context {F : Type} {PF : PyFloat F} {P : IsoParser}.

(** A quantity or price the engine can turn into a float: absent,
    [None], a bool, a float, an int within the range of floats, the
    empty string or the text of a number. *)
Definition numeric_shape (v : option (value F)) : Prop :=
  match v with
  | None | Some VNone | Some (VBool _) | Some (VFloat _) => True
  | Some (VInt n) => n = 0 ∨ int_too_large n = false
  | Some (VStr s) => s = "" ∨ is_Some (float_of_str s)
  end.

(** A side the engine can lower: absent, or a string. *)
Definition side_shape (v : option (value F)) : Prop :=
  match v with
  | None | Some (VStr _) => True
  | _ => False
  end.

Definition well_shaped (t : trade F) : Prop :=
  numeric_shape (t !! "quantity") ∧ numeric_shape (t !! "price")
  ∧ side_shape (t !! "side").

(** The trade has a timestamp that parses. *)
Definition has_day (t : trade F) : bool :=
  bool_decide (is_Some (parse_day t)).

End Shapes.

Section Buckets.
Context {F : Type} {PF : PyFloat F} {P : IsoParser}.

(** The notionals of the trades dated [day], in input order. *)
Definition day_notionals (day : string) (trades : list (trade F)) : list F :=
  omap (λ t, if decide (parse_day t = Some day)
             then match signed_notional t with
                  | Ok n => Some n
                  | Raise _ => None
                  end
             else None) trades.

(** A bucket after one more notional: [daily.get(day, 0.0) + notional]. *)
Definition bucket_add (b : option F) (n : F) : option F :=
  Some (fadd (default fzero b) n).

(** The trades keep their order within each date. *)
Definition same_order_within_days (l1 l2 : list (trade F)) : Prop :=
  ∀ day, List.filter (λ t, bool_decide (parse_day t = Some day)) l1
         = List.filter (λ t, bool_decide (parse_day t = Some day)) l2.

End Buckets.

Section Statistics.
Context {F : Type} {PF : PyFloat F}.

(** The larger of two floats, the way [if a < b] picks it. *)
Definition fmax (a b : F) : F := if fltb a b then b else a.

(** The cumulative P&L after each day, summed left to right from [c]. *)
Fixpoint cumulative_from (c : F) (series : list F) : list F :=
  match series with
  | [] => []
  | v :: rest => fadd c v :: cumulative_from (fadd c v) rest
  end.

Definition cumulative (series : list F) : list F := cumulative_from fzero series.

(** The running peak of a cumulative series: the first value is the
    first peak. *)
Fixpoint running_peak_from (p : F) (cums : list F) : list F :=
  match cums with
  | [] => []
  | c :: rest => fmax p c :: running_peak_from (fmax p c) rest
  end.

Definition running_peak (cums : list F) : list F :=
  match cums with
  | [] => []
  | c :: rest => c :: running_peak_from c rest
  end.

(** Running peak minus cumulative P&L, day by day. *)
Definition drawdowns (series : list F) : list F :=
  zip_with fsub (running_peak (cumulative series)) (cumulative series).

(** The drawdowns the loop sees from a state on: [p] is the peak so
    far, [None] before the first point. *)
Fixpoint drawdowns_from (c : F) (p : option F) (series : list F) : list F :=
  match series with
  | [] => []
  | v :: rest =>
      let c' := fadd c v in
      let p' := match p with None => c' | Some q => fmax q c' end in
      fsub p' c' :: drawdowns_from c' (Some p') rest
  end.

(** The largest element of a list of drawdowns, [0.0] when there is
    none. *)
Definition largest (dds : list F) : F := fold_left fmax dds fzero.

(** The sample variance: squared deviations from the mean, summed, over
    [count - 1]; [0.0] for fewer than two values. *)
Definition sample_variance (series : list F) : F :=
  let n := length series in
  let mean := fdiv (py_sum series) (float_of_nat n) in
  match n with
  | O | S O => fzero
  | _ => fdiv (py_sum (map (λ v, fsquare (fsub v mean)) series))
              (float_of_nat (n - 1))
  end.

(** What [metrics_of] returns, when it returns: the statistics of
    lines 177-196 with the sample variance, each rounded for
    presentation. *)
Definition summary (series : list F) : metrics F :=
  let std := fsqrt (sample_variance series) in
  Metrics (round_nd (py_sum series) 4)
          (round_nd (win_rate_of series) 2)
          (round_nd std 4)
          (round_nd (sharpe_of (mean_of series) std) 4)
          (round_nd (max_drawdown_of series) 4).

(** No squared deviation from the mean leaves the range of floats. *)
Definition squares_in_range (series : list F) : Prop :=
  (length series ≤ 1)%nat
  ∨ Forall (λ v, square_overflows (fsub v (mean_of series)) = false) series.

(** The number of values above zero. *)
Definition count_positive (series : list F) : nat :=
  length (filter (λ v, fltb fzero v = true) series).

(** The mean of the last [min 3 (length series)] values. *)
Definition mean_of_last_three (series : list F) : F :=
  let k := Nat.min 3 (length series) in
  fdiv (py_sum (drop (length series - k) series)) (float_of_nat k).

End Statistics.

(* ===================================================================== *)
(** ** The drawdown loop as written, on binary64 *)
(* ===================================================================== *)

Module Binary64Loop.

(** The variables of the loop of lines 187-196 as floats:
    [peak = float('-inf')] at the start. *)
Record literal_state := LiteralState {
  lcum : float;
  lpeak : float;
  lmax_dd : float;
}.

(** Lines 191-196, as written. *)
Definition literal_step (st : literal_state) (v : float) : literal_state :=
  let c := (lcum st + v)%float in
  let p := if (lpeak st <? c)%float then c else lpeak st in
  let dd := (p - c)%float in
  let m := if (lmax_dd st <? dd)%float then dd else lmax_dd st in
  LiteralState c p m.

Definition literal_max_drawdown (series : list float) : float :=
  lmax_dd (fold_left literal_step series (LiteralState 0 neg_infinity 0)).

(** The state while the cumulative P&L has not fallen: no drawdown yet,
    and the peak equal to the cumulative P&L. *)
Definition at_peak (st : drawdown_state) : Prop :=
  max_dd st = 0%float
  ∧ ∃ p, peak st = Some p ∧ (p = cum st ∨ (p =? cum st)%float = true).

(** A NaN or minus infinity: what is not above minus infinity. *)
Definition low (x : float) : Prop :=
  Prim2SF x = S754_nan ∨ Prim2SF x = S754_infinity true.

(** The state of the engine, whose peak is absent at the start, against
    the state of the loop as written. *)
Definition same_state (l : literal_state) (st : drawdown_state) : Prop :=
  lcum l = cum st ∧ lmax_dd l = max_dd st
  ∧ ((peak st = None ∧ lpeak l = neg_infinity)
     ∨ peak st = Some (lpeak l)
     ∨ (∃ p, peak st = Some p ∧ lpeak l = neg_infinity ∧ low p ∧ low (cum st))).

(** The sign bit of a number; a NaN has none. *)
Definition has_sign (s : bool) (x : spec_float) : Prop :=
  match x with
  | S754_zero s' | S754_infinity s' | S754_finite s' _ _ => s' = s
  | S754_nan => False
  end.

(** The order of floats, as a relation. *)
Definition float_le (a b : float) : Prop := (a <=? b)%float = true.

End Binary64Loop.

(* ===================================================================== *)
(** ** Bounds on binary64 numbers *)
(* ===================================================================== *)

(** How a binary64 number given by mantissa and exponent compares with
    a number [c * 2^t] that is itself a binary64 number. *)
Module Binary64Order.

(** Whether digits were lost: 0 when the location is exact. *)
Definition inexact (l : location) : Z :=
  match l with loc_Exact => 0 | loc_Inexact _ => 1 end.

Definition record_inexact (r : shr_record) : Z :=
  if shr_r r || shr_s r then 1 else 0.

(** [x] is [+0.0], or a positive number not above [c * 2^t]. *)
Definition below (c t : Z) (x : spec_float) : Prop :=
  x = S754_zero false
  ∨ ∃ m e, x = S754_finite false m e
           ∧ e ≤ t ∧ Z.pos m ≤ c * 2 ^ (t - e) ∧ Z.pos m < 2 ^ 53.

(** [x] is the number [c * 2^t]. *)
Definition exactly (c t : Z) (x : spec_float) : Prop :=
  ∃ m e, x = S754_finite false m e
         ∧ e ≤ t ∧ Z.pos m = c * 2 ^ (t - e) ∧ Z.pos m < 2 ^ 53.

(** [c * 2^t] with [c] of at most 53 bits and [t] an exponent of the
    format. *)
Definition representable (c t : Z) : Prop :=
  0 < c < 2 ^ 53 ∧ -1074 ≤ t ≤ 971.

(** The mantissa of a shift record against a bound [b]: with the lost
    digits counted as one unit, strictly, and exactly. *)
Definition under (b : Z) (r : shr_record) : Prop :=
  0 ≤ shr_m r ∧ shr_m r + record_inexact r ≤ b.

Definition strictly_under (b : Z) (r : shr_record) : Prop :=
  0 ≤ shr_m r < b.

Definition just (b : Z) (r : shr_record) : Prop :=
  shr_m r = b ∧ record_inexact r = 0 ∧ 0 ≤ b.

End Binary64Order.

(** Floats above zero, and the side of zero a float is on. *)
Module Binary64Gain.

(** The mantissa [m] at the exponent [e] is not under [c * 2^t], for
    [c] of at most 53 bits: either by its value at an exponent not
    above [t], or because it fills 53 bits at an exponent above [t]. *)
Definition reaches (c t m e : Z) : Prop :=
  (e ≤ t ∧ c * 2 ^ (t - e) ≤ m) ∨ (t < e ∧ 2 ^ 52 ≤ m).

(** [x] is [+inf] or a positive number not under [c * 2^t]. *)
Definition above (c t : Z) (x : spec_float) : Prop :=
  x = S754_infinity false
  ∨ ∃ m e, x = S754_finite false m e ∧ reaches c t (Z.pos m) e.

Definition at_least (b : Z) (r : shr_record) : Prop := b ≤ shr_m r.

(** A float above zero: a positive number or [+inf]. *)
Definition positive64 (x : float) : Prop :=
  match Prim2SF x with
  | S754_finite false _ _ | S754_infinity false => True
  | _ => False
  end.

(** [y] is not on the other side of zero than the sign [s]: it is a
    NaN, a zero, or a number or infinity of sign [s]. *)
Definition sided (s : bool) (y : spec_float) : Prop :=
  match y with
  | S754_finite s' _ _ | S754_infinity s' => s' = s
  | _ => True
  end.

End Binary64Gain.

(* ===================================================================== *)
(** ** The handlers around the engine: upload and summary *)
(* ===================================================================== *)

(** [datetime.isoformat], which [upload_trades] takes as given. *)
Class IsoPrinter := dt_isoformat : Datetime.datetime → string.

Module DatetimeText.
Import Datetime.

(** [_format_time] with [timespec='auto']: the microseconds are
    printed when they are not zero. *)
Definition format_time (h mi s us : Z) : string :=
  zfill 2 h +:+ ":" +:+ zfill 2 mi +:+ ":" +:+ zfill 2 s
  +:+ (if us =? 0 then "" else "." +:+ zfill 6 us).

(** [_format_offset], the offset in microseconds. *)
Definition format_offset (off : option Z) : string :=
  match off with
  | None => ""
  | Some off =>
      let sign := if off <? 0 then "-" else "+" in
      let off := Z.abs off in
      let hh := off / 3600000000 in
      let mm := (off mod 3600000000) / 60000000 in
      let ss := off mod 60000000 in
      sign +:+ zfill 2 hh +:+ ":" +:+ zfill 2 mm
      +:+ (if ss =? 0 then ""
           else ":" +:+ zfill 2 (ss / 1000000)
                +:+ (if ss mod 1000000 =? 0 then ""
                     else "." +:+ zfill 6 (ss mod 1000000)))
  end.

(** A model of [datetime.isoformat()] after [Lib/datetime.py]. *)
Definition isoformat_model (dt : datetime) : string :=
  isoformat (dt_date dt) +:+ "T"
  +:+ format_time (hour dt) (minute dt) (second dt) (microsecond dt)
  +:+ format_offset (utcoffset dt).

End DatetimeText.

Module Http.

(** The [detail] of an [HTTPException]: a fixed text. *)
Inductive detail :=
| Message (text : string).

(** What a handler answers: its return value, or the [HTTPException]
    it raises. *)
Inductive response (A : Type) :=
| Respond (body : A)
| HTTPException (status_code : Z) (d : detail).
Arguments Respond {A} body.
Arguments HTTPException {A} status_code d.

End Http.
Export Http.

Section Handlers.
Context {F : Type} {PF : PyFloat F} {P : IsoParser} {Pr : IsoPrinter}.

(** What a [try] whose handler is [except Exception] keeps of an
    expression: its value, or nothing when it raised. *)
Definition caught {A} (r : result A) : option A :=
  match r with
  | Ok a => Some a
  | Raise _ => None
  end.

(** [v or other]. *)
Definition py_or (v other : value F) : value F :=
  if truthy v then v else other.

(** [v.lower()]; nothing when [v] is not a string
    ([AttributeError]). *)
Definition lower_of (v : value F) : option string :=
  match v with
  | VStr s => Some (lower s)
  | _ => None
  end.

(** Line 145:
    [datetime.fromisoformat(v.replace("Z", "+00:00")).isoformat()]. *)
Definition stored_timestamp (v : value F) : option string :=
  match v with
  | VStr ts =>
      dt ← fromisoformat (replace_char "Z" "+00:00" ts);
      Some (dt_isoformat dt)
  | _ => None
  end.

(** Lines 138-148: the record built from a CSV row, nothing when
    building it raises ([r["symbol"]] on a row without that column is
    a [KeyError]). *)
Definition record_of_row (user_id : string) (r : trade F) : option (trade F) :=
  symbol ← r !! "symbol";
  asset_type ← lower_of (py_or (default VNone (r !! "asset_type")) (VStr "stock"));
  quantity ← r !! "quantity" ≫= λ v, caught (py_float v);
  price ← r !! "price" ≫= λ v, caught (py_float v);
  side ← r !! "side" ≫= lower_of;
  ts ← r !! "timestamp" ≫= stored_timestamp;
  fees ← caught (get_float r "fees");
  Some {[ "user_id" := VStr user_id; "symbol" := symbol;
          "asset_type" := VStr asset_type;
          "quantity" := VFloat quantity; "price" := VFloat price;
          "side" := VStr side; "timestamp" := VStr ts;
          "fees" := VFloat fees;
          "notes" := py_or (default VNone (r !! "notes")) VNone ]}.

(** The records [upload_trades] hands to [create_document], in row
    order. *)
Definition uploaded_records (user_id : string) (rows : list (trade F))
    : list (trade F) :=
  omap (record_of_row user_id) rows.

Section Store.
(** The database as a state [D]; [create_document collection data]
    returns the new state and the id it gives back, nothing when it
    raises. *)
Context {D : Type} (create_document : string → trade F → D → D * option string).

(** The loop of lines 135-152, from the count so far. *)
Fixpoint insert_rows (user_id : string) (rows : list (trade F)) (store : D)
    (inserted : nat) : nat * D :=
  match rows with
  | [] => (inserted, store)
  | r :: rest =>
      match record_of_row user_id r with
      | None => insert_rows user_id rest store inserted
      | Some rec =>
          match create_document "trade" rec store with
          | (store', Some _) => insert_rows user_id rest store' (S inserted)
          | (store', None) => insert_rows user_id rest store' inserted
          end
      end
  end.

End Store.

(** The [metrics] dict with each value changed by [f]. *)
Definition metrics_map {A B} (f : A → B) (m : metrics A) : metrics B :=
  Metrics (f (total_return m)) (f (win_rate m)) (f (volatility m))
          (f (sharpe m)) (f (max_drawdown m)).

(** [portfolio_summary] (lines 210-223). [db_truth] is what [bool(db)]
    gives for the handle [db] that [database.py] hands out:
    [Ok false] for [None], the answer of its [__bool__] or [__len__]
    for an object, and the exception when that raises (the [Database]
    of pymongo raises [NotImplementedError]: it has no truth value).
    [user] is the [str(user["_id"])] of the user [_find_user_by_token]
    found, [trades] what [get_documents] returns for that user. The
    metrics of the answer are the int [0] for a user without trades,
    floats otherwise. An exception of [compute_metrics] passes
    through. *)
Definition portfolio_summary (db_truth : result bool) (user : option string)
    (trades : list (trade F))
    : result (response (metrics (value F) * list (daily_point F))) :=
  db ← db_truth;
  if negb db then
    Ok (HTTPException 500 (Message "Database not configured"))
  else
    match user with
    | None => Ok (HTTPException 401 (Message "Invalid user token"))
    | Some _ =>
        match trades with
        | [] =>
            Ok (Respond (Metrics (VInt 0) (VInt 0) (VInt 0) (VInt 0) (VInt 0), []))
        | _ =>
            '(m, daily) ← compute_metrics trades;
            Ok (Respond (metrics_map VFloat m, daily))
        end
    end.

(** [float(v)] for each value of a [metrics] dict. *)
Definition metrics_numbers (m : metrics (value F)) : result (metrics F) :=
  a ← py_float (total_return m);
  b ← py_float (win_rate m);
  c ← py_float (volatility m);
  d ← py_float (sharpe m);
  e ← py_float (max_drawdown m);
  Ok (Metrics a b c d e).

(** The answer of [portfolio_summary] with [float] applied to each
    metric. *)
Definition answer_numbers
    (a : response (metrics (value F) * list (daily_point F)))
    : result (response (metrics F * list (daily_point F))) :=
  match a with
  | Respond (mv, daily) => m ← metrics_numbers mv; Ok (Respond (m, daily))
  | HTTPException c d => Ok (HTTPException c d)
  end.

(** The trade with its side in lower case. *)
Definition with_lower_side (t : trade F) : trade F :=
  match t !! "side" with
  | Some (VStr s) => <["side" := VStr (lower s)]> t
  | _ => t
  end.

(** The trade stamped [ts]. *)
Definition stamped (ts : string) (t : trade F) : trade F :=
  <["timestamp" := VStr ts]> t.

End Handlers.

(** Whether the character occurs in the string. *)
Fixpoint has_char (c : ascii) (s : string) : bool :=
  match s with
  | EmptyString => false
  | String c' s' => Ascii.eqb c' c || has_char c s'
  end.

Module Uploads.

(** A store that keeps the documents in insertion order and never
    refuses one; the id it gives back is the count of documents. *)
Definition append_document (collection : string) (doc : trade float)
    (store : list (trade float)) : list (trade float) * option string :=
  (store ++ [doc], Some (Datetime.zfill 4 (Z.of_nat (length store)))).

(** [upload_trades] on binary64, with the models of [fromisoformat]
    and [isoformat]. *)
Definition record64 : string → trade float → option (trade float) :=
  record_of_row (PF := Binary64.binary64) (P := Datetime.fromisoformat_model)
    (Pr := DatetimeText.isoformat_model).

Definition uploaded64 : string → list (trade float) → list (trade float) :=
  uploaded_records (PF := Binary64.binary64)
    (P := Datetime.fromisoformat_model) (Pr := DatetimeText.isoformat_model).

Definition insert64 : string → list (trade float) → list (trade float) → nat
    → nat * list (trade float) :=
  insert_rows (PF := Binary64.binary64) (P := Datetime.fromisoformat_model)
    (Pr := DatetimeText.isoformat_model) append_document.

(** Rows as [csv.DictReader] yields them: every value a string. *)
Definition row (symbol asset_type quantity price side timestamp : string)
    : trade float :=
  {[ "symbol" := VStr symbol; "asset_type" := VStr asset_type;
     "quantity" := VStr quantity; "price" := VStr price;
     "side" := VStr side; "timestamp" := VStr timestamp ]}.

(** A row whose side is neither buy nor sell, and its record. *)
Definition hold_row : trade float :=
  row "BTC" "crypto" "2" "50" "Hold" "2024-03-05T09:30:00".

Definition hold_record : trade float :=
  {[ "user_id" := VStr "u1"; "symbol" := VStr "BTC";
     "asset_type" := VStr "crypto";
     "quantity" := VFloat 2%float; "price" := VFloat 50%float;
     "side" := VStr "hold"; "timestamp" := VStr "2024-03-05T09:30:00";
     "fees" := VFloat 0%float; "notes" := VNone ]}.

(** A row without a quantity. *)
Definition blank_row : trade float :=
  row "AAPL" "stock" "" "100" "buy" "2024-03-04T10:30:00Z".

(** Three rows: an upper-case buy, a quantity that is not a number, a
    side that is neither buy nor sell. *)
Definition rows_A : list (trade float) :=
  [ row "AAPL" "stock" "10" "100" "BUY" "2024-03-04T09:30:00Z";
    row "AAPL" "stock" "ten" "100" "buy" "2024-03-04T10:30:00Z";
    hold_row ].

(** One trade with its side in upper case, and in lower case. *)
Definition upper_buy : list (trade float) :=
  [ Scenarios.stored "2024-03-04T09:30:00" "BUY" 1 100 ].

Definition lower_buy : list (trade float) :=
  [ Scenarios.stored "2024-03-04T09:30:00" "buy" 1 100 ].

(** Scenario A, as the engine returns it on binary64. *)
Definition series_A : list (daily_point float) :=
  [ {| timestamp := "2024-03-04"; pnl := (-100)%float |} ].

Definition metrics_A : metrics float :=
  {| total_return := (-100)%float; win_rate := 0%float;
     volatility := 0%float; sharpe := 0%float; max_drawdown := 0%float |}.

End Uploads.

(* ===================================================================== *)
(** ** The diagnostic handler *)
(* ===================================================================== *)

Module Diagnostics.

(** What [test_database] asks of the database handle: [db.name]
    ([None] when the handle has no such attribute) and
    [db.list_collection_names()]. [inl text] stands for an exception
    whose [str] is [text]. *)
Record handle := Handle {
  name : string + option string;
  list_collection_names : string + list string;
}.

(** The [response] dict. *)
Record report := Report {
  backend : string;
  database : string;
  database_url : option string;
  database_name : option string;
  connection_status : string;
  collections : list string;
}.

Definition set_database (v : string) (r : report) : report :=
  Report (backend r) v (database_url r) (database_name r)
         (connection_status r) (collections r).

Definition set_database_url (v : option string) (r : report) : report :=
  Report (backend r) (database r) v (database_name r)
         (connection_status r) (collections r).

Definition set_database_name (v : option string) (r : report) : report :=
  Report (backend r) (database r) (database_url r) v
         (connection_status r) (collections r).

Definition set_connection_status (v : string) (r : report) : report :=
  Report (backend r) (database r) (database_url r) (database_name r)
         v (collections r).

Definition set_collections (v : list string) (r : report) : report :=
  Report (backend r) (database r) (database_url r) (database_name r)
         (connection_status r) v.

(** The truth value of [os.getenv(...)]: set, and not empty. *)
Definition env_set (v : option string) : bool :=
  match v with
  | Some s => negb (String.eqb s "")
  | None => false
  end.

(** [str(e)[:50]] (for ASCII text). *)
Definition first_50 (text : string) : string := String.substring 0 50 text.

(** [test_database] (lines 64-93); [db] is [None] when the module's
    handle is [None], the two others are the environment variables. *)
Definition test_database (db : option handle)
    (DATABASE_URL DATABASE_NAME : option string) : report :=
  let response :=
    Report "✅ Running" "❌ Not Available" None None "Not Connected" [] in
  let response :=
    match db with
    | Some h =>
        let response := set_database "✅ Available" response in
        let response := set_database_url (Some "✅ Configured") response in
        match name h with
        | inl text =>
            set_database ("❌ Error: " +:+ first_50 text) response
        | inr n =>
            let response :=
              set_database_name (Some (default "✅ Connected" n)) response in
            let response := set_connection_status "Connected" response in
            match list_collection_names h with
            | inr cs =>
                set_database "✅ Connected & Working"
                  (set_collections (take 10 cs) response)
            | inl text =>
                set_database ("⚠️  Connected but Error: " +:+ first_50 text)
                  response
            end
        end
    | None => set_database "⚠️  Available but not initialized" response
    end in
  let response :=
    set_database_url
      (Some (if env_set DATABASE_URL then "✅ Set" else "❌ Not Set"))
      response in
  set_database_name
    (Some (if env_set DATABASE_NAME then "✅ Set" else "❌ Not Set"))
    response.

End Diagnostics.

(* ===================================================================== *)
(** ** Aggregation: one trade at a time *)
(* ===================================================================== *)

Section AggregationFacts.
Context {F : Type} {PF : PyFloat F} {P : IsoParser}.
Implicit Types (t : trade F) (daily : gmap string F).

Lemma aggregate_skip t rest daily :
  parse_day t = None → aggregate (t :: rest) daily = aggregate rest daily.
Proof. intros E. cbn. by rewrite E. Qed.

Lemma aggregate_add t rest daily day n :
  parse_day t = Some day → signed_notional t = Ok n →
  aggregate (t :: rest) daily = aggregate rest (add_to_bucket daily day n).
Proof. intros E1 E2. cbn. by rewrite E1, E2. Qed.

Lemma aggregate_raise t rest daily day e :
  parse_day t = Some day → signed_notional t = Raise e →
  aggregate (t :: rest) daily = Raise e.
Proof. intros E1 E2. cbn. by rewrite E1, E2. Qed.

Lemma signed_notional_with_side t qty price side :
  get_float t "quantity" = Ok qty → get_float t "price" = Ok price →
  t !! "side" = Some (VStr side) →
  signed_notional t = Ok (fmul (fmul price qty) (of_int (sign_of (lower side)))).
Proof.
  intros Eq Ep Es. unfold signed_notional, get_side. by rewrite Eq, Ep, Es.
Qed.

Lemma signed_notional_without_side t qty price :
  get_float t "quantity" = Ok qty → get_float t "price" = Ok price →
  t !! "side" = None →
  signed_notional t = Ok (fmul (fmul price qty) (of_int 1)).
Proof.
  intros Eq Ep Es. unfold signed_notional, get_side. by rewrite Eq, Ep, Es.
Qed.

End AggregationFacts.
(* ===================================================================== *)
(** ** C1: the signed notional *)
(* ===================================================================== *)

Section LowerCase.

(** The characters [str.lower] sends to a letter of ["buy"]. *)
Lemma lower_ascii_b (c : ascii) :
  lower_ascii c = "b"%char → c = "b"%char ∨ c = "B"%char.
Proof.
  destruct c as [[] [] [] [] [] [] [] []]; vm_compute; intros H;
    first [discriminate H | by left | by right].
Qed.

Lemma lower_ascii_u (c : ascii) :
  lower_ascii c = "u"%char → c = "u"%char ∨ c = "U"%char.
Proof.
  destruct c as [[] [] [] [] [] [] [] []]; vm_compute; intros H;
    first [discriminate H | by left | by right].
Qed.

Lemma lower_ascii_y (c : ascii) :
  lower_ascii c = "y"%char → c = "y"%char ∨ c = "Y"%char.
Proof.
  destruct c as [[] [] [] [] [] [] [] []]; vm_compute; intros H;
    first [discriminate H | by left | by right].
Qed.

(** The strings whose lower case is ["buy"]. *)
Lemma lower_is_buy (side : string) :
  lower side = "buy"
  ↔ side ∈ ["buy"; "buY"; "bUy"; "bUY"; "Buy"; "BuY"; "BUy"; "BUY"].
Proof.
  split.
  - destruct side as [|c1 [|c2 [|c3 [|c4 rest]]]]; cbn [lower]; try done.
    intros [= H1 H2 H3].
    apply lower_ascii_b in H1 as [-> | ->];
      apply lower_ascii_u in H2 as [-> | ->];
      apply lower_ascii_y in H3 as [-> | ->];
      rewrite !elem_of_cons; auto 10.
  - rewrite !elem_of_cons, elem_of_nil.
    intros [->|[->|[->|[->|[->|[->|[->|[->|[]]]]]]]]]; reflexivity.
Qed.

End LowerCase.

(** C1. A trade whose timestamp parses adds [price * quantity * sign] to
    the bucket of its date, where [sign] is [1] when the lowered side is
    ["buy"] and [-1] for every other side string. The lowered side is
    ["buy"] for the eight ways of writing the word in small and capital
    letters, and for no other string. On scenario A the one daily point
    is [-100], the total return [-100], the win rate [0]; on binary64 a
    buy of 10 at 100 written ["BUY"] adds [1000], and the same trade
    with the side ["hold"] adds [-1000]. *)
Theorem notional_is_price_times_quantity_times_sign :
  (∀ (F : Type) (PF : PyFloat F) (P : IsoParser)
     (t : trade F) (rest : list (trade F)) (daily : gmap string F)
     (day side : string) (qty price : F),
     parse_day t = Some day →
     get_float t "quantity" = Ok qty →
     get_float t "price" = Ok price →
     t !! "side" = Some (VStr side) →
     aggregate (t :: rest) daily =
     aggregate rest
       (<[day := fadd (default fzero (daily !! day))
                      (fmul (fmul price qty)
                            (of_int (if String.eqb (lower side) "buy" then 1 else -1)))]>
          daily))
  ∧ (∀ side : string,
       lower side = "buy"
       ↔ side ∈ ["buy"; "buY"; "bUy"; "bUY"; "Buy"; "BuY"; "BUy"; "BUY"])
  ∧ CPython.compute_metrics64 Scenarios.scenario_A =
    Ok ({| total_return := (-100)%float; win_rate := 0%float;
           volatility := 0%float; sharpe := 0%float; max_drawdown := 0%float |},
        [ {| timestamp := "2024-03-04"; pnl := (-100)%float |} ])
  ∧ CPython.aggregate64 [Scenarios.shouted_buy] ∅
    = Ok {[ "2024-03-04" := 1000%float ]}
  ∧ CPython.aggregate64 [Scenarios.hold_side] ∅
    = Ok {[ "2024-03-04" := (-1000)%float ]}.
Proof.
  split; [|split; [|split; [|split]]].
  - intros F PF P t rest daily day side qty price Eday Eq Ep Es.
    erewrite aggregate_add; [reflexivity | exact Eday |].
    by apply signed_notional_with_side.
  - apply lower_is_buy.
  - vm_compute. reflexivity.
  - vm_compute. reflexivity.
  - vm_compute. reflexivity.
Qed.

Lemma notional_is_price_times_quantity_times_sign_witness :
  CPython.aggregate64 [Scenarios.stored "2024-03-04T15:45:00Z" "BUY" 10 110] ∅ =
  Ok {[ "2024-03-04" := 1100%float ]}.
Proof.
  unfold CPython.aggregate64.
  rewrite (proj1 notional_is_price_times_quantity_times_sign
             float Binary64.binary64 Datetime.fromisoformat_model
             (Scenarios.stored "2024-03-04T15:45:00Z" "BUY" 10 110) [] ∅
             "2024-03-04" "BUY" 10%float 110%float);
    [ vm_compute; reflexivity | vm_compute; reflexivity .. ].
Defined.

(* ===================================================================== *)
(** ** Dates and their ISO text *)
(* ===================================================================== *)

Module DatetimeFacts.
Import Datetime.

Lemma date_ranges (d : date) :
  1 <= year d <= 9999 ∧ 1 <= month d <= 12 ∧ 1 <= day d <= 31.
Proof.
  pose proof (date_ok d) as Hok. unfold valid_ymd in Hok.
  repeat (apply andb_prop_elim in Hok as [Hok ?]).
  repeat match goal with
         | H : Is_true (_ <=? _) |- _ => apply Is_true_true, Z.leb_le in H
         end.
  assert (days_in_month (year d) (month d) <= 31).
  { unfold days_in_month. repeat case_match; lia. }
  lia.
Qed.

Lemma compare_digit_char (a b : Z) :
  0 <= a <= 9 → 0 <= b <= 9 →
  Ascii.compare (digit_char a) (digit_char b) = (a ?= b).
Proof.
  intros Ha Hb.
  assert (a = 0 ∨ a = 1 ∨ a = 2 ∨ a = 3 ∨ a = 4 ∨ a = 5 ∨ a = 6 ∨ a = 7
          ∨ a = 8 ∨ a = 9) as Ca by lia.
  assert (b = 0 ∨ b = 1 ∨ b = 2 ∨ b = 3 ∨ b = 4 ∨ b = 5 ∨ b = 6 ∨ b = 7
          ∨ b = 8 ∨ b = 9) as Cb by lia.
  clear Ha Hb.
  repeat (destruct Ca as [->|Ca]); try subst a;
    repeat (destruct Cb as [->|Cb]); try subst b; reflexivity.
Qed.

Lemma digit_split (k : nat) (x : Z) :
  0 <= x →
  x mod 10 ^ Z.of_nat (S k)
  = 10 ^ Z.of_nat k * ((x / 10 ^ Z.of_nat k) mod 10) + x mod 10 ^ Z.of_nat k.
Proof.
  intros Hx. rewrite Nat2Z.inj_succ, Z.pow_succ_r by lia.
  rewrite (Z.mul_comm 10), Z.rem_mul_r; [lia | | lia].
  apply Z.pow_nonzero; lia.
Qed.

(** Fixed-width decimal text compares like the numbers it writes. *)
Lemma compare_zfill (n : nat) (x y : Z) :
  0 <= x → 0 <= y →
  String.compare (zfill n x) (zfill n y)
  = (x mod 10 ^ Z.of_nat n ?= y mod 10 ^ Z.of_nat n).
Proof.
  intros Hx Hy. induction n as [|k IH].
  - cbn. by rewrite !Z.mod_1_r.
  - cbn [zfill String.compare].
    rewrite (digit_split k x), (digit_split k y) by done.
    set (p := 10 ^ Z.of_nat k) in *.
    assert (0 < p) by (apply Z.pow_pos_nonneg; lia).
    pose proof (Z.mod_pos_bound x p) as Bx.
    pose proof (Z.mod_pos_bound y p) as By.
    pose proof (Z.mod_pos_bound (x / p) 10) as Dx.
    pose proof (Z.mod_pos_bound (y / p) 10) as Dy.
    rewrite compare_digit_char by lia.
    destruct (Z.compare_spec ((x / p) mod 10) ((y / p) mod 10)) as [E|L|G].
    + rewrite IH, E.
      destruct (Z.compare_spec (x mod p) (y mod p));
        symmetry; [apply Z.compare_eq_iff | apply Z.compare_lt_iff
                  | apply Z.compare_gt_iff]; lia.
    + symmetry. apply Z.compare_lt_iff. nia.
    + symmetry. apply Z.compare_gt_iff. nia.
Qed.

Lemma compare_zfill_small (n : nat) (x y : Z) :
  0 <= x < 10 ^ Z.of_nat n → 0 <= y < 10 ^ Z.of_nat n →
  String.compare (zfill n x) (zfill n y) = (x ?= y).
Proof.
  intros Hx Hy. rewrite compare_zfill by lia. by rewrite !Z.mod_small.
Qed.

Lemma length_zfill (n : nat) (x : Z) : String.length (zfill n x) = n.
Proof. induction n; cbn; congruence. Qed.

Lemma compare_refl (s : string) : String.compare s s = Eq.
Proof.
  induction s as [|c s IH]; cbn; [done|].
  unfold Ascii.compare. by rewrite N.compare_refl.
Qed.

(** Two texts that begin with parts of one length compare by those
    parts first. *)
Lemma compare_app (a b s t : string) :
  String.length a = String.length b →
  String.compare (a +:+ s) (b +:+ t)
  = match String.compare a b with
    | Eq => String.compare s t
    | c => c
    end.
Proof.
  revert b. induction a as [|c a IH]; intros [|c' b] Hlen; try done.
  cbn in Hlen.
  change (String c a +:+ s) with (String c (a +:+ s)).
  change (String c' b +:+ t) with (String c' (b +:+ t)).
  cbn [String.compare].
  destruct (Ascii.compare c c'); try done. apply IH. lia.
Qed.

(** [isoformat] compares like (year, month, day). *)
Lemma compare_isoformat (d1 d2 : date) :
  String.compare (isoformat d1) (isoformat d2)
  = match year d1 ?= year d2 with
    | Eq => match month d1 ?= month d2 with
            | Eq => day d1 ?= day d2
            | c => c
            end
    | c => c
    end.
Proof.
  pose proof (date_ranges d1) as (Hy1 & Hm1 & Hd1).
  pose proof (date_ranges d2) as (Hy2 & Hm2 & Hd2).
  unfold isoformat.
  rewrite compare_app by (by rewrite !length_zfill).
  rewrite (compare_zfill_small 4) by (cbn; lia).
  destruct (year d1 ?= year d2); try done.
  rewrite (compare_app "-" "-") by done. cbn [String.compare].
  change (Ascii.compare "-" "-") with Eq. cbn match.
  rewrite compare_app by (by rewrite !length_zfill).
  rewrite (compare_zfill_small 2) by (cbn; lia).
  destruct (month d1 ?= month d2); try done.
  rewrite (compare_app "-" "-") by done. cbn [String.compare].
  change (Ascii.compare "-" "-") with Eq. cbn match.
  by rewrite (compare_zfill_small 2) by (cbn; lia).
Qed.

(** The order of the ISO texts is the order of the dates. *)
Lemma isoformat_lt (d1 d2 : date) :
  String.ltb (isoformat d1) (isoformat d2) = true ↔ date_lt d1 d2.
Proof.
  unfold String.ltb, date_lt. rewrite compare_isoformat.
  destruct (Z.compare_spec (year d1) (year d2));
    destruct (Z.compare_spec (month d1) (month d2));
    destruct (Z.compare_spec (day d1) (day d2)); split; intros; try done; lia.
Qed.

End DatetimeFacts.

(* ===================================================================== *)
(** ** What the buckets hold *)
(* ===================================================================== *)

Section BucketFacts.
Context {F : Type} {PF : PyFloat F} {P : IsoParser}.
Implicit Types (t : trade F) (daily : gmap string F).

Lemma day_notionals_cons_other day t rest :
  parse_day t ≠ Some day → day_notionals day (t :: rest) = day_notionals day rest.
Proof. intros Hne. unfold day_notionals. cbn. by rewrite decide_False. Qed.

Lemma day_notionals_cons_same day t rest n :
  parse_day t = Some day → signed_notional t = Ok n →
  day_notionals day (t :: rest) = n :: day_notionals day rest.
Proof. intros E1 E2. unfold day_notionals. cbn. by rewrite decide_True, E2. Qed.

(** Each bucket is the left-to-right sum of the notionals of its date. *)
Lemma aggregate_lookup trades daily daily' (k : string) :
  aggregate trades daily = Ok daily' →
  daily' !! k = fold_left bucket_add (day_notionals k trades) (daily !! k).
Proof.
  revert daily. induction trades as [|t rest IH]; intros daily Hagg.
  - cbn in Hagg. by inversion Hagg.
  - destruct (parse_day t) as [day|] eqn:Eday.
    + destruct (signed_notional t) as [n|e] eqn:En.
      2:{ rewrite (aggregate_raise _ _ _ _ _ Eday En) in Hagg. done. }
      rewrite (aggregate_add _ _ _ _ _ Eday En) in Hagg.
      rewrite (IH _ Hagg). unfold add_to_bucket.
      destruct (decide (day = k)) as [->|Hne].
      * rewrite (day_notionals_cons_same _ _ _ _ Eday En), lookup_insert_eq. done.
      * rewrite day_notionals_cons_other by congruence.
        by rewrite lookup_insert_ne.
    + rewrite aggregate_skip in Hagg by done.
      rewrite day_notionals_cons_other by congruence. by apply IH.
Qed.

Lemma aggregate_is_Ok trades daily :
  is_Ok (aggregate trades daily)
  ↔ Forall (λ t, parse_day t = None ∨ is_Ok (signed_notional t)) trades.
Proof.
  revert daily. induction trades as [|t rest IH]; intros daily.
  - split; [constructor | by eexists].
  - rewrite Forall_cons. destruct (parse_day t) as [day|] eqn:Eday.
    + destruct (signed_notional t) as [n|e] eqn:En.
      * rewrite (aggregate_add _ _ _ _ _ Eday En), IH.
        split; [intros ?; split; [right; by eexists | done] | by intros [_ ?]].
      * rewrite (aggregate_raise _ _ _ _ _ Eday En).
        split; [by intros [? ?] | intros [[?|[? ?]] _]; done].
    + rewrite aggregate_skip, IH by done.
      split; [intros ?; split; [by left | done] | by intros [_ ?]].
Qed.

Lemma fold_bucket_add_is_Some (l : list F) (b : option F) :
  is_Some (fold_left bucket_add l b) ↔ is_Some b ∨ l ≠ [].
Proof.
  revert b. induction l as [|n l IH]; intros b; cbn.
  - split; [by left | by intros [?|?]].
  - rewrite IH. unfold bucket_add. split; [intros _; by right | intros _; left; eauto].
Qed.

Lemma day_notionals_nonempty trades (k : string) :
  Forall (λ t, parse_day t = None ∨ is_Ok (signed_notional t)) trades →
  day_notionals k trades ≠ [] ↔ ∃ t, t ∈ trades ∧ parse_day t = Some k.
Proof.
  induction 1 as [|t rest Ht _ IH].
  - cbn. split; [done | intros (t & Hin & _); by apply elem_of_nil in Hin].
  - destruct (decide (parse_day t = Some k)) as [E|Hne].
    + destruct Ht as [Ht|[n Hn]]; [congruence|].
      rewrite (day_notionals_cons_same _ _ _ _ E Hn).
      split; [intros _; exists t; split; [left | done] | done].
    + rewrite day_notionals_cons_other, IH by done.
      split; intros (t' & Hin & E').
      * exists t'. split; [by right | done].
      * apply elem_of_cons in Hin as [->|Hin]; [done | eauto].
Qed.

(** The keys of [daily] are the dates of the trades that parse. *)
Lemma aggregate_keys trades daily' (k : string) :
  aggregate trades ∅ = Ok daily' →
  is_Some (daily' !! k) ↔ ∃ t, t ∈ trades ∧ parse_day t = Some k.
Proof.
  intros Hagg. rewrite (aggregate_lookup _ _ _ k Hagg), fold_bucket_add_is_Some.
  rewrite lookup_empty, <- day_notionals_nonempty.
  - split; [intros [[? ?]|?]; done | by right].
  - apply (aggregate_is_Ok trades ∅). by eexists.
Qed.

(** *** [sorted(daily.keys())] *)

Lemma sorted_days_perm daily : sorted_days daily ≡ₚ map fst (map_to_list daily).
Proof. apply merge_sort_Permutation. Qed.

Lemma elem_of_sorted_days daily (k : string) :
  k ∈ sorted_days daily ↔ is_Some (daily !! k).
Proof.
  rewrite sorted_days_perm, list_elem_of_fmap. split.
  - intros ([k' v] & -> & Hin). apply elem_of_map_to_list in Hin. by eexists.
  - intros [v Hv]. exists (k, v). split; [done | by apply elem_of_map_to_list].
Qed.

Lemma NoDup_sorted_days daily : NoDup (sorted_days daily).
Proof. rewrite sorted_days_perm. apply NoDup_fst_map_to_list. Qed.

Lemma Sorted_sorted_days daily : Sorted String.le (sorted_days daily).
Proof. apply Sorted_merge_sort; apply _. Qed.

Lemma ltb_le_ne (a b : string) : String.ltb a b = true ↔ String.le a b ∧ a ≠ b.
Proof.
  unfold String.le, String.leb, String.ltb.
  destruct (String.compare a b) eqn:E; cbn.
  - apply String.compare_eq_iff in E. split; [done | by intros [_ ?]].
  - split; [intros _; split; [done|] | done].
    intros ->. by rewrite DatetimeFacts.compare_refl in E.
  - split; [done | by intros [? _]].
Qed.

(** Sorted without repeats is strictly ascending. *)
Lemma strictly_sorted (l : list string) :
  Sorted String.le l → NoDup l →
  StronglySorted (λ a b, String.ltb a b = true) l.
Proof.
  intros Hs Hnd. apply Sorted_StronglySorted in Hs; [|apply _].
  induction Hs as [|a l Hs IH Hall]; [constructor|].
  apply NoDup_cons in Hnd as [Hni Hnd].
  constructor; [by apply IH|].
  rewrite Forall_forall in Hall |- *. intros b Hb. apply ltb_le_ne.
  split; [by apply Hall | intros ->; done].
Qed.

Lemma timestamps_daily_list daily :
  map timestamp (daily_list_of daily) = sorted_days daily.
Proof. unfold daily_list_of. rewrite map_map. cbn. apply map_id. Qed.

Lemma pnl_daily_list daily :
  map pnl (daily_list_of daily) = pnl_series_of daily.
Proof. unfold daily_list_of, pnl_series_of. by rewrite map_map. Qed.

(** *** The statistics *)

Lemma squared_deviations_Ok (mean : F) (series squares : list F) :
  squared_deviations mean series = Ok squares →
  squares = map (λ v, fsquare (fsub v mean)) series.
Proof.
  revert squares. induction series as [|v rest IH]; intros squares; cbn.
  - by intros [= <-].
  - unfold py_square. destruct (square_overflows _); [done|]. cbn.
    destruct (squared_deviations mean rest) as [ss|]; [|done]. cbn.
    intros [= <-]. by rewrite (IH ss).
Qed.

Lemma squared_deviations_is_Ok (mean : F) (series : list F) :
  is_Ok (squared_deviations mean series)
  ↔ Forall (λ v, square_overflows (fsub v mean) = false) series.
Proof.
  induction series as [|v rest IH]; cbn.
  - split; [constructor | by eexists].
  - rewrite Forall_cons, <- IH. unfold py_square.
    destruct (square_overflows _); cbn.
    + split; [by intros [? ?] | by intros [? _]].
    + destruct (squared_deviations mean rest) as [ss|]; cbn.
      * split; [intros _; split; [done | by eexists] | intros _; by eexists].
      * split; [by intros [? ?] | by intros [_ [? ?]]].
Qed.

Lemma variance_of_Ok (series : list F) (v : F) :
  variance_of series = Ok v → v = sample_variance series.
Proof.
  unfold variance_of, sample_variance, mean_of.
  destruct series as [|a [|b rest]]; try (by intros [= <-]).
  cbn [length Nat.ltb Nat.leb].
  destruct (squared_deviations _ _) as [ss|] eqn:E; [|done]. cbn.
  intros [= <-]. by rewrite (squared_deviations_Ok _ _ _ E).
Qed.

(** When [metrics_of] returns, it returns the summary. *)
Lemma metrics_of_Ok (series : list F) (m : metrics F) :
  metrics_of series = Ok m → m = summary series.
Proof.
  unfold metrics_of, summary. destruct (variance_of series) as [v|] eqn:E; [|done].
  cbn. intros [= <-]. by rewrite (variance_of_Ok _ _ E).
Qed.

(** [metrics_of] returns unless a squared deviation overflows. *)
Lemma metrics_of_is_Ok (series : list F) :
  is_Ok (metrics_of series) ↔ squares_in_range series.
Proof.
  unfold metrics_of, variance_of, squares_in_range.
  destruct (1 <? length series)%nat eqn:Hlen.
  - apply Nat.ltb_lt in Hlen. rewrite <- squared_deviations_is_Ok.
    destruct (squared_deviations _ _) as [ss|]; cbn.
    + split; [intros _; right; by eexists | intros _; by eexists].
    + split; [by intros [? ?] | intros [?|[? ?]]; [lia | done]].
  - apply Nat.ltb_ge in Hlen. cbn. split; [by left | intros _; by eexists].
Qed.

Lemma metrics_of_raises (series : list F) (e : exn) :
  metrics_of series = Raise e → e = OverflowError.
Proof.
  unfold metrics_of, variance_of. destruct (1 <? length series)%nat; [|done].
  assert (∀ mean l, squared_deviations mean l = Raise e → e = OverflowError) as Hsq.
  { intros mean l. induction l as [|v rest IH]; cbn; [done|].
    unfold py_square. destruct (square_overflows _); cbn; [by intros [= <-]|].
    destruct (squared_deviations mean rest); cbn; [done|].
    intros [= <-]. by apply IH. }
  destruct (squared_deviations _ _) eqn:E; cbn; [done|].
  intros [= <-]. by apply (Hsq _ _ E).
Qed.

(** What [compute_metrics] returns, when it returns. *)
Lemma compute_metrics_Ok trades m series :
  compute_metrics trades = Ok (m, series) →
  ∃ daily, aggregate trades ∅ = Ok daily
           ∧ series = daily_list_of daily
           ∧ m = summary (map pnl series).
Proof.
  unfold compute_metrics. destruct (aggregate trades ∅) as [daily|e]; [|done].
  cbn. destruct (metrics_of (pnl_series_of daily)) as [m'|] eqn:E; [|done].
  cbn. intros [= <- <-]. exists daily. rewrite pnl_daily_list.
  by rewrite (metrics_of_Ok _ _ E).
Qed.

End BucketFacts.

(* ===================================================================== *)
(** ** C10: a trade without a side *)
(* ===================================================================== *)

(** C10. A trade whose timestamp parses and that has no ["side"] key gets
    the sign of a buy: it adds [price * quantity * 1] to the bucket of
    its date. *)
Theorem missing_side_is_a_buy
    (F : Type) (PF : PyFloat F) (P : IsoParser)
    (t : trade F) (rest : list (trade F)) (daily : gmap string F)
    (day : string) (qty price : F) :
  parse_day t = Some day →
  get_float t "quantity" = Ok qty →
  get_float t "price" = Ok price →
  t !! "side" = None →
  aggregate (t :: rest) daily =
  aggregate rest
    (<[day := fadd (default fzero (daily !! day))
                   (fmul (fmul price qty) (of_int 1))]> daily).
Proof.
  intros Eday Eq Ep Es.
  erewrite aggregate_add; [reflexivity | exact Eday |].
  by apply signed_notional_without_side.
Qed.

Lemma missing_side_is_a_buy_witness :
  CPython.aggregate64 [Scenarios.no_side] ∅ = Ok {[ "2024-03-04" := 1000%float ]}.
Proof.
  unfold CPython.aggregate64.
  rewrite (missing_side_is_a_buy float Binary64.binary64 Datetime.fromisoformat_model
             Scenarios.no_side [] ∅ "2024-03-04" 10%float 100%float);
    [ vm_compute; reflexivity | vm_compute; reflexivity .. ].
Defined.

(* ===================================================================== *)
(** ** C2: records the engine skips, records it cannot read *)
(* ===================================================================== *)

Section Tolerance.
Context {F : Type} {PF : PyFloat F} {P : IsoParser}.
Implicit Types (t : trade F) (daily : gmap string F).

Lemma has_day_true t : has_day t = true ↔ is_Some (parse_day t).
Proof. unfold has_day. by rewrite bool_decide_eq_true. Qed.

Lemma has_day_false t : has_day t = false ↔ parse_day t = None.
Proof.
  unfold has_day. rewrite bool_decide_eq_false, <- eq_None_not_Some. done.
Qed.

Lemma aggregate_filter_has_day trades daily :
  aggregate trades daily = aggregate (List.filter has_day trades) daily.
Proof.
  revert daily. induction trades as [|t rest IH]; intros daily; [done|].
  cbn [List.filter]. destruct (has_day t) eqn:E.
  - apply has_day_true in E as [day E]. cbn. rewrite E.
    destruct (signed_notional t); cbn; [apply IH | done].
  - apply has_day_false in E. rewrite aggregate_skip by done. apply IH.
Qed.

Lemma float_or_zero_ok (v : option (value F)) :
  numeric_shape v → is_Ok (float_or_zero (default (VInt 0) v)).
Proof.
  unfold float_or_zero, is_Ok.
  destruct v as [[| b | n | x | s]|]; cbn; intros Hs; eauto.
  - destruct b; eauto.
  - destruct (Z.eqb_spec n 0); cbn; eauto.
    destruct Hs as [ ? | -> ]; [done | eauto].
  - destruct (negb _); eauto.
  - destruct (String.eqb_spec s ""); cbn; eauto.
    destruct Hs as [ ? | [x ->] ]; [done | eauto].
Qed.

Lemma signed_notional_ok t : well_shaped t → is_Ok (signed_notional t).
Proof.
  intros (Hq & Hp & Hs). unfold signed_notional, get_float.
  destruct (float_or_zero_ok _ Hq) as [q ->], (float_or_zero_ok _ Hp) as [p ->].
  cbn. unfold get_side. destruct (t !! "side") as [[]|]; try done; cbn; by eexists.
Qed.

Lemma aggregate_ok trades daily :
  Forall (λ t, is_Some (parse_day t) → well_shaped t) trades →
  is_Ok (aggregate trades daily).
Proof.
  intros Hall. revert daily. induction Hall as [|t rest Ht _ IH]; intros daily.
  - by eexists.
  - cbn. destruct (parse_day t) as [day|] eqn:E; [|apply IH].
    destruct (signed_notional_ok t) as [n ->]; [by apply Ht|]. cbn. apply IH.
Qed.

End Tolerance.

(** C2, as the code has it. A record whose timestamp is absent, not a
    string or not ISO 8601 is skipped: the result, returned or raised, is
    that of the other records alone. A quantity or price that is absent,
    [None], [False], the int [0], a float equal to 0 or the empty string
    is read as [0.0], and an absent side as ["buy"]. When every other
    record is well shaped (quantity and price absent, [None], a bool, a
    float, an int in float range, or an empty or numeric string; side
    absent or a string), the loop over the records does not raise, and
    the one exception left to [compute_metrics] is the [OverflowError]
    of [** 2]; in exact arithmetic it returns. *)
Theorem skips_bad_timestamps_and_reads_well_shaped_records :
  (∀ (F : Type) (PF : PyFloat F) (P : IsoParser) (trades : list (trade F)),
     compute_metrics trades = compute_metrics (List.filter has_day trades)
     ∧ (Forall (λ t, is_Some (parse_day t) → well_shaped t) trades →
        is_Ok (aggregate trades ∅)
        ∧ (∀ e, compute_metrics trades = Raise e → e = OverflowError)))
  ∧ (∀ (P : IsoParser) (trades : list (trade R)),
       Forall (λ t, is_Some (parse_day t) → well_shaped (PF := Exact.exact) t)
              trades →
       is_Ok (compute_metrics (PF := Exact.exact) trades))
  ∧ (∀ (F : Type) (PF : PyFloat F) (t : trade F) (key : string),
       (t !! key = None ∨ t !! key = Some VNone
        ∨ t !! key = Some (VBool false) ∨ t !! key = Some (VInt 0)
        ∨ t !! key = Some (VStr "")
        ∨ (∃ x, t !! key = Some (VFloat x) ∧ feqb x fzero = true)) →
       get_float t key = Ok fzero)
  ∧ (∀ (F : Type) (PF : PyFloat F) (t : trade F),
       t !! "side" = None → get_side t = Ok "buy")
  ∧ fzero (PF := Binary64.binary64) = 0%float
  ∧ fzero (PF := Exact.exact) = 0%R
  ∧ CPython.compute_metrics64 [Scenarios.no_quantity]
    = Ok ({| total_return := 0%float; win_rate := 0%float;
             volatility := 0%float; sharpe := 0%float;
             max_drawdown := 0%float |},
          [ {| timestamp := "2024-03-04"; pnl := 0%float |} ]).
Proof.
  split; [|split; [|split; [|split; [|split; [|split]]]]].
  - intros F PF P trades. split.
    + unfold compute_metrics. by rewrite aggregate_filter_has_day.
    + intros Hall. pose proof (aggregate_ok trades ∅ Hall) as Hok.
      split; [exact Hok|]. intros e. unfold compute_metrics.
      destruct Hok as [daily ->]. cbn.
      destruct (metrics_of (pnl_series_of daily)) as [m|e'] eqn:E; [done|].
      cbn. intros [= <-]. by apply (metrics_of_raises _ _ E).
  - intros P trades Hall. unfold compute_metrics.
    destruct (aggregate_ok (PF := Exact.exact) trades ∅ Hall) as [daily ->]. cbn.
    destruct (proj2 (metrics_of_is_Ok (PF := Exact.exact) (pnl_series_of daily)))
      as [m ->]; [|by eexists].
    right. by apply Forall_forall.
  - intros F PF t key H. unfold get_float, float_or_zero.
    destruct H as [->|[->|[->|[->|[->|(x & -> & Hx)]]]]];
      cbn [default from_option Datatypes.id truthy]; try done.
    by rewrite Hx.
  - intros F PF t H. unfold get_side. by rewrite H.
  - vm_compute. reflexivity.
  - reflexivity.
  - vm_compute. reflexivity.
Qed.

(** Against C2 as stated: a quantity that is not the text of a number
    makes [compute_metrics] raise [ValueError], a side that is [None]
    makes it raise [AttributeError]; and a squared deviation beyond the
    range of floats makes it raise [OverflowError]. *)
Lemma malformed_field_raises :
  CPython.compute_metrics64 [Scenarios.bad_quantity] = Raise ValueError
  ∧ CPython.compute_metrics64 [Scenarios.null_side] = Raise AttributeError
  ∧ CPython.compute_metrics64 Scenarios.huge_swing = Raise OverflowError.
Proof. repeat split; vm_compute; reflexivity. Qed.

(* ===================================================================== *)
(** ** C8: the daily series is sorted by date *)
(* ===================================================================== *)

Section SortedSeries.
Context {F : Type} {PF : PyFloat F} {P : IsoParser}.

Lemma parse_day_isoformat (t : trade F) (day : string) :
  parse_day t = Some day → ∃ d : Datetime.date, day = Datetime.isoformat d.
Proof.
  unfold parse_day. destruct (t !! "timestamp") as [[]|]; try done.
  destruct (fromisoformat _) as [dt|]; [|done]. cbn. intros [= <-]. by eexists.
Qed.

Lemma StronglySorted_map_timestamp (R : string → string → Prop)
    (l : list (daily_point F)) :
  StronglySorted R (map timestamp l) →
  StronglySorted (λ a b, R (timestamp a) (timestamp b)) l.
Proof.
  induction l as [|a l IH]; cbn; intros Hs; [constructor|].
  apply StronglySorted_inv in Hs as [Hs Hall].
  constructor; [by apply IH|].
  by apply (proj1 (List.Forall_map timestamp _ l)).
Qed.

End SortedSeries.

(** C8. The daily series is strictly ascending in its date strings, so
    no date occurs twice; its dates are exactly those of the trades
    whose timestamp parses; each is the ISO text of a date; and the
    order of ISO texts is the order of the dates they write. *)
Theorem daily_series_strictly_ascending_by_date
    (F : Type) (PF : PyFloat F) (P : IsoParser)
    (trades : list (trade F)) (m : metrics F) (series : list (daily_point F)) :
  compute_metrics trades = Ok (m, series) →
  StronglySorted (λ a b, String.ltb (timestamp a) (timestamp b) = true) series
  ∧ NoDup (map timestamp series)
  ∧ (∀ day, day ∈ map timestamp series
            ↔ ∃ t, t ∈ trades ∧ parse_day t = Some day)
  ∧ (∀ p, p ∈ series → ∃ d : Datetime.date, timestamp p = Datetime.isoformat d)
  ∧ (∀ d1 d2 : Datetime.date,
       String.ltb (Datetime.isoformat d1) (Datetime.isoformat d2) = true
       ↔ Datetime.date_lt d1 d2).
Proof.
  intros (daily & Hagg & -> & _)%compute_metrics_Ok.
  assert (Hkeys : ∀ day, day ∈ map timestamp (daily_list_of daily)
                         ↔ ∃ t, t ∈ trades ∧ parse_day t = Some day).
  { intros day. rewrite timestamps_daily_list, elem_of_sorted_days.
    by apply aggregate_keys. }
  split; [|split; [|split; [|split]]].
  - apply (StronglySorted_map_timestamp (λ a b, String.ltb a b = true)).
    rewrite timestamps_daily_list.
    apply strictly_sorted; [apply Sorted_sorted_days | apply NoDup_sorted_days].
  - rewrite timestamps_daily_list. apply NoDup_sorted_days.
  - exact Hkeys.
  - intros p Hp.
    assert (timestamp p ∈ map timestamp (daily_list_of daily)) as Hin
      by (by apply list_elem_of_fmap_2).
    apply Hkeys in Hin as (t & _ & Ht). by apply parse_day_isoformat in Ht.
  - apply DatetimeFacts.isoformat_lt.
Qed.

Lemma daily_series_strictly_ascending_by_date_witness :
  StronglySorted (λ a b, String.ltb (timestamp a) (timestamp b) = true)
    [ {| timestamp := "2024-03-04"; pnl := 100%float |};
      {| timestamp := "2024-03-05"; pnl := 105%float |};
      {| timestamp := "2024-03-06"; pnl := 98%float |} ].
Proof.
  refine (proj1 (daily_series_strictly_ascending_by_date
                   float Binary64.binary64 Datetime.fromisoformat_model
                   (rev Scenarios.scenario_B) _ _ _)).
  vm_compute. reflexivity.
Defined.

(* ===================================================================== *)
(** ** C3: the order of the input records *)
(* ===================================================================== *)

Section Reorder.
Context {F : Type} {PF : PyFloat F} {P : IsoParser}.
Implicit Types (t : trade F) (daily : gmap string F).

Lemma aggregate_perm_is_Ok (l1 l2 : list (trade F)) daily1 daily2 :
  l1 ≡ₚ l2 → is_Ok (aggregate l1 daily1) → is_Ok (aggregate l2 daily2).
Proof.
  intros Hp. rewrite !aggregate_is_Ok. by rewrite Hp.
Qed.

(** The dates of the series do not depend on the order of the trades. *)
Lemma sorted_days_perm_invariant (l1 l2 : list (trade F)) daily1 daily2 :
  l1 ≡ₚ l2 → aggregate l1 ∅ = Ok daily1 → aggregate l2 ∅ = Ok daily2 →
  sorted_days daily1 = sorted_days daily2.
Proof.
  intros Hp H1 H2.
  apply (Sorted_unique String.le); try apply Sorted_sorted_days.
  apply NoDup_Permutation; try apply NoDup_sorted_days.
  intros k. rewrite !elem_of_sorted_days.
  rewrite (aggregate_keys _ _ k H1), (aggregate_keys _ _ k H2).
  by setoid_rewrite Hp.
Qed.

Lemma day_notionals_filter (k : string) (l : list (trade F)) :
  day_notionals k l
  = omap (λ t, match signed_notional t with Ok n => Some n | Raise _ => None end)
         (List.filter (λ t, bool_decide (parse_day t = Some k)) l).
Proof.
  unfold day_notionals. induction l as [|t l IH]; [done|]. cbn.
  destruct (decide (parse_day t = Some k)) as [E|E].
  - rewrite bool_decide_eq_true_2 by done. cbn. by rewrite IH.
  - rewrite bool_decide_eq_false_2 by done. apply IH.
Qed.

(** The buckets depend only on the order of the trades within each date. *)
Lemma aggregate_same_order (l1 l2 : list (trade F)) daily1 daily2 :
  same_order_within_days l1 l2 →
  aggregate l1 ∅ = Ok daily1 → aggregate l2 ∅ = Ok daily2 → daily1 = daily2.
Proof.
  intros Hsame H1 H2. apply map_eq. intros k.
  rewrite (aggregate_lookup _ _ _ k H1), (aggregate_lookup _ _ _ k H2).
  by rewrite !day_notionals_filter, (Hsame k).
Qed.

End Reorder.

(** A left fold whose steps commute does not see the order of the list. *)
Lemma fold_left_commuting {A B : Type} (f : B → A → B) :
  (∀ b x y, f (f b x) y = f (f b y) x) →
  ∀ l1 l2, l1 ≡ₚ l2 → ∀ b, fold_left f l1 b = fold_left f l2 b.
Proof.
  intros Hcomm l1 l2 Hp. induction Hp as [|x l1 l2 _ IH|x y l|l1 l2 l3 _ IH1 _ IH2];
    intros b; cbn.
  - done.
  - apply IH.
  - by rewrite Hcomm.
  - by rewrite IH1, IH2.
Qed.

Section ReorderExact.
Context {P : IsoParser}.
Import Exact.

Lemma bucket_add_commutes (b : option R) (x y : R) :
  bucket_add  (bucket_add  b x) y
  = bucket_add  (bucket_add  b y) x.
Proof. unfold bucket_add. cbn. f_equal. lra. Qed.

(** In exact arithmetic the buckets do not depend on the order at all. *)
Lemma aggregate_perm_exact (l1 l2 : list (trade R)) daily1 daily2 :
  l1 ≡ₚ l2 →
  aggregate  l1 ∅ = Ok daily1 →
  aggregate  l2 ∅ = Ok daily2 → daily1 = daily2.
Proof.
  intros Hp H1 H2. apply map_eq. intros k.
  rewrite (aggregate_lookup _ _ _ k H1), (aggregate_lookup _ _ _ k H2).
  apply fold_left_commuting; [apply bucket_add_commutes|].
  unfold day_notionals. by rewrite Hp.
Qed.

End ReorderExact.

(** C3, as the code has it. For every permutation of the input, the
    loop over the records raises on both orders or on neither, and two
    returned daily series carry the same dates in the same order. The
    whole output is the same when the trades of each date keep their
    relative order; and for every permutation when the arithmetic is
    exact. (Each bucket is a left-to-right float sum, and float addition
    is not associative.) *)
Theorem permutation_keeps_the_dates_and_the_exact_sums :
  (∀ (F : Type) (PF : PyFloat F) (P : IsoParser) (l1 l2 : list (trade F))
     (m1 : metrics F) (s1 : list (daily_point F)),
     l1 ≡ₚ l2 → compute_metrics l1 = Ok (m1, s1) →
     is_Ok (aggregate l2 ∅)
     ∧ (∀ m2 s2, compute_metrics l2 = Ok (m2, s2) →
                 map timestamp s2 = map timestamp s1)
     ∧ (same_order_within_days l1 l2 → compute_metrics l2 = Ok (m1, s1)))
  ∧ (∀ (P : IsoParser) (l1 l2 : list (trade R)) r,
       l1 ≡ₚ l2 → compute_metrics (PF := Exact.exact) l1 = Ok r →
       compute_metrics (PF := Exact.exact) l2 = Ok r).
Proof.
  split.
  - intros F PF P l1 l2 m1 s1 Hp H1.
    pose proof H1 as (daily1 & Hagg1 & -> & ->)%compute_metrics_Ok.
    destruct (aggregate_perm_is_Ok l1 l2 ∅ ∅ Hp) as [daily2 Hagg2]; [by eexists|].
    split; [by eexists|]. split.
    + intros m2 s2 (daily2' & Hagg2' & -> & _)%compute_metrics_Ok.
      rewrite !timestamps_daily_list. symmetry.
      by apply (sorted_days_perm_invariant l1 l2).
    + intros Hsame. unfold compute_metrics in *. rewrite Hagg1 in H1. rewrite Hagg2.
      by rewrite <- (aggregate_same_order l1 l2 _ _ Hsame Hagg1 Hagg2).
  - intros P l1 l2 r Hp H1. unfold compute_metrics in *.
    destruct (aggregate l1 ∅) as [daily1|] eqn:Hagg1; [|done].
    destruct (aggregate_perm_is_Ok l1 l2 ∅ ∅ Hp) as [daily2 Hagg2]; [by eexists|].
    rewrite Hagg2.
    by rewrite <- (aggregate_perm_exact l1 l2 _ _ Hp Hagg1 Hagg2).
Qed.

Lemma three_fills_perm :
  Scenarios.three_fills ≡ₚ Scenarios.three_fills_reordered.
Proof.
  unfold Scenarios.three_fills, Scenarios.three_fills_reordered.
  etrans; [apply perm_swap|]. etrans; [apply perm_skip, perm_swap|].
  apply perm_swap.
Qed.

Lemma permutation_keeps_the_dates_and_the_exact_sums_witness :
  is_Ok (CPython.aggregate64 Scenarios.three_fills_reordered ∅)
  ∧ map timestamp
      [ {| timestamp := "2024-03-04"; pnl := 0x1.3333333333333p-1%float |} ]
    = map timestamp
        [ {| timestamp := "2024-03-04"; pnl := 0x1.3333333333334p-1%float |} ].
Proof.
  destruct (proj1 permutation_keeps_the_dates_and_the_exact_sums
              float Binary64.binary64 Datetime.fromisoformat_model
              Scenarios.three_fills Scenarios.three_fills_reordered
              (summary [0x1.3333333333334p-1%float])
              [ {| timestamp := "2024-03-04"; pnl := 0x1.3333333333334p-1%float |} ]
              three_fills_perm) as (Hok & Hdates & _).
  - vm_compute. reflexivity.
  - split; [exact Hok|].
    apply (Hdates (summary [0x1.3333333333333p-1%float])).
    vm_compute. reflexivity.
Defined.

(** Against C3 as stated: the same three fills of one day, in two
    orders, give daily P&L values that differ in the last bit. *)
Lemma reordering_changes_the_daily_pnl :
  Scenarios.three_fills ≡ₚ Scenarios.three_fills_reordered
  ∧ CPython.compute_metrics64 Scenarios.three_fills
    = Ok ({| total_return := 0x1.3333333333333p-1%float; win_rate := 100%float;
             volatility := 0%float; sharpe := 0%float; max_drawdown := 0%float |},
          [ {| timestamp := "2024-03-04"; pnl := 0x1.3333333333334p-1%float |} ])
  ∧ CPython.compute_metrics64 Scenarios.three_fills_reordered
    = Ok ({| total_return := 0x1.3333333333333p-1%float; win_rate := 100%float;
             volatility := 0%float; sharpe := 0%float; max_drawdown := 0%float |},
          [ {| timestamp := "2024-03-04"; pnl := 0x1.3333333333333p-1%float |} ])
  ∧ CPython.compute_metrics64 Scenarios.three_fills
    ≠ CPython.compute_metrics64 Scenarios.three_fills_reordered.
Proof.
  assert (E1 : CPython.compute_metrics64 Scenarios.three_fills
    = Ok ({| total_return := 0x1.3333333333333p-1%float; win_rate := 100%float;
             volatility := 0%float; sharpe := 0%float; max_drawdown := 0%float |},
          [ {| timestamp := "2024-03-04"; pnl := 0x1.3333333333334p-1%float |} ]))
    by (vm_compute; reflexivity).
  assert (E2 : CPython.compute_metrics64 Scenarios.three_fills_reordered
    = Ok ({| total_return := 0x1.3333333333333p-1%float; win_rate := 100%float;
             volatility := 0%float; sharpe := 0%float; max_drawdown := 0%float |},
          [ {| timestamp := "2024-03-04"; pnl := 0x1.3333333333333p-1%float |} ]))
    by (vm_compute; reflexivity).
  split; [exact three_fills_perm|]. split; [exact E1|]. split; [exact E2|].
  rewrite E1, E2. intros H.
  apply (f_equal (λ r, match r with
                       | Ok (_, [p]) => Prim2SF (pnl p)
                       | _ => S754_nan
                       end)) in H.
  vm_compute in H. discriminate H.
Qed.

(* ===================================================================== *)
(** ** Rounding in exact arithmetic *)
(* ===================================================================== *)

Module ExactFacts.
Import Exact.
Local Open Scope R_scope.

Lemma Int_part_bounds (x : R) : IZR (Int_part x) <= x < IZR (Int_part x) + 1.
Proof. destruct (base_Int_part x). lra. Qed.

Lemma Int_part_IZR (z : Z) : Int_part (IZR z) = z.
Proof. symmetry. apply Int_part_spec. lra. Qed.

Lemma Int_part_mono (x y : R) : x <= y → (Int_part x <= Int_part y)%Z.
Proof.
  intros Hxy. pose proof (Int_part_bounds x). pose proof (Int_part_bounds y).
  assert (IZR (Int_part x) < IZR (Int_part y + 1)) as Hlt
    by (rewrite plus_IZR; lra).
  apply lt_IZR in Hlt. lia.
Qed.

Lemma nearest_even_IZR (z : Z) : nearest_even (IZR z) = z.
Proof.
  unfold nearest_even. rewrite Int_part_IZR.
  rewrite decide_True; [done | lra].
Qed.

Lemma nearest_even_range (x : R) :
  (Int_part x <= nearest_even x <= Int_part x + 1)%Z.
Proof. unfold nearest_even. repeat case_decide; try case_match; lia. Qed.

Lemma nearest_even_mono (x y : R) : x <= y → (nearest_even x <= nearest_even y)%Z.
Proof.
  intros Hxy. pose proof (Int_part_mono x y Hxy) as Hf.
  pose proof (nearest_even_range x). pose proof (nearest_even_range y).
  destruct (decide (Int_part x = Int_part y)) as [E|]; [|lia].
  unfold nearest_even. rewrite E.
  repeat case_decide; try case_match; try lia; lra.
Qed.

Lemma pow10_pos (nd : Z) : (0 <= nd)%Z → 0 < IZR (10 ^ nd).
Proof. intros Hnd. apply IZR_lt. by apply Z.pow_pos_nonneg. Qed.

(** An integer number of units of the last place is left as it is. *)
Lemma round_units (z nd : Z) :
  (0 <= nd)%Z → round (IZR z / IZR (10 ^ nd)) nd = IZR z / IZR (10 ^ nd).
Proof.
  intros Hnd. pose proof (pow10_pos nd Hnd). unfold round.
  replace (IZR z / IZR (10 ^ nd) * IZR (10 ^ nd)) with (IZR z) by (field; lra).
  by rewrite nearest_even_IZR.
Qed.

Lemma round_IZR (z nd : Z) : (0 <= nd)%Z → round (IZR z) nd = IZR z.
Proof.
  intros Hnd. pose proof (pow10_pos nd Hnd).
  replace (IZR z) with (IZR (z * 10 ^ nd) / IZR (10 ^ nd)) at 1 2
    by (rewrite mult_IZR; field; lra).
  by apply round_units.
Qed.

Lemma round_mono (x y : R) (nd : Z) :
  (0 <= nd)%Z → x <= y → round x nd <= round y nd.
Proof.
  intros Hnd Hxy. pose proof (pow10_pos nd Hnd) as Hp. unfold round.
  apply Rmult_le_compat_r; [left; by apply Rinv_0_lt_compat|].
  apply IZR_le, nearest_even_mono. by apply Rmult_le_compat_r; [lra|].
Qed.

Lemma round_nonneg (x : R) (nd : Z) : (0 <= nd)%Z → 0 <= x → 0 <= round x nd.
Proof.
  intros Hnd Hx. rewrite <- (round_IZR 0 nd Hnd). by apply round_mono.
Qed.

Lemma round_le_IZR (x : R) (z nd : Z) :
  (0 <= nd)%Z → x <= IZR z → round x nd <= IZR z.
Proof.
  intros Hnd Hx. rewrite <- (round_IZR z nd Hnd). by apply round_mono.
Qed.

End ExactFacts.

(* ===================================================================== *)
(** ** C5: the maximum drawdown *)
(* ===================================================================== *)

Section Drawdown.
Context {F : Type} {PF : PyFloat F}.

Lemma drawdown_loop (series : list F) (c : F) (p : option F) (m : F) :
  max_dd (fold_left drawdown_step series (DrawdownState c p m))
  = fold_left fmax (drawdowns_from c p series) m.
Proof.
  revert c p m. induction series as [|v rest IH]; intros c p m; [done|].
  cbn [fold_left drawdowns_from]. rewrite <- IH. f_equal.
  unfold drawdown_step. cbn. destruct p as [q|]; cbn; [|done].
  unfold fmax. by destruct (fltb q (fadd c v)).
Qed.

Lemma drawdowns_from_peak (series : list F) (c q : F) :
  drawdowns_from c (Some q) series
  = zip_with fsub (running_peak_from q (cumulative_from c series))
                  (cumulative_from c series).
Proof.
  revert c q. induction series as [|v rest IH]; intros c q; [done|].
  cbn. by rewrite IH.
Qed.

Lemma drawdowns_from_start (series : list F) :
  drawdowns_from fzero None series = drawdowns series.
Proof.
  unfold drawdowns, cumulative. destruct series as [|v rest]; [done|].
  cbn. by rewrite drawdowns_from_peak.
Qed.

(** The loop tracks the largest of the drawdowns. *)
Lemma max_drawdown_of_largest (series : list F) :
  max_drawdown_of series = largest (drawdowns series).
Proof.
  unfold max_drawdown_of, largest.
  by rewrite drawdown_loop, drawdowns_from_start.
Qed.

End Drawdown.

Section DrawdownExact.
Import Exact ExactFacts.
Local Open Scope R_scope.
#[local] Existing Instance exact.

Lemma fmax_exact (a b : R) : fmax a b = Rmax a b.
Proof.
  unfold fmax, Rmax. cbn. case_bool_decide; destruct (Rle_dec a b); lra.
Qed.

Lemma fold_fmax_ge (l : list R) (m : R) : m <= fold_left fmax l m.
Proof.
  revert m. induction l as [|x l IH]; intros m; cbn; [lra|].
  etrans; [|apply IH]. rewrite fmax_exact. apply Rmax_l.
Qed.

Lemma largest_nonneg (l : list R) : 0 <= largest l.
Proof. apply (fold_fmax_ge l 0). Qed.

Lemma fold_fmax_zero (l : list R) : Forall (λ x, x = 0) l → fold_left fmax l 0 = 0.
Proof.
  induction 1 as [|x l -> _ IH]; [done|]. cbn.
  rewrite fmax_exact, Rmax_left by lra. exact IH.
Qed.

(** While the cumulative P&L does not fall, the peak is the current
    value. *)
Lemma running_peak_sorted (c : R) (cums : list R) :
  Sorted Rle (c :: cums) →
  zip_with Rminus (running_peak_from c cums) cums = map (λ _, 0) cums.
Proof.
  revert c. induction cums as [|c' cums IH]; intros c Hs; [done|].
  apply Sorted_inv in Hs as [Hs Hhd]. apply HdRel_inv in Hhd.
  cbn. rewrite fmax_exact, Rmax_right by done.
  f_equal; [lra | by apply IH].
Qed.

Lemma drawdowns_sorted (series : list R) :
  Sorted Rle (cumulative series) → Forall (λ x, x = 0) (drawdowns series).
Proof.
  unfold drawdowns. destruct (cumulative series) as [|c cums]; [constructor|].
  intros Hs. cbn. constructor; [lra|].
  change fsub with Rminus. rewrite (running_peak_sorted c cums Hs).
  apply Forall_forall. intros x (y & -> & _)%list_elem_of_fmap. done.
Qed.

End DrawdownExact.

(* ===================================================================== *)
(** ** Signs and comparisons on binary64 *)
(* ===================================================================== *)

Module Binary64Sign.
Import Binary64Loop.

Lemma shr_1_nonneg r : 0 ≤ shr_m r → 0 ≤ shr_m (shr_1 r).
Proof. destruct r as [[|[p|p|]|[p|p|]] b c]; cbn; lia. Qed.

Lemma iter_pos_nonneg p r :
  0 ≤ shr_m r → 0 ≤ shr_m (SpecFloat.iter_pos shr_1 p r).
Proof.
  revert r. induction p as [p IH|p IH|]; intros r Hr; cbn.
  - apply IH, IH. by apply shr_1_nonneg.
  - by apply IH, IH.
  - by apply shr_1_nonneg.
Qed.

Lemma shr_fexp_nonneg m e l :
  0 ≤ m → 0 ≤ shr_m (fst (shr_fexp prec emax m e l)).
Proof.
  intros Hm. unfold shr_fexp, shr.
  assert (H0 : 0 ≤ shr_m (shr_record_of_loc m l)).
  { by destruct l as [|[]]. }
  destruct (_ - e); cbn [fst]; try done.
  by apply iter_pos_nonneg.
Qed.

Lemma round_nearest_even_nonneg m l :
  0 ≤ m → 0 ≤ round_nearest_even m l.
Proof.
  intros Hm. destruct l as [|[]]; cbn; try lia.
  destruct (Z.even m); lia.
Qed.

Lemma binary_round_aux_sign s m e l :
  0 ≤ m → has_sign s (binary_round_aux prec emax s m e l).
Proof.
  intros Hm. unfold binary_round_aux.
  pose proof (shr_fexp_nonneg m e l Hm) as H1.
  destruct (shr_fexp prec emax m e l) as [r1 e1]. cbn [fst] in H1.
  pose proof (shr_fexp_nonneg _ e1 loc_Exact
    (round_nearest_even_nonneg _ (loc_of_shr_record r1) H1)) as H2.
  destruct (shr_fexp prec emax _ e1 loc_Exact) as [r2 e2]. cbn [fst] in H2.
  destruct (shr_m r2); [done| |lia].
  by destruct (_ <=? _).
Qed.

Lemma binary_round_sign s m e : has_sign s (binary_round prec emax s m e).
Proof.
  unfold binary_round. destruct (shl_align _ _ _) as [mz ez].
  by apply binary_round_aux_sign.
Qed.

Lemma leb_zero x :
  (0 <=? x)%float = true ↔
  match Prim2SF x with
  | S754_zero _ => True
  | S754_nan => False
  | y => has_sign false y
  end.
Proof.
  rewrite FloatAxioms.leb_spec. change (Prim2SF 0) with (S754_zero false).
  unfold SFleb, SFcompare. destruct (Prim2SF x) as [s|[]| |[] m e]; by cbn.
Qed.

Lemma has_sign_nonneg x : has_sign false (Prim2SF x) → (0 <=? x)%float = true.
Proof. rewrite leb_zero. by destruct (Prim2SF x). Qed.

Lemma SF2Prim_nonneg y : has_sign false y → (0 <=? SF2Prim y)%float = true.
Proof.
  destruct y as [s|s| |s m e]; cbn [has_sign]; try done; intros ->; try done.
  cbn [SF2Prim]. apply has_sign_nonneg.
  rewrite FloatLemmas.Z_ldexp_spec, FloatAxioms.of_uint63_spec.
  pose proof (Uint63.to_Z_bounded (Uint63.of_Z (Z.pos m))) as [Hn _].
  destruct (Uint63.to_Z _) as [|n|n]; [done| |lia].
  cbn [binary_normalize].
  pose proof (binary_round_sign false n 0) as Hs.
  destruct (binary_round prec emax false n 0) as [?|?| |sx mx ex];
    cbn [SFldexp]; try done.
  cbn in Hs. subst sx. apply binary_round_sign.
Qed.

Lemma SFdiv_sign p q :
  has_sign false
    (SFdiv prec emax (S754_finite false p 0) (S754_finite false q 0)).
Proof.
  cbn [SFdiv xorb]. unfold SFdiv_core_binary.
  set (m' := match _ with Z.pos _ => _ | Z0 => _ | Z.neg _ => 0 end).
  assert (Hm : 0 ≤ m').
  { subst m'. destruct (_ - _); [lia| |lia]. by apply Z.shiftl_nonneg. }
  pose proof (Z.div_pos m' (Z.pos q) Hm ltac:(lia)) as Hq.
  unfold Z.div in Hq. clearbody m'.
  destruct (Z.div_eucl m' (Z.pos q)) as [d r]. cbn [fst] in Hq.
  by apply binary_round_aux_sign.
Qed.

Lemma of_decimal_nonneg n e : (0 <=? Binary64.of_decimal false n e)%float = true.
Proof.
  unfold Binary64.of_decimal. destruct n as [|p|p]; try done.
  destruct (0 <=? e).
  - apply SF2Prim_nonneg, binary_round_sign.
  - apply SF2Prim_nonneg, SFdiv_sign.
Qed.

Lemma round64_nonneg x nd :
  (0 <=? x)%float = true → (0 <=? Binary64.round x nd)%float = true.
Proof.
  intros Hx. unfold Binary64.round.
  pose proof (proj1 (leb_zero x) Hx) as Hs.
  destruct (Prim2SF x) as [s|s| |s m e]; try done.
  cbn in Hs. subst s. apply of_decimal_nonneg.
Qed.

Lemma leb_zero_not_ltb x : (0 <=? x)%float = true → (x <? 0)%float = false.
Proof.
  rewrite FloatAxioms.leb_spec, FloatAxioms.ltb_spec.
  change (Prim2SF 0) with (S754_zero false).
  unfold SFleb, SFltb, SFcompare. by destruct (Prim2SF x) as [s|[]| |[] m e].
Qed.

Lemma round_not_negative x nd :
  (x <? 0)%float = false → (Binary64.round x nd <? 0)%float = false.
Proof.
  intros Hx. unfold Binary64.round.
  destruct (Prim2SF x) as [s|s| |s m e] eqn:E; try done.
  destruct s.
  - rewrite FloatAxioms.ltb_spec, E in Hx. done.
  - apply leb_zero_not_ltb, of_decimal_nonneg.
Qed.

Lemma sqrt_not_negative x : (PrimFloat.sqrt x <? 0)%float = false.
Proof.
  rewrite FloatAxioms.ltb_spec, FloatAxioms.sqrt_spec.
  change (Prim2SF 0) with (S754_zero false).
  destruct (Prim2SF x) as [s|[]| |[] m e]; try done.
  unfold SF64sqrt. cbn [SFsqrt]. unfold SFsqrt_core_binary. cbv zeta.
  match goal with |- context [Z.sqrtrem ?a] => set (m' := a) end.
  pose proof (Z.sqrtrem_sqrt m') as Hq. pose proof (Z.sqrt_nonneg m') as H0.
  destruct (Z.sqrtrem m') as [q r]. cbn [fst] in Hq. subst q.
  match goal with |- context [binary_round_aux _ _ false ?a ?b ?c] =>
    pose proof (binary_round_aux_sign false a b c H0) as Hs;
    destruct (binary_round_aux prec emax false a b c) as [?|?| |sx mx ex]
  end; try done; cbn in Hs; by subst.
Qed.

End Binary64Sign.

Module Binary64Facts.
Import Binary64 Binary64Loop.
Local Open Scope float_scope.

(** *** Comparisons *)

Lemma ltb_nan_r (x y : float) : Prim2SF y = S754_nan → (x <? y) = false.
Proof.
  intros Hy. rewrite FloatAxioms.ltb_spec, Hy. unfold SFltb, SFcompare.
  by destruct (Prim2SF x).
Qed.

Lemma ltb_nan_l (x y : float) : Prim2SF x = S754_nan → (x <? y) = false.
Proof. intros Hx. rewrite FloatAxioms.ltb_spec, Hx. done. Qed.

(** A float above a float that is not below zero is not below zero. *)
Lemma nonneg_ltb (m d : float) :
  (0 <=? m) = true → (m <? d) = true → (0 <=? d) = true.
Proof.
  rewrite !FloatAxioms.leb_spec, FloatAxioms.ltb_spec. change (Prim2SF 0) with (S754_zero false).
  unfold SFleb, SFltb, SFcompare.
  destruct (Prim2SF m) as [sm|sm| |sm mm em], (Prim2SF d) as [sd|sd| |sd md ed];
    try done; try (by destruct sm); try (by destruct sd);
    by destruct sm, sd.
Qed.

(** Equal floats compare alike with any third. *)
Lemma SFcompare_Eq_l (a b c : spec_float) :
  SFcompare a b = Some Eq → SFcompare a c = SFcompare b c.
Proof.
  unfold SFcompare.
  destruct a as [sa|sa| |sa ma ea], b as [sb|sb| |sb mb eb]; try done;
    try (by destruct sa); try (by destruct sb); try (by destruct sa, sb).
  destruct sa, sb; try done.
  - destruct (Z.compare_spec ea eb) as [->| |]; try done.
    intros [= H]. apply (f_equal CompOpp) in H. rewrite CompOpp_involutive in H.
    cbn in H. apply Pos.compare_eq in H.
    by subst.
  - destruct (Z.compare_spec ea eb) as [->| |]; try done.
    intros [= H]. apply Pos.compare_eq in H. by subst.
Qed.

Lemma leb_not_ltb_eqb (x y : float) :
  (x <=? y) = true → (x <? y) = false → (x =? y) = true.
Proof.
  rewrite FloatAxioms.leb_spec, FloatAxioms.ltb_spec, FloatAxioms.eqb_spec. unfold SFleb, SFltb, SFeqb.
  by destruct (SFcompare _ _) as [[]|].
Qed.

Lemma eqb_leb_trans (p c d : float) :
  (p =? c) = true → (c <=? d) = true → (p <=? d) = true.
Proof.
  rewrite FloatAxioms.eqb_spec, !FloatAxioms.leb_spec. unfold SFeqb, SFleb. intros Hpc.
  destruct (SFcompare (Prim2SF p) (Prim2SF c)) as [[]|] eqn:E; try done.
  by rewrite (SFcompare_Eq_l _ _ _ E).
Qed.

(** *** Differences *)

Lemma SFsub_self (x : spec_float) :
  SFsub prec emax x x = S754_zero false ∨ SFsub prec emax x x = S754_nan.
Proof.
  destruct x as [s|s| |s m e]; cbn.
  - left. by destruct s.
  - right. by destruct s.
  - by right.
  - left. by rewrite Z.sub_diag.
Qed.

Lemma SFsub_Eq (x y : spec_float) :
  SFcompare x y = Some Eq →
  (∃ s, SFsub prec emax x y = S754_zero s) ∨ SFsub prec emax x y = S754_nan.
Proof.
  intros E.
  destruct x as [sx|sx| |sx mx ex], y as [sy|sy| |sy my ey]; try done;
    try (by destruct sx); try (by destruct sy).
  - left. destruct sx, sy; cbn; by eexists.
  - right. by destruct sx, sy.
  - assert (S754_finite sx mx ex = S754_finite sy my ey) as ->.
    { cbn in E. destruct sx, sy; try done;
        destruct (Z.compare_spec ex ey) as [->| |]; try done.
      - injection E as H. apply (f_equal CompOpp) in H.
        rewrite CompOpp_involutive in H. cbn in H.
        apply Pos.compare_eq in H. by subst.
      - injection E as H. apply Pos.compare_eq in H. by subst. }
    destruct (SFsub_self (S754_finite sy my ey)) as [->| ->]; eauto.
Qed.

(** The difference of two equal floats is not above zero. *)
Lemma sub_eqb_not_pos (p c : float) : (p =? c) = true → (0 <? p - c) = false.
Proof.
  rewrite FloatAxioms.eqb_spec, FloatAxioms.ltb_spec, FloatAxioms.sub_spec. unfold SFeqb. intros E.
  destruct (SFcompare (Prim2SF p) (Prim2SF c)) as [[]|] eqn:Hc; try done.
  unfold SF64sub. destruct (SFsub_Eq _ _ Hc) as [[s ->]| ->]; done.
Qed.

Lemma sub_self_not_pos (c : float) : (0 <? c - c) = false.
Proof.
  rewrite FloatAxioms.ltb_spec, FloatAxioms.sub_spec. unfold SF64sub.
  destruct (SFsub_self (Prim2SF c)) as [-> | ->]; done.
Qed.

(** *** The drawdown loop on binary64 *)

(** The maximum the loop tracks is never below zero. *)
Lemma max_dd_nonneg (series : list float) (st : drawdown_state) :
  (0 <=? max_dd st) = true →
  (0 <=? max_dd (fold_left drawdown_step series st)) = true.
Proof.
  revert st. induction series as [|v rest IH]; intros st Hst; [done|].
  cbn [fold_left]. apply IH. unfold drawdown_step. cbn.
  destruct (max_dd st <? _) eqn:E; [|done]. by apply (nonneg_ltb (max_dd st)).
Qed.

Lemma max_drawdown_of_nonneg (series : list float) :
  (0 <=? max_drawdown_of series) = true.
Proof. unfold max_drawdown_of. by apply max_dd_nonneg. Qed.

Lemma at_peak_step (st : drawdown_state) (v : float) :
  at_peak st → (cum st <=? cum st + v) = true → at_peak (drawdown_step st v).
Proof.
  intros (Hm & p & Hp & Heq) Hle. unfold drawdown_step, at_peak.
  rewrite Hp, Hm. cbn. destruct (p <? cum st + v) eqn:Hlt; cbn.
  - rewrite sub_self_not_pos. split; [done|]. eexists. split; [done|]. by left.
  - assert ((p =? cum st + v) = true) as Heq'.
    { apply leb_not_ltb_eqb; [|done].
      destruct Heq as [->|Heq]; [done|]. by apply (eqb_leb_trans p (cum st)). }
    rewrite sub_eqb_not_pos by done.
    split; [done|]. eexists. split; [done|]. by right.
Qed.

Lemma at_peak_fold (series : list float) (st : drawdown_state) :
  at_peak st →
  Sorted float_le (cum st :: cumulative_from (cum st) series) →
  max_dd (fold_left drawdown_step series st) = 0.
Proof.
  revert st. induction series as [|v rest IH]; intros st Hst Hs.
  - by destruct Hst.
  - cbn in Hs. apply Sorted_inv in Hs as [Hs Hhd]. apply HdRel_inv in Hhd.
    cbn [fold_left]. apply IH; [by apply at_peak_step | exact Hs].
Qed.

(** While the cumulative P&L never falls, the loop ends with [0.0]. *)
Lemma max_drawdown_of_sorted (series : list float) :
  Sorted float_le (cumulative series) →
  max_drawdown_of series = 0.
Proof.
  unfold max_drawdown_of, cumulative. destruct series as [|v rest]; [done|].
  intros Hs. cbn [fold_left]. apply at_peak_fold.
  - unfold drawdown_step, at_peak. cbn. rewrite sub_self_not_pos.
    split; [done|]. eexists. split; [done|]. by left.
  - exact Hs.
Qed.

(** *** [float('-inf')] as the first peak *)

Lemma not_above_neg_infinity (c : float) :
  (neg_infinity <? c) = false ↔ low c.
Proof.
  rewrite FloatAxioms.ltb_spec. change (Prim2SF neg_infinity) with (S754_infinity true).
  unfold low, SFltb, SFcompare.
  destruct (Prim2SF c) as [s|[]| |s m e];
    (split; [intros ?; first [done | by left | by right] | by intros [?|?]]).
Qed.

Lemma low_add (x v : float) : low x → low (x + v).
Proof.
  unfold low. rewrite FloatAxioms.add_spec. unfold SF64add.
  intros [-> | ->]; [by left|].
  destruct (Prim2SF v) as [s|[]| |s m e]; cbn; auto.
Qed.

Lemma low_not_above (p c : float) : low p → low c → (p <? c) = false.
Proof.
  unfold low. rewrite FloatAxioms.ltb_spec. by intros [-> | ->] [-> | ->].
Qed.

Lemma low_sub (p c : float) : low p → low c → Prim2SF (p - c) = S754_nan.
Proof.
  unfold low. rewrite FloatAxioms.sub_spec. by intros [-> | ->] [-> | ->].
Qed.

Lemma neg_infinity_low : low neg_infinity.
Proof. by right. Qed.

Lemma same_state_step (l : literal_state) (st : drawdown_state) (v : float) :
  same_state l st → same_state (literal_step l v) (drawdown_step st v).
Proof.
  destruct l as [lc lp lm], st as [c p m].
  intros (Hc & Hm & Hp). cbn in Hc, Hm, Hp. subst lc lm.
  unfold same_state, literal_step, drawdown_step.
  cbn [lcum lpeak lmax_dd cum peak max_dd].
  change (fadd c v) with (c + v). set (c' := c + v).
  change fsub with PrimFloat.sub. change fltb with PrimFloat.ltb.
  destruct Hp as [[-> Hlp]|[->|(q & -> & Hlp & Hq & Hlow)]];
    cbn [above_peak default from_option Datatypes.id].
  - destruct (lp <? c') eqn:E.
    + split; [done|]. split; [done|]. by right; left.
    + rewrite Hlp in E |- *. apply not_above_neg_infinity in E.
      rewrite (ltb_nan_r m (neg_infinity - c'))
        by (apply low_sub; [apply neg_infinity_low | done]).
      rewrite (ltb_nan_r m (c' - c')) by by apply low_sub.
      split; [done|]. split; [done|]. right; right. by exists c'.
  - change (fltb lp c') with (lp <? c').
    destruct (lp <? c'); cbn [default from_option Datatypes.id];
      (split; [done|]); (split; [done|]); by right; left.
  - pose proof (low_add c v Hlow) as Hlow'. fold c' in Hlow'.
    change (fltb q c') with (q <? c').
    rewrite Hlp, (proj2 (not_above_neg_infinity _) Hlow'),
      (low_not_above q _ Hq Hlow').
    cbn [default from_option Datatypes.id].
    rewrite (ltb_nan_r m (neg_infinity - c'))
      by (apply low_sub; [apply neg_infinity_low | done]).
    rewrite (ltb_nan_r m (q - c')) by by apply low_sub.
    split; [done|]. split; [done|]. right; right. by exists q.
Qed.

(** The loop with [peak = float('-inf')] and the loop with no peak at
    the start end with the same maximum. *)
Lemma literal_max_drawdown_of (series : list float) :
  literal_max_drawdown series = max_drawdown_of series.
Proof.
  unfold literal_max_drawdown, max_drawdown_of.
  assert (∀ l st, same_state l st →
            lmax_dd (fold_left literal_step series l)
            = max_dd (fold_left drawdown_step series st)) as Hsim.
  { induction series as [|v rest IH]; intros l st Hs.
    - by destruct Hs as (_ & ? & _).
    - cbn [fold_left]. by apply IH, same_state_step. }
  apply Hsim. split; [done|]. split; [done|]. by left.
Qed.

End Binary64Facts.

(** C5, as the code has it. The value the loop of lines 187-196 ends
    with is the largest of the drawdowns (running peak of the
    cumulative P&L minus cumulative P&L, the first cumulative value
    being the first peak), and the [max_drawdown] returned is that
    value rounded to 4 decimals. It is never negative, and it is 0
    whenever the cumulative P&L never falls: in exact arithmetic, and
    on binary64 for the loop as written with [peak = float('-inf')]. *)
Theorem max_drawdown_is_the_largest_drawdown :
  (∀ (F : Type) (PF : PyFloat F) (P : IsoParser) (trades : list (trade F))
     (m : metrics F) (series : list (daily_point F)),
     compute_metrics trades = Ok (m, series) →
     max_drawdown_of (map pnl series) = largest (drawdowns (map pnl series))
     ∧ max_drawdown m = round_nd (largest (drawdowns (map pnl series))) 4)
  ∧ (∀ (P : IsoParser) (trades : list (trade R))
       (m : metrics R) (series : list (daily_point R)),
       compute_metrics trades = Ok (m, series) →
       (0 <= largest (drawdowns (map pnl series)))%R
       ∧ (0 <= max_drawdown m)%R
       ∧ (Sorted Rle (cumulative (map pnl series)) →
          max_drawdown m = 0%R))
  ∧ (∀ (P : IsoParser) (trades : list (trade float))
       (m : metrics float) (series : list (daily_point float)),
       compute_metrics trades = Ok (m, series) →
       max_drawdown m
       = Binary64.round
           (Binary64Loop.literal_max_drawdown (map pnl series)) 4
       ∧ (0 <=? Binary64Loop.literal_max_drawdown (map pnl series))%float
         = true
       ∧ (0 <=? max_drawdown m)%float = true
       ∧ (Sorted Binary64Loop.float_le (cumulative (map pnl series)) →
          Binary64Loop.literal_max_drawdown (map pnl series) = 0%float
          ∧ max_drawdown m = 0%float)).
Proof.
  split; [|split].
  - intros F PF P trades m series (daily & _ & _ & ->)%compute_metrics_Ok.
    split; [apply max_drawdown_of_largest|].
    unfold summary. cbn [max_drawdown]. by rewrite max_drawdown_of_largest.
  - intros P trades m series (daily & _ & _ & ->)%compute_metrics_Ok.
    unfold summary. cbn [max_drawdown]. rewrite max_drawdown_of_largest.
    split; [apply largest_nonneg|]. split.
    + apply ExactFacts.round_nonneg; [lia | apply largest_nonneg].
    + intros Hs. unfold largest. rewrite fold_fmax_zero by by apply drawdowns_sorted.
      apply (ExactFacts.round_IZR 0 4). lia.
  - intros P trades m series (daily & _ & _ & ->)%compute_metrics_Ok.
    unfold summary. cbn [max_drawdown].
    rewrite Binary64Facts.literal_max_drawdown_of.
    pose proof (Binary64Facts.max_drawdown_of_nonneg (map pnl series)) as H0.
    split; [done|]. split; [done|]. split.
    + by apply Binary64Sign.round64_nonneg.
    + intros Hs. rewrite (Binary64Facts.max_drawdown_of_sorted _ Hs).
      split; [done|]. vm_compute. reflexivity.
Qed.

(** Against C5 as stated: a gain of 1 on one day and a loss of [2^-15]
    on the next give the drawdowns 0 and [2^-15], whose largest is
    [2^-15]; the [max_drawdown] returned is [0.0], that value rounded
    to 4 decimals. *)
Lemma max_drawdown_is_rounded :
  ∃ m series,
    CPython.compute_metrics64 Scenarios.tiny_drawdown = Ok (m, series)
    ∧ map pnl series = [1; -0x1p-15]%float
    ∧ drawdowns (map pnl series) = [0; 0x1p-15]%float
    ∧ largest (drawdowns (map pnl series)) = 0x1p-15%float
    ∧ Binary64Loop.literal_max_drawdown (map pnl series) = 0x1p-15%float
    ∧ max_drawdown m = 0%float.
Proof. do 2 eexists. repeat split; vm_compute; reflexivity. Qed.

(* ===================================================================== *)
(** ** C6, C7, C4: volatility, win rate, Sharpe *)
(* ===================================================================== *)

Section Stats.
Context {F : Type} {PF : PyFloat F}.

Lemma sample_variance_short (series : list F) :
  (length series ≤ 1)%nat → sample_variance series = fzero.
Proof. destruct series as [|a [|b rest]]; cbn; [done | done | lia]. Qed.

Lemma count_wins_positive (series : list F) :
  count_wins series = count_positive series.
Proof.
  unfold count_wins, count_positive. f_equal.
  induction series as [|v rest IH]; [done|]. cbn [List.filter].
  rewrite filter_cons. destruct (fltb fzero v) eqn:E.
  - rewrite decide_True by done. cbn [length]. by rewrite IH.
  - rewrite decide_False by congruence. done.
Qed.

Lemma count_positive_le (series : list F) :
  (count_positive series ≤ length series)%nat.
Proof. unfold count_positive. apply length_filter. Qed.

End Stats.

Section StatsExact.
Import Exact ExactFacts.
Local Open Scope R_scope.
#[local] Existing Instance exact.

Lemma win_rate_of_range (series : list R) : 0 <= win_rate_of series <= 100.
Proof.
  unfold win_rate_of. destruct series as [|v rest]; [cbn; lra|].
  rewrite count_wins_positive.
  pose proof (count_positive_le (v :: rest)) as Hle.
  set (w := count_positive (v :: rest)) in *. set (n := length (v :: rest)) in *.
  assert (0 < n)%nat as Hn by (subst n; cbn; lia).
  clearbody w n. unfold float_of_nat. cbn.
  assert (0 < IZR (Z.of_nat n)) by (apply IZR_lt; lia).
  assert (0 <= IZR (Z.of_nat w)) by (apply IZR_le; lia).
  assert (IZR (Z.of_nat w) <= IZR (Z.of_nat n)) by (apply IZR_le; lia).
  assert (0 <= IZR (Z.of_nat w) / IZR (Z.of_nat n) <= 1).
  { split.
    - apply Rmult_le_pos; [done | left; by apply Rinv_0_lt_compat].
    - apply Rmult_le_reg_r with (IZR (Z.of_nat n)); [done|].
      unfold Rdiv. rewrite Rmult_assoc, Rinv_l by lra. lra. }
  lra.
Qed.

Lemma win_rate_of_no_positive (series : list R) :
  count_positive series = 0%nat → win_rate_of series = 0.
Proof.
  intros Hc. unfold win_rate_of. destruct series as [|v rest]; [done|].
  rewrite count_wins_positive, Hc. unfold float_of_nat.
  change (0 / IZR (Z.of_nat (length (v :: rest))) * 100 = 0).
  unfold Rdiv. rewrite Rmult_0_l. lra.
Qed.

Lemma sqrt_sample_variance_short (series : list R) :
  (length series ≤ 1)%nat → fsqrt (sample_variance series) = 0.
Proof.
  intros Hlen. rewrite sample_variance_short by done. apply sqrt_0.
Qed.

End StatsExact.

(* ===================================================================== *)
(** ** Bounds on binary64: the win rate *)
(* ===================================================================== *)

Module Binary64OrderFacts.
Import Binary64Order.

(** *** Powers of two and the number of digits *)

Lemma pow2_pos (n : Z) : 0 ≤ n → 0 < 2 ^ n.
Proof. intros. by apply Z.pow_pos_nonneg. Qed.

Lemma pow2_split (a b : Z) : 0 ≤ a → 0 ≤ b → 2 ^ (a + b) = 2 ^ a * 2 ^ b.
Proof. intros. by apply Z.pow_add_r. Qed.

Lemma pow2_lt_exponents (a b : Z) : 0 ≤ b → 2 ^ a < 2 ^ b → a < b.
Proof. intros Hb H. by apply (Z.pow_lt_mono_r_iff 2 a b). Qed.

Lemma digits2_pos_bounds (p : positive) :
  2 ^ (Z.pos (digits2_pos p) - 1) ≤ Z.pos p < 2 ^ Z.pos (digits2_pos p).
Proof.
  induction p as [p IH|p IH|]; cbn [digits2_pos].
  - rewrite Pos2Z.inj_succ.
    replace (Z.succ (Z.pos (digits2_pos p)) - 1) with (Z.pos (digits2_pos p) - 1 + 1) by lia.
    rewrite Z.pow_succ_r by lia.
    destruct (decide (Z.pos (digits2_pos p) - 1 = 0)) as [E|E].
    + rewrite E in *. cbn in *. lia.
    + rewrite pow2_split by lia. change (2 ^ 1) with 2. lia.
  - rewrite Pos2Z.inj_succ.
    replace (Z.succ (Z.pos (digits2_pos p)) - 1) with (Z.pos (digits2_pos p) - 1 + 1) by lia.
    rewrite Z.pow_succ_r by lia.
    destruct (decide (Z.pos (digits2_pos p) - 1 = 0)) as [E|E].
    + rewrite E in *. cbn in *. lia.
    + rewrite pow2_split by lia. change (2 ^ 1) with 2. lia.
  - cbn. lia.
Qed.

Lemma Zdigits2_nonneg (m : Z) : 0 ≤ Zdigits2 m.
Proof. destruct m; cbn; lia. Qed.

(** A number below [2^n] has at most [n] digits. *)
Lemma Zdigits2_le (m n : Z) : 0 ≤ m → 0 ≤ n → m < 2 ^ n → Zdigits2 m ≤ n.
Proof.
  intros Hm Hn Hlt. destruct m as [|p|p]; [cbn; lia| |lia]. cbn [Zdigits2].
  pose proof (digits2_pos_bounds p) as [Hlo _].
  assert (2 ^ (Z.pos (digits2_pos p) - 1) < 2 ^ n) as H by lia.
  apply pow2_lt_exponents in H; lia.
Qed.

Lemma Zdigits2_gt (m : Z) : 0 ≤ m → m < 2 ^ Zdigits2 m.
Proof.
  intros Hm. destruct m as [|p|p]; [cbn; lia| |lia].
  apply digits2_pos_bounds.
Qed.

(** *** Shifting a mantissa to the right *)

(** An invariant in a bound that halves at each step holds after the
    [2^k]-fold bound is shifted [k] times. *)
Lemma iter_pos_halving (Inv : Z → shr_record → Prop) :
  (∀ b r, Inv (2 * b) r → Inv b (shr_1 r)) →
  ∀ p b r, Inv (2 ^ Z.pos p * b) r → Inv b (SpecFloat.iter_pos shr_1 p r).
Proof.
  intros Hstep p. induction p as [p IH|p IH|]; intros b r H; cbn [SpecFloat.iter_pos].
  - apply IH, IH, Hstep.
    replace (2 * (2 ^ Z.pos p * (2 ^ Z.pos p * b))) with (2 ^ Z.pos p~1 * b); [done|].
    replace (Z.pos p~1) with (Z.pos p + Z.pos p + 1) by lia.
    rewrite !pow2_split by lia. change (2 ^ 1) with 2. lia.
  - apply IH, IH.
    replace (2 ^ Z.pos p * (2 ^ Z.pos p * b)) with (2 ^ Z.pos p~0 * b); [done|].
    replace (Z.pos p~0) with (Z.pos p + Z.pos p) by lia.
    rewrite pow2_split by lia. lia.
  - apply Hstep. by change (2 ^ 1 * b) with (2 * b) in H.
Qed.

(** The mantissa, with what was discarded counted as one unit, stays
    at or under the bound. *)
Lemma under_step (b : Z) (r : shr_record) : under (2 * b) r → under b (shr_1 r).
Proof.
  destruct r as [[|[p|p|]|p] [] []]; unfold under, record_inexact; cbn; lia.
Qed.

(** The mantissa stays strictly under the bound. *)
Lemma strictly_under_step (b : Z) (r : shr_record) :
  strictly_under (2 * b) r → strictly_under b (shr_1 r).
Proof.
  destruct r as [[|[p|p|]|p] [] []]; unfold strictly_under; cbn; lia.
Qed.

(** The mantissa is the bound, nothing discarded. *)
Lemma just_step (b : Z) (r : shr_record) : just (2 * b) r → just b (shr_1 r).
Proof.
  destruct r as [[|[p|p|]|p] [] []]; unfold just, record_inexact; cbn; lia.
Qed.

Lemma record_inexact_of_loc (m : Z) (l : location) :
  record_inexact (shr_record_of_loc m l) = inexact l
  ∧ shr_m (shr_record_of_loc m l) = m.
Proof. by destruct l as [|[]]. Qed.

Lemma round_nearest_even_bounds (r : shr_record) :
  0 ≤ shr_m r →
  shr_m r ≤ round_nearest_even (shr_m r) (loc_of_shr_record r)
          ≤ shr_m r + record_inexact r.
Proof.
  destruct r as [m [] []]; unfold record_inexact; cbn; intros; try lia.
  destruct (Z.even m); lia.
Qed.

Lemma round_nearest_even_just (r : shr_record) :
  record_inexact r = 0 →
  round_nearest_even (shr_m r) (loc_of_shr_record r) = shr_m r.
Proof. by destruct r as [m [] []]. Qed.


(** *** One rounding *)

Lemma fexp_eq (x : Z) : fexp prec emax x = Z.max (x - 53) (-1074).
Proof. reflexivity. Qed.

Lemma pow2_le_mono (a b : Z) : 0 ≤ a ≤ b → 2 ^ a ≤ 2 ^ b.
Proof. intros. apply Z.pow_le_mono_r; lia. Qed.

(** The shift to the working exponent keeps a bound that is a binary64
    number, and leaves a mantissa below [2^53]. *)
Lemma shr_fexp_under (c t m e : Z) (l : location) :
  representable c t → 0 ≤ m → e ≤ t → m + inexact l ≤ c * 2 ^ (t - e) →
  ∃ r e', shr_fexp prec emax m e l = (r, e')
          ∧ e' ≤ t ∧ under (c * 2 ^ (t - e')) r ∧ strictly_under (2 ^ 53) r.
Proof.
  intros [[Hc0 Hc] [Ht0 Ht]] Hm He Hle. unfold shr_fexp, shr.
  rewrite fexp_eq. pose proof (Zdigits2_gt m Hm) as Hd.
  pose proof (Zdigits2_nonneg m) as Hd0.
  pose proof (record_inexact_of_loc m l) as [Hi Hsm].
  pose proof (pow2_pos (t - e) ltac:(lia)) as Hp.
  assert (0 ≤ inexact l) as Hl0 by (destruct l; cbn; lia).
  assert (m < 2 ^ (53 + (t - e))) as Hm53.
  { rewrite pow2_split by lia. nia. }
  assert (Zdigits2 m ≤ 53 + (t - e)) as Hdt by (apply Zdigits2_le; lia).
  destruct (Z.max (Zdigits2 m + e - 53) (-1074) - e) as [|p|p] eqn:Ek.
  - eexists _, _. split; [done|]. split; [done|]. split.
    + unfold under. rewrite Hi, Hsm. lia.
    + unfold strictly_under. rewrite Hsm. split; [done|].
      assert (2 ^ Zdigits2 m ≤ 2 ^ 53) by (apply pow2_le_mono; lia). lia.
  - eexists _, _. split; [done|].
    assert (e + Z.pos p ≤ t) as He' by lia.
    split; [done|]. split.
    + apply (iter_pos_halving under under_step).
      unfold under. rewrite Hi, Hsm. split; [done|].
      replace (2 ^ Z.pos p * (c * 2 ^ (t - (e + Z.pos p))))
        with (c * 2 ^ (t - e)); [done|].
      replace (t - e) with (Z.pos p + (t - (e + Z.pos p))) by lia.
      rewrite pow2_split by lia. lia.
    + apply (iter_pos_halving strictly_under strictly_under_step).
      unfold strictly_under. rewrite Hsm. split; [done|].
      rewrite <- pow2_split by lia.
      assert (2 ^ Zdigits2 m ≤ 2 ^ (Z.pos p + 53)) by (apply pow2_le_mono; lia).
      lia.
  - eexists _, _. split; [done|]. split; [done|]. split.
    + unfold under. rewrite Hi, Hsm. lia.
    + unfold strictly_under. rewrite Hsm. split; [done|].
      assert (2 ^ Zdigits2 m ≤ 2 ^ 53) by (apply pow2_le_mono; lia). lia.
Qed.

(** An exact value that is a binary64 number stays exact. *)
Lemma shr_fexp_just (c t m e : Z) :
  representable c t → e ≤ t → m = c * 2 ^ (t - e) →
  ∃ r e', shr_fexp prec emax m e loc_Exact = (r, e')
          ∧ e' ≤ t ∧ just (c * 2 ^ (t - e')) r ∧ strictly_under (2 ^ 53) r.
Proof.
  intros Hrep He Hm.
  pose proof (pow2_pos (t - e) ltac:(lia)) as Hp.
  destruct Hrep as [[Hc0 Hc] [Ht0 Ht]].
  assert (0 ≤ m) as Hm0 by nia.
  destruct (shr_fexp_under c t m e loc_Exact) as (r & e' & E & He' & _ & Hs);
    [done | done | done | cbn; lia |].
  exists r, e'. split; [done|]. split; [done|]. split; [|done].
  revert E. unfold shr_fexp, shr. rewrite fexp_eq.
  destruct (Z.max (Zdigits2 m + e - 53) (-1074) - e) as [|p|p] eqn:Ek;
    intros [= <- <-]; try (unfold just; cbn; split; [done | split; [done|lia]]).
  apply (iter_pos_halving just just_step). unfold just. cbn.
  pose proof (pow2_pos (t - (e + Z.pos p)) ltac:(lia)).
  split; [|split; [done|nia]].
  rewrite Hm. replace (t - e) with (Z.pos p + (t - (e + Z.pos p))) by lia.
  rewrite pow2_split by lia. lia.
Qed.

(** Rounding a value that is at most a binary64 number gives at most
    that number. *)
Lemma binary_round_aux_below (c t m e : Z) (l : location) :
  representable c t → 0 ≤ m → e ≤ t → m + inexact l ≤ c * 2 ^ (t - e) →
  below c t (binary_round_aux prec emax false m e l).
Proof.
  intros Hrep Hm He Hle. unfold binary_round_aux.
  destruct (shr_fexp_under c t m e l Hrep Hm He Hle)
    as (r1 & e1 & -> & He1 & [Hr1 Hu1] & _).
  pose proof (round_nearest_even_bounds r1 Hr1) as [Hlo Hhi].
  destruct (shr_fexp_under c t (round_nearest_even (shr_m r1) (loc_of_shr_record r1))
              e1 loc_Exact Hrep)
    as (r2 & e2 & -> & He2 & [Hr2 Hu2] & [_ Hs2]); [lia | done | cbn; lia |].
  assert (0 ≤ record_inexact r2) by (unfold record_inexact; destruct (_ || _); lia).
  destruct (shr_m r2) as [|m4|m4] eqn:E4; [by left| |lia].
  destruct Hrep as [_ [_ Ht]].
  change (emax - prec) with 971. rewrite (proj2 (Z.leb_le e2 971)) by lia.
  right. exists m4, e2. repeat split; try done; lia.
Qed.

(** Rounding a binary64 number gives that number. *)
Lemma binary_round_aux_exactly (c t m e : Z) :
  representable c t → e ≤ t → m = c * 2 ^ (t - e) →
  exactly c t (binary_round_aux prec emax false m e loc_Exact).
Proof.
  intros Hrep He Hm. unfold binary_round_aux.
  destruct (shr_fexp_just c t m e Hrep He Hm)
    as (r1 & e1 & -> & He1 & (Hr1 & Hi1 & Hb1) & _).
  rewrite (round_nearest_even_just r1 Hi1).
  destruct (shr_fexp_just c t (shr_m r1) e1 Hrep He1 Hr1)
    as (r2 & e2 & -> & He2 & (Hr2 & Hi2 & Hb2) & [_ Hs2]).
  pose proof (pow2_pos (t - e2) ltac:(lia)).
  destruct Hrep as [[Hc0 _] [_ Ht]].
  destruct (shr_m r2) as [|m4|m4] eqn:E4; [nia| |nia].
  change (emax - prec) with 971. rewrite (proj2 (Z.leb_le e2 971)) by lia.
  exists m4, e2. repeat split; try done; lia.
Qed.


(** *** [binary_round]: alignment, then one rounding *)

Lemma iter_xO (m d : positive) : Z.pos (Pos.iter xO m d) = Z.pos m * 2 ^ Z.pos d.
Proof.
  induction d as [|d IH] using Pos.peano_ind.
  - cbn. lia.
  - rewrite Pos.iter_succ, Pos2Z.inj_xO, IH, Pos2Z.inj_succ, Z.pow_succ_r by lia.
    lia.
Qed.

(** What [shl_align] returns: the same value at an exponent that is not
    larger. *)
Lemma shl_align_spec (mx : positive) (ex ex' : Z) :
  ∃ mz ez, shl_align mx ex ex' = (mz, ez)
           ∧ ez ≤ ex ∧ Z.pos mz = Z.pos mx * 2 ^ (ex - ez).
Proof.
  unfold shl_align. destruct (ex' - ex) as [|d|d] eqn:E.
  - exists mx, ex. rewrite Z.sub_diag. cbn. split; [done|]. lia.
  - exists mx, ex. rewrite Z.sub_diag. cbn. split; [done|]. lia.
  - eexists _, _. split; [done|]. split; [lia|].
    rewrite iter_xO. f_equal. f_equal. lia.
Qed.

Lemma binary_round_below (c t : Z) (mx : positive) (ex : Z) :
  representable c t → ex ≤ t → Z.pos mx ≤ c * 2 ^ (t - ex) →
  below c t (binary_round prec emax false mx ex).
Proof.
  intros Hrep He Hle. unfold binary_round.
  destruct (shl_align_spec mx ex (fexp prec emax (Z.pos (digits2_pos mx) + ex)))
    as (mz & ez & -> & Hez & Hmz).
  apply binary_round_aux_below; [done | lia | lia |]. cbn [inexact].
  rewrite Hmz, Z.add_0_r.
  replace (t - ez) with (t - ex + (ex - ez)) by lia.
  rewrite pow2_split by lia.
  pose proof (pow2_pos (ex - ez) ltac:(lia)). nia.
Qed.

Lemma binary_round_exactly (c t : Z) (mx : positive) (ex : Z) :
  representable c t → ex ≤ t → Z.pos mx = c * 2 ^ (t - ex) →
  exactly c t (binary_round prec emax false mx ex).
Proof.
  intros Hrep He Hle. unfold binary_round.
  destruct (shl_align_spec mx ex (fexp prec emax (Z.pos (digits2_pos mx) + ex)))
    as (mz & ez & -> & Hez & Hmz).
  apply binary_round_aux_exactly; [done | lia |].
  rewrite Hmz, Hle.
  replace (t - ez) with (t - ex + (ex - ez)) by lia.
  rewrite pow2_split by lia. lia.
Qed.

(** *** From the specification back to the float *)

Lemma Prim2SF_SF2Prim_finite (m : positive) (e : Z) :
  Z.pos m < 2 ^ 63 →
  Prim2SF (SF2Prim (S754_finite false m e))
  = SFldexp prec emax (binary_round prec emax false m 0) e.
Proof.
  intros Hm. cbn [SF2Prim].
  rewrite FloatLemmas.Z_ldexp_spec, FloatAxioms.of_uint63_spec, Uint63.of_Z_spec.
  rewrite Z.mod_small by (split; [lia | exact Hm]). done.
Qed.

Lemma SF2Prim_below (c t : Z) (y : spec_float) :
  representable c t → below c t y → below c t (Prim2SF (SF2Prim y)).
Proof.
  intros Hrep [->|(m & e & -> & He & Hle & Hm)]; [by left|].
  rewrite Prim2SF_SF2Prim_finite by lia.
  destruct (binary_round_exactly (Z.pos m) 0 m 0) as (m1 & e1 & -> & He1 & Hm1 & _).
  { split; [lia | lia]. }
  { done. }
  { cbn. lia. }
  cbn [SFldexp]. apply binary_round_below; [done | lia |].
  rewrite Hm1. replace (t - (e1 + e)) with ((0 - e1) + (t - e)) by lia.
  rewrite pow2_split by lia.
  pose proof (pow2_pos (0 - e1) ltac:(lia)). nia.
Qed.

Lemma SF2Prim_exactly (c t : Z) (y : spec_float) :
  representable c t → exactly c t y → exactly c t (Prim2SF (SF2Prim y)).
Proof.
  intros Hrep (m & e & -> & He & Hle & Hm).
  rewrite Prim2SF_SF2Prim_finite by lia.
  destruct (binary_round_exactly (Z.pos m) 0 m 0) as (m1 & e1 & -> & He1 & Hm1 & _).
  { split; [lia | lia]. }
  { done. }
  { cbn. lia. }
  cbn [SFldexp]. apply binary_round_exactly; [done | lia |].
  rewrite Hm1, Hle. replace (t - (e1 + e)) with ((0 - e1) + (t - e)) by lia.
  rewrite pow2_split by lia. lia.
Qed.

(** [float(n)] for an int below [2^53] is [n]. *)
Lemma of_Z_exactly (n : Z) :
  0 < n < 2 ^ 53 → exactly n 0 (Prim2SF (Binary64.of_Z n)).
Proof.
  intros Hn. unfold Binary64.of_Z. destruct n as [|p|p]; [lia| |lia].
  cbn [binary_normalize].
  assert (representable (Z.pos p) 0) as Hrep by (split; lia).
  apply SF2Prim_exactly; [done|].
  apply binary_round_exactly; [done | done | cbn; lia].
Qed.


(** *** Division and multiplication *)

Lemma inexact_new_location (nb k : Z) :
  inexact (new_location nb k) = if k =? 0 then 0 else 1.
Proof.
  unfold new_location, new_location_even, new_location_odd.
  by destruct (Z.even nb), (k =? 0).
Qed.

(** The quotient of two positive doubles stays below a binary64 number
    [c * 2^t] that the exact quotient does not exceed.  The hypothesis
    compares [mx * 2^ex] with [c * 2^t * my * 2^ey] at a common scale
    [2^k]. *)
Lemma SFdiv_below (c t k : Z) (mx my : positive) (ex ey : Z) :
  representable c t → k ≤ ex → k ≤ t + ey →
  Z.pos mx * 2 ^ (ex - k) ≤ c * Z.pos my * 2 ^ (t + ey - k) →
  below c t (SFdiv prec emax (S754_finite false mx ex) (S754_finite false my ey)).
Proof.
  intros Hrep Hk1 Hk2 Hle. cbn [SFdiv xorb]. unfold SFdiv_core_binary.
  cbn [Zdigits2].
  set (d1 := Z.pos (digits2_pos mx)). set (d2 := Z.pos (digits2_pos my)).
  set (e' := Z.min (fexp prec emax (d1 + ex - (d2 + ey))) (ex - ey)).
  pose proof (digits2_pos_bounds mx) as [Hx1 _]. fold d1 in Hx1.
  pose proof (digits2_pos_bounds my) as [_ Hy2]. fold d2 in Hy2.
  destruct Hrep as [[Hc0 Hc] [Ht0 Ht1]].
  assert (0 < d1 ∧ 0 < d2) as [Hd1 Hd2] by (unfold d1, d2; lia).
  assert (d1 + ex - (d2 + ey) - 53 ≤ t) as HD.
  { assert (2 ^ (d1 - 1 + (ex - k)) < 2 ^ (53 + d2 + (t + ey - k))) as H.
    { rewrite (pow2_split (d1 - 1)), (pow2_split (53 + d2)), (pow2_split 53)
        by lia.
      pose proof (pow2_pos (ex - k) ltac:(lia)).
      pose proof (pow2_pos (t + ey - k) ltac:(lia)).
      pose proof (pow2_pos d2 ltac:(lia)).
      assert (2 ^ (d1 - 1) * 2 ^ (ex - k) ≤ Z.pos mx * 2 ^ (ex - k)) by nia.
      assert (c * Z.pos my * 2 ^ (t + ey - k)
              < 2 ^ 53 * 2 ^ d2 * 2 ^ (t + ey - k)); [|lia].
      apply Z.mul_lt_mono_pos_r; [done|]. nia. }
    apply pow2_lt_exponents in H; lia. }
  assert (e' ≤ t) as He't.
  { unfold e'. rewrite fexp_eq. lia. }
  assert (e' ≤ ex - ey) as He'q by (unfold e'; lia).
  set (s := ex - ey - e').
  assert (0 ≤ s) as Hs by (unfold s; lia).
  set (m' := match s with Z.pos _ => Z.shiftl (Z.pos mx) s | 0 => Z.pos mx | Z.neg _ => 0 end).
  assert (m' = Z.pos mx * 2 ^ s) as Hm'.
  { unfold m'. destruct s as [|p|p] eqn:Es; [cbn; lia| |lia].
    by rewrite Z.shiftl_mul_pow2. }
  assert (m' ≤ c * 2 ^ (t - e') * Z.pos my) as Hbound.
  { rewrite Hm'.
    destruct (Z_le_gt_dec (ex - k) s) as [Hge|Hlt].
    - replace s with ((ex - k) + (s - (ex - k))) by lia.
      replace (t - e') with ((t + ey - k) + (s - (ex - k))) by (unfold s; lia).
      rewrite !pow2_split by lia.
      pose proof (pow2_pos (s - (ex - k)) ltac:(lia)). nia.
    - replace (ex - k) with (s + ((ex - k) - s)) in Hle by lia.
      replace (t + ey - k) with ((t - e') + ((ex - k) - s)) in Hle
        by (unfold s; lia).
      rewrite !pow2_split in Hle by lia.
      pose proof (pow2_pos ((ex - k) - s) ltac:(lia)). nia. }
  pose proof (Z.div_eucl_eq m' (Z.pos my) ltac:(lia)) as Heq.
  pose proof (Z.mod_pos_bound m' (Z.pos my) ltac:(lia)) as Hr.
  unfold Z.modulo in Hr.
  destruct (Z.div_eucl m' (Z.pos my)) as [q r].
  assert (0 ≤ m') as Hm'0 by (rewrite Hm'; pose proof (pow2_pos s Hs); nia).
  assert (0 ≤ q) as Hq by nia.
  apply binary_round_aux_below; [done | done | done |].
  rewrite inexact_new_location.
  pose proof (pow2_pos (t - e') ltac:(lia)).
  destruct (Z.eqb_spec r 0) as [->|Hne]; nia.
Qed.

(** The product of a double below [c1 * 2^t1] and the double
    [c2 * 2^t2]. *)
Lemma SFmul_below (c1 t1 c2 t2 : Z) (x y : spec_float) :
  representable (c1 * c2) (t1 + t2) → 0 < c1 → 0 < c2 →
  below c1 t1 x → exactly c2 t2 y →
  below (c1 * c2) (t1 + t2) (SFmul prec emax x y).
Proof.
  intros Hrep Hc1 Hc2 Hx (my & ey & -> & Hey & Hmy & _).
  destruct Hx as [->|(mx & ex & -> & Hex & Hmx & _)]; [by left|].
  cbn [SFmul xorb]. apply binary_round_aux_below; [done | lia | lia |].
  cbn [inexact]. rewrite Pos2Z.inj_mul, Hmy, Z.add_0_r.
  replace (t1 + t2 - (ex + ey)) with ((t1 - ex) + (t2 - ey)) by lia.
  rewrite pow2_split by lia.
  pose proof (pow2_pos (t1 - ex) ltac:(lia)).
  pose proof (pow2_pos (t2 - ey) ltac:(lia)). nia.
Qed.

(** *** Comparison *)

Lemma canonical_digits (m : positive) (e : Z) :
  canonical_mantissa prec emax m e = true →
  -1074 ≤ e ∧ Z.pos m < 2 ^ 53 ∧ (-1074 < e → 2 ^ 52 ≤ Z.pos m).
Proof.
  unfold canonical_mantissa. rewrite fexp_eq. intros H%Z.eqb_eq.
  pose proof (digits2_pos_bounds m) as [Hlo Hhi].
  set (d := Z.pos (digits2_pos m)) in *.
  assert (0 < d) by (unfold d; lia).
  split; [lia|]. split.
  - assert (d ≤ 53) by lia.
    pose proof (pow2_le_mono d 53 ltac:(lia)). lia.
  - intros He. assert (d = 53) as Hd by lia. by rewrite Hd in Hlo.
Qed.

Lemma valid_canonical (s : bool) (m : positive) (e : Z) :
  valid_binary (S754_finite s m e) = true →
  canonical_mantissa prec emax m e = true.
Proof. unfold valid_binary. cbn [SpecFloat.valid_binary]. unfold bounded. by intros [H _]%andb_prop. Qed.

(** A valid double below [c * 2^t] is not larger than the double
    [c * 2^t]. *)
Lemma below_leb (c t : Z) (x y : spec_float) :
  0 < c → below c t x → valid_binary x = true →
  exactly c t y → valid_binary y = true →
  SFleb x y = true.
Proof.
  intros Hc Hx Hvx (my & ey & -> & Hey & Hmy & _) Hvy.
  destruct Hx as [->|(mx & ex & -> & Hex & Hmx & _)]; [done|].
  apply valid_canonical, canonical_digits in Hvx as (Hx0 & Hx1 & Hx2).
  apply valid_canonical, canonical_digits in Hvy as (Hy0 & Hy1 & Hy2).
  unfold SFleb, SFcompare.
  destruct (Z.compare_spec ex ey) as [->|Hlt|Hgt]; [|done|].
  - change (Pos.compare_cont Eq mx my) with (Pos.compare mx my).
    destruct (Pos.compare_spec mx my) as [?|?|Hgt]; [done|done|]. lia.
  - exfalso. specialize (Hx2 ltac:(lia)).
    replace (t - ey) with ((t - ex) + (ex - ey)) in Hmy by lia.
    rewrite pow2_split in Hmy by lia.
    pose proof (pow2_le_mono 1 (ex - ey) ltac:(lia)) as H1.
    change (2 ^ 1) with 2 in H1.
    pose proof (pow2_pos (t - ex) ltac:(lia)). nia.
Qed.

Lemma below_nonneg (c t : Z) (x : float) :
  below c t (Prim2SF x) → (0 <=? x)%float = true.
Proof.
  intros H. apply Binary64Sign.leb_zero.
  by destruct H as [->|(m & e & -> & _)].
Qed.

Lemma below_zero (x : float) : Prim2SF x = S754_zero false → x = 0%float.
Proof. intros H. by apply FloatAxioms.Prim2SF_inj. Qed.

(** *** [round(x, 2)] and the win rate *)

Lemma div_half_even_le (num den b : Z) :
  0 ≤ num → 0 < den → num ≤ b * den →
  0 ≤ Binary64.div_half_even num den ≤ b.
Proof.
  intros Hn Hd Hle. unfold Binary64.div_half_even.
  pose proof (Z.div_mod num den ltac:(lia)) as Heq.
  pose proof (Z.mod_pos_bound num den Hd) as Hr.
  assert (0 ≤ num / den) as Hq by (apply Z.div_pos; lia).
  assert (num / den ≤ b) as Hqb by nia.
  assert (num / den = b → num `mod` den = 0) as Hfull by nia.
  destruct (Z.compare_spec (2 * (num `mod` den)) den) as [E|E|E].
  - destruct (Z.even (num / den)); [lia|].
    destruct (Z.eq_dec (num / den) b) as [Hb|Hb]; [|lia].
    specialize (Hfull Hb). lia.
  - lia.
  - destruct (Z.eq_dec (num / den) b) as [Hb|Hb]; [|lia].
    specialize (Hfull Hb). lia.
Qed.

Lemma representable_100 : representable 25 2.
Proof. split; lia. Qed.

(** Rounding a double of [[0, 100]] to two decimals leaves it in
    [[0, 100]]. *)
Lemma round_below_100 (p : float) :
  below 25 2 (Prim2SF p) → below 25 2 (Prim2SF (Binary64.round p 2)).
Proof.
  intros H. unfold Binary64.round.
  destruct H as [H|(m & e & H & He & Hm & _)]; rewrite H; [by left|].
  cbv zeta.
  set (n := if 0 <=? e then _ else _).
  assert (0 ≤ n ≤ 10000) as Hn.
  { unfold n. destruct (Z.leb_spec 0 e) as [H0|H0].
    - change (10 ^ 2) with 100.
      assert (Z.pos m * 2 ^ e ≤ 25 * (2 ^ (2 - e) * 2 ^ e)) as Hb.
      { pose proof (pow2_pos e H0). nia. }
      rewrite <- pow2_split in Hb by lia.
      replace (2 - e + e) with 2 in Hb by lia.
      pose proof (pow2_pos e H0). change (2 ^ 2) with 4 in Hb. nia.
    - change (10 ^ 2) with 100.
      apply div_half_even_le; [lia | apply pow2_pos; lia |].
      replace (2 - e) with (2 + - e) in Hm by lia.
      rewrite pow2_split in Hm by lia. change (2 ^ 2) with 4 in Hm. lia. }
  clearbody n. unfold Binary64.of_decimal.
  destruct n as [|p'|p']; [by left| |by left].
  change (0 <=? - 2) with false. cbv iota.
  change (Z.to_pos (10 ^ (- - 2))) with 100%positive.
  apply SF2Prim_below; [apply representable_100|].
  apply (SFdiv_below 25 2 0); [apply representable_100 | lia | lia |].
  cbn. lia.
Qed.

Lemma of_Z_100 : exactly 25 2 (Prim2SF (Binary64.of_Z 100)).
Proof.
  exists 7036874417766400%positive, (-46).
  split; [vm_compute; reflexivity|]. split; [lia|]. split; [|lia].
  vm_compute. reflexivity.
Qed.

(** The quotient [float(w) / float(n)] for [0 <= w <= n < 2^53]. *)
Lemma share_below_one (w n : Z) :
  0 ≤ w ≤ n → 0 < n < 2 ^ 53 →
  below 1 0 (Prim2SF (Binary64.of_Z w / Binary64.of_Z n)%float).
Proof.
  intros Hw Hn. rewrite FloatAxioms.div_spec. unfold SF64div.
  destruct (of_Z_exactly n Hn) as (my & ey & -> & Hey & Hmy & _).
  destruct (Z.eq_dec w 0) as [->|Hw0].
  { by left. }
  destruct (of_Z_exactly w ltac:(lia)) as (mx & ex & -> & Hex & Hmx & _).
  assert (representable 1 0) as Hrep by (split; lia).
  apply (SFdiv_below 1 0 (Z.min ex ey)); [done | lia | lia |].
  rewrite Hmx, Hmy.
  assert (∀ e, Z.min ex ey ≤ e → e ≤ 0 →
               2 ^ (0 - e) * 2 ^ (e - Z.min ex ey) = 2 ^ (0 - Z.min ex ey)) as Hp.
  { intros e H1 H2. rewrite <- pow2_split by lia. f_equal. lia. }
  replace (0 + ey - Z.min ex ey) with (ey - Z.min ex ey) by lia.
  rewrite <- !Z.mul_assoc, (Hp ex), (Hp ey) by lia.
  pose proof (pow2_pos (0 - Z.min ex ey) ltac:(lia)). nia.
Qed.

(** Line 179 on binary64, for fewer than [2^53] daily points: the
    unrounded win rate is a double of [[0, 100]]. *)
Lemma win_rate_of_below (series : list float) :
  Z.of_nat (length series) < 2 ^ 53 →
  below 25 2 (Prim2SF (win_rate_of series)).
Proof.
  intros Hlen. destruct series as [|v rest]; [by left|].
  set (series := v :: rest) in *.
  unfold win_rate_of. change (match series with [] => _ | _ => ?b end) with b.
  assert (count_wins series ≤ length series)%nat as Hw
    by (rewrite count_wins_positive; apply count_positive_le).
  assert (0 < length series)%nat as Hpos by (cbn; lia).
  unfold float_of_nat. cbn [fmul fdiv of_int Binary64.binary64].
  rewrite FloatAxioms.mul_spec. unfold SF64mul.
  apply (SFmul_below 1 0 25 2); [apply representable_100 | lia | lia | |].
  - apply share_below_one; lia.
  - apply of_Z_100.
Qed.

Lemma win_rate_of_none (series : list float) :
  Z.of_nat (length series) < 2 ^ 53 → count_wins series = 0%nat →
  win_rate_of series = 0%float.
Proof.
  intros Hlen Hc. destruct series as [|v rest]; [done|].
  set (series := v :: rest) in *.
  unfold win_rate_of. change (match series with [] => _ | _ => ?b end) with b.
  assert (0 < length series)%nat as Hpos by (cbn; lia).
  rewrite Hc. unfold float_of_nat. cbn [fmul fdiv of_int Binary64.binary64].
  apply below_zero. rewrite FloatAxioms.mul_spec, FloatAxioms.div_spec.
  destruct (of_Z_exactly (Z.of_nat (length series)) ltac:(lia))
    as (my & ey & -> & _).
  done.
Qed.

(** The rounded win rate on binary64. *)
Lemma win_rate_range (series : list float) :
  Z.of_nat (length series) < 2 ^ 53 →
  let w := Binary64.round (win_rate_of series) 2 in
  (0 <=? w)%float = true ∧ (w <=? 100)%float = true
  ∧ (count_wins series = 0%nat → w = 0%float).
Proof.
  intros Hlen w.
  pose proof (round_below_100 _ (win_rate_of_below series Hlen)) as Hb.
  fold w in Hb. split; [|split].
  - by apply (below_nonneg 25 2).
  - rewrite FloatAxioms.leb_spec.
    apply (below_leb 25 2); [lia | done | apply FloatAxioms.Prim2SF_valid | |].
    + exists 7036874417766400%positive, (-46).
      split; [vm_compute; reflexivity|]. split; [lia|]. split; [|lia].
      vm_compute. reflexivity.
    + apply FloatAxioms.Prim2SF_valid.
  - intros Hc. unfold w. rewrite win_rate_of_none by done.
    vm_compute. reflexivity.
Qed.

(** *** How long a daily series can be *)

Section SeriesLength.
Context {F : Type} {PF : PyFloat F} {P : IsoParser}.

(** The daily series has one point per date, and there are fewer than
    [9999 * 12 * 31] dates. *)
Lemma daily_series_length (trades : list (trade F)) (m : metrics F)
    (series : list (daily_point F)) :
  compute_metrics trades = Ok (m, series) →
  Z.of_nat (length series) ≤ 9999 * 12 * 31.
Proof.
  intros (daily & Hagg & -> & _)%compute_metrics_Ok.
  rewrite <- (List.length_map timestamp), timestamps_daily_list.
  set (text := λ p : Z * (Z * Z),
         Datetime.zfill 4 p.1 +:+ "-" +:+ Datetime.zfill 2 p.2.1 +:+ "-"
         +:+ Datetime.zfill 2 p.2.2).
  assert (sorted_days daily
          ⊆+ text <$> cprod (seqZ 1 9999) (cprod (seqZ 1 12) (seqZ 1 31))) as H.
  { apply NoDup_submseteq; [apply NoDup_sorted_days|].
    intros day Hday. apply elem_of_sorted_days in Hday.
    apply (aggregate_keys _ _ _ Hagg) in Hday as (t & _ & Ht).
    apply parse_day_isoformat in Ht as [d ->].
    pose proof (DatetimeFacts.date_ranges d) as (Hy & Hm & Hd).
    apply list_elem_of_fmap.
    exists (Datetime.year d, (Datetime.month d, Datetime.day d)).
    split; [done|].
    rewrite !list_elem_of_cprod, !elem_of_seqZ. cbn. lia. }
  apply submseteq_length in H.
  rewrite length_fmap, !list_cprod_list_prod, !List.length_prod, !length_seqZ in H.
  lia.
Qed.

End SeriesLength.

Lemma win_rate_in_range (P : IsoParser) (trades : list (trade float))
    (m : metrics float) (series : list (daily_point float)) :
  compute_metrics trades = Ok (m, series) →
  (0 <=? win_rate m)%float = true
  ∧ (win_rate m <=? 100)%float = true
  ∧ (count_positive (map pnl series) = 0%nat → win_rate m = 0%float).
Proof.
  intros H. pose proof (daily_series_length _ _ _ H) as Hlen.
  apply compute_metrics_Ok in H as (daily & _ & _ & ->).
  unfold summary. cbn [win_rate].
  rewrite <- count_wins_positive.
  apply win_rate_range. rewrite List.length_map. lia.
Qed.

End Binary64OrderFacts.

(** Reads a field of [summary]. *)
Ltac metrics_field :=
  unfold summary;
  cbn [total_return win_rate volatility sharpe max_drawdown].

(** C6, as the code has it. The [volatility] returned is the square
    root of the sample variance (divisor [count - 1]) rounded to 4
    decimals. It is never negative: in exact arithmetic it is at least
    0, on binary64 it is not below 0. It is 0 whenever the series has 0
    or 1 points; it can be 0 for longer series as well. *)
Theorem volatility_is_sample_standard_deviation :
  (∀ (F : Type) (PF : PyFloat F) (P : IsoParser) (trades : list (trade F))
     (m : metrics F) (series : list (daily_point F)),
     compute_metrics trades = Ok (m, series) →
     volatility m = round_nd (fsqrt (sample_variance (map pnl series))) 4)
  ∧ (∀ (P : IsoParser) (trades : list (trade R))
       (m : metrics R) (series : list (daily_point R)),
       compute_metrics trades = Ok (m, series) →
       (0 <= volatility m)%R
       ∧ ((length series ≤ 1)%nat → volatility m = 0%R))
  ∧ (∀ (P : IsoParser) (trades : list (trade float))
       (m : metrics float) (series : list (daily_point float)),
       compute_metrics trades = Ok (m, series) →
       (volatility m <? 0)%float = false
       ∧ ((length series ≤ 1)%nat → volatility m = 0%float)).
Proof.
  split; [|split].
  - intros F PF P trades m series (daily & _ & _ & ->)%compute_metrics_Ok.
    done.
  - intros P trades m series (daily & _ & _ & ->)%compute_metrics_Ok.
    metrics_field. split.
    + apply ExactFacts.round_nonneg; [lia | apply sqrt_pos].
    + intros Hlen.
      rewrite (sqrt_sample_variance_short (map pnl series))
        by by rewrite List.length_map.
      apply (ExactFacts.round_IZR 0 4). lia.
  - intros P trades m series (daily & _ & _ & ->)%compute_metrics_Ok.
    metrics_field. split.
    + apply Binary64Sign.round_not_negative, Binary64Sign.sqrt_not_negative.
    + intros Hlen.
      rewrite sample_variance_short by by rewrite List.length_map.
      vm_compute. reflexivity.
Qed.

(** Against C6 as stated: two days with the same P&L give a series of
    two points whose standard deviation, and so the volatility, is 0. *)
Lemma volatility_zero_with_two_points :
  CPython.compute_metrics64 Scenarios.two_equal_days
  = Ok ({| total_return := 10%float; win_rate := 100%float;
           volatility := 0%float; sharpe := 0%float; max_drawdown := 0%float |},
        [ {| timestamp := "2024-03-04"; pnl := 5%float |};
          {| timestamp := "2024-03-05"; pnl := 5%float |} ])
  ∧ PrimFloat.sqrt (sample_variance [5%float; 5%float]) = 0%float.
Proof. split; vm_compute; reflexivity. Qed.

(** C7, as the code has it. The [win_rate] returned is the number of
    daily points above zero, divided by the number of daily points,
    times 100, rounded to 2 decimals. It lies in [0, 100], in exact
    arithmetic and on binary64. It is 0 for the empty series, and
    whenever no daily point is above zero. *)
Theorem win_rate_is_share_of_positive_days :
  (∀ (F : Type) (PF : PyFloat F) (P : IsoParser) (trades : list (trade F))
     (m : metrics F) (series : list (daily_point F)),
     compute_metrics trades = Ok (m, series) →
     win_rate m
     = round_nd
         (match series with
          | [] => fzero
          | _ => fmul (fdiv (float_of_nat (count_positive (map pnl series)))
                            (float_of_nat (length series)))
                      (of_int 100)
          end) 2)
  ∧ (∀ (P : IsoParser) (trades : list (trade R))
       (m : metrics R) (series : list (daily_point R)),
       compute_metrics trades = Ok (m, series) →
       (0 <= win_rate m <= 100)%R
       ∧ (series = [] → win_rate m = 0%R)
       ∧ (count_positive (map pnl series) = 0%nat →
          win_rate m = 0%R))
  ∧ (∀ (P : IsoParser) (trades : list (trade float))
       (m : metrics float) (series : list (daily_point float)),
       compute_metrics trades = Ok (m, series) →
       (0 <=? win_rate m)%float = true
       ∧ (win_rate m <=? 100)%float = true
       ∧ (series = [] → win_rate m = 0%float)
       ∧ (count_positive (map pnl series) = 0%nat →
          win_rate m = 0%float)).
Proof.
  split; [|split].
  - intros F PF P trades m series (daily & _ & _ & ->)%compute_metrics_Ok.
    metrics_field. f_equal. destruct series as [|p rest]; [done|].
    cbn [map win_rate_of]. rewrite count_wins_positive.
    cbn [length]. by rewrite List.length_map.
  - intros P trades m series (daily & _ & _ & ->)%compute_metrics_Ok.
    metrics_field.
    pose proof (win_rate_of_range (map pnl series)) as [H0 H100].
    split; [split|split].
    + by apply ExactFacts.round_nonneg; [lia|].
    + by apply (ExactFacts.round_le_IZR _ 100 2); [lia|].
    + intros ->. cbn. apply (ExactFacts.round_IZR 0 2). lia.
    + intros Hc. rewrite win_rate_of_no_positive by done.
      apply (ExactFacts.round_IZR 0 2). lia.
  - intros P trades m series H.
    destruct (Binary64OrderFacts.win_rate_in_range P trades m series H)
      as (H0 & H100 & Hnone).
    split; [done|]. split; [done|]. split; [|done].
    intros ->. by apply Hnone.
Qed.

(** Against C7 as stated: on scenario A the daily series has one point
    and the win rate is 0. *)
Lemma win_rate_zero_on_nonempty_series :
  ∃ m p, CPython.compute_metrics64 Scenarios.scenario_A = Ok (m, [p])
         ∧ win_rate m = 0%float.
Proof. do 2 eexists. split; vm_compute; reflexivity. Qed.

(** C4, as the code has it. The [sharpe] returned is the mean daily P&L
    divided by the standard deviation, rounded to 4 decimals, when the
    standard deviation is above [1e-9]; otherwise it is 0: also when
    the standard deviation equals [1e-9]. *)
Theorem sharpe_is_mean_over_deviation_above_epsilon :
  (∀ (F : Type) (PF : PyFloat F) (P : IsoParser) (trades : list (trade F))
     (m : metrics F) (series : list (daily_point F)),
     compute_metrics trades = Ok (m, series) →
     let mean := mean_of (map pnl series) in
     let std := fsqrt (sample_variance (map pnl series)) in
     sharpe m = round_nd (if fltb f1e_9 std then fdiv mean std else fzero) 4)
  ∧ (∀ (P : IsoParser) (trades : list (trade R))
       (m : metrics R) (series : list (daily_point R)),
       compute_metrics trades = Ok (m, series) →
       let mean := mean_of (map pnl series) in
       let std := R_sqrt.sqrt (sample_variance (map pnl series)) in
       ((/ 1000000000 < std)%R → sharpe m = Exact.round (mean / std) 4)
       ∧ ((std <= / 1000000000)%R → sharpe m = 0%R)).
Proof.
  split.
  - intros F PF P trades m series (daily & _ & _ & ->)%compute_metrics_Ok.
    done.
  - intros P trades m series (daily & _ & _ & ->)%compute_metrics_Ok.
    metrics_field. unfold sharpe_of.
    cbn [fltb fsqrt fdiv round_nd f1e_9 fzero of_int Exact.exact]. split.
    + intros Hlt. by rewrite bool_decide_eq_true_2.
    + intros Hle. rewrite bool_decide_eq_false_2 by lra.
      apply (ExactFacts.round_IZR 0 4). lia.
Qed.

(** Against C4 as stated: daily P&L of 0, 1e-9 and 2e-9 has mean 1e-9
    and standard deviation 1e-9, which is not below 1e-9; the mean over
    the deviation is 1, and the Sharpe ratio returned is 0. *)
Lemma sharpe_zero_at_epsilon :
  let series := [0%float; 0x1.12e0be826d695p-30%float; 0x1.12e0be826d695p-29%float] in
  (∃ m, CPython.compute_metrics64 Scenarios.nano_days
        = Ok (m, [ {| timestamp := "2024-03-04"; pnl := 0%float |};
                   {| timestamp := "2024-03-05"; pnl := 0x1.12e0be826d695p-30%float |};
                   {| timestamp := "2024-03-06"; pnl := 0x1.12e0be826d695p-29%float |} ])
          ∧ sharpe m = 0%float)
  ∧ PrimFloat.sqrt (sample_variance series) = 0x1.12e0be826d695p-30%float
  ∧ PrimFloat.ltb (PrimFloat.sqrt (sample_variance series))
                  0x1.12e0be826d695p-30 = false
  ∧ Binary64.round (PrimFloat.div (mean_of series)
                                  (PrimFloat.sqrt (sample_variance series))) 4
    = 1%float.
Proof.
  cbv zeta. split; [eexists; split|split; [|split]]; vm_compute; reflexivity.
Qed.

(* ===================================================================== *)
(** ** C9: the forecast *)
(* ===================================================================== *)

Section Forecast.
Context {F : Type} {PF : PyFloat F}.

Lemma forecast_of_spec (daily : list (daily_point F)) :
  forecast_of daily
  = match daily with
    | [] => None
    | _ => Some (round_nd (mean_of_last_three (map pnl daily)) 4)
    end.
Proof.
  destruct daily as [|p rest]; [done|].
  unfold forecast_of, mean_of_last_three, last_n.
  set (l := p :: rest). assert (0 < length l)%nat as Hpos by (cbn; lia).
  clearbody l. rewrite List.length_map.
  replace (length l - Nat.min 3 (length l))%nat with (length l - 3)%nat by lia.
  rewrite <- (fmap_drop pnl).
  change (pnl <$> drop (length l - 3) l) with (map pnl (drop (length l - 3) l)).
  assert (length (map pnl (drop (length l - 3) l)) = Nat.min 3 (length l)) as Hlen.
  { rewrite List.length_map, length_drop.
    destruct (Nat.min_spec 3 (length l)) as [[? ->]|[? ->]]; lia. }
  assert (0 < Nat.min 3 (length l))%nat as Hk
    by (destruct (Nat.min_spec 3 (length l)) as [[? ->]|[? ->]]; lia).
  destruct (map pnl (drop (length l - 3) l)) as [|x xs] eqn:E.
  - rewrite <- Hlen in Hk. cbn [length] in Hk. lia.
  - by rewrite Hlen.
Qed.

Lemma message_without_forecast (m : metrics F) :
  Text "Insufficient data for projection." ∈ message_of m None
  ∧ (Text "Model projects next-day PnL around " ∉ message_of m None)
  ∧ (∀ x, Num2f x ∉ message_of m None).
Proof.
  unfold message_of. split; [|split].
  - set_solver.
  - intros Hin. repeat (apply elem_of_cons in Hin as [Hin|Hin]; [done|]).
    by apply elem_of_nil in Hin.
  - intros x Hin. repeat (apply elem_of_cons in Hin as [Hin|Hin]; [done|]).
    by apply elem_of_nil in Hin.
Qed.

Lemma ai_insights_nonempty {P : IsoParser} (trades : list (trade F))
    (m : metrics F) (daily : list (daily_point F)) :
  trades ≠ [] → compute_metrics trades = Ok (m, daily) →
  ∃ ins, ai_insights trades = Ok [ins]
         ∧ forecast_pnl ins = forecast_of daily
         ∧ message ins = message_of m (forecast_of daily)
         ∧ snapshot ins = m.
Proof.
  intros Hne Hcm. unfold ai_insights. destruct trades as [|t rest]; [done|].
  rewrite Hcm. cbn. by eexists.
Qed.

End Forecast.

(** C9, as the code has it. For a non-empty daily series the forecast
    is the arithmetic mean of the P&L of the last [min 3 length] points
    rounded to 4 decimals ([101.0] for daily values 100, 105, 98); for
    the empty series it is [None], and the message then carries the
    insufficient-data phrase and no projection. [ai_insights] puts this
    forecast and this message in the insight it returns. *)
Theorem forecast_is_rounded_mean_of_last_three :
  (∀ (F : Type) (PF : PyFloat F) (daily : list (daily_point F)),
     forecast_of daily
     = match daily with
       | [] => None
       | _ => Some (round_nd (mean_of_last_three (map pnl daily)) 4)
       end)
  ∧ (∀ (F : Type) (m : metrics F),
       Text "Insufficient data for projection." ∈ message_of m None
       ∧ (Text "Model projects next-day PnL around " ∉ message_of m None)
       ∧ (∀ x, Num2f x ∉ message_of m None))
  ∧ (∀ (F : Type) (PF : PyFloat F) (P : IsoParser) (trades : list (trade F))
       (m : metrics F) (daily : list (daily_point F)),
       trades ≠ [] → compute_metrics trades = Ok (m, daily) →
       ∃ ins, ai_insights trades = Ok [ins]
              ∧ forecast_pnl ins = forecast_of daily
              ∧ message ins = message_of m (forecast_of daily))
  ∧ forecast_of 
      [ {| timestamp := "2024-03-04"; pnl := 100%float |};
        {| timestamp := "2024-03-05"; pnl := 105%float |};
        {| timestamp := "2024-03-06"; pnl := 98%float |} ]
    = Some 101%float.
Proof.
  split; [|split; [|split]].
  - intros F PF daily. apply forecast_of_spec.
  - intros F m. apply message_without_forecast.
  - intros F PF P trades m daily Hne Hcm.
    destruct (ai_insights_nonempty trades m daily Hne Hcm) as (ins & ? & ? & ? & _).
    by exists ins.
  - vm_compute. reflexivity.
Qed.

Lemma forecast_is_rounded_mean_of_last_three_witness :
  ∃ ins, CPython.ai_insights64 [Scenarios.bad_timestamp] = Ok [ins]
         ∧ forecast_pnl ins = None
         ∧ message ins
           = message_of (summary []) None.
Proof.
  destruct (proj1 (proj2 (proj2 forecast_is_rounded_mean_of_last_three))
              float Binary64.binary64 Datetime.fromisoformat_model
              [Scenarios.bad_timestamp]
              (summary []) [])
    as (ins & Hins & Hf & Hm).
  - done.
  - vm_compute. reflexivity.
  - exists ins. split; [exact Hins|]. split; [exact Hf | exact Hm].
Defined.

(** Against C9 as stated: for daily values 1, 1 and 2 the mean of the
    three is 4/3 as a double, and the forecast is 1.3333. *)
Lemma forecast_is_rounded :
  (∃ ins, CPython.ai_insights64 Scenarios.thirds = Ok [ins]
          ∧ forecast_pnl ins = Some 1.3333%float)
  ∧ mean_of_last_three [1%float; 1%float; 2%float]
    = 0x1.5555555555555p+0%float
  ∧ PrimFloat.eqb 1.3333 0x1.5555555555555p+0 = false.
Proof.
  split; [eexists; split|split]; vm_compute; reflexivity.
Qed.

(* ===================================================================== *)
(** ** The theorems at concrete inputs *)
(* ===================================================================== *)

Section OneTrade.
Context {F : Type} {PF : PyFloat F} {P : IsoParser}.

Lemma sorted_days_singleton (k : string) (v : F) :
  sorted_days ({[k := v]} : gmap string F) = [k].
Proof. unfold sorted_days. by rewrite map_to_list_singleton. Qed.

(** [compute_metrics] on a single trade that is read. *)
Lemma compute_metrics_one (t : trade F) (day : string) (n : F) :
  parse_day t = Some day → signed_notional t = Ok n →
  compute_metrics [t]
  = Ok (summary [fadd fzero n], [ {| timestamp := day; pnl := fadd fzero n |} ]).
Proof.
  intros Hday Hn. unfold compute_metrics.
  rewrite (aggregate_add t [] ∅ day n Hday Hn). cbn [aggregate].
  unfold add_to_bucket. rewrite lookup_empty, insert_empty. cbn.
  unfold pnl_series_of, daily_list_of. rewrite sorted_days_singleton. cbn.
  unfold bucket. by rewrite lookup_singleton_eq.
Qed.

End OneTrade.

Lemma scenario_B_result :
  compute_metrics (P := Datetime.fromisoformat_model) Scenarios.scenario_B
  = Ok (Scenarios.metrics_B, Scenarios.series_B).
Proof. vm_compute. reflexivity. Defined.

Lemma one_trade_result :
  compute_metrics (P := Datetime.fromisoformat_model) Scenarios.one_trade
  = Ok (summary [Scenarios.pnl_one],
        [ {| timestamp := "2024-03-04"; pnl := Scenarios.pnl_one |} ]).
Proof.
  apply (compute_metrics_one (PF := Exact.exact)); [vm_compute; reflexivity|].
  reflexivity.
Defined.

Lemma skips_bad_timestamps_and_reads_well_shaped_records_witness :
  CPython.compute_metrics64 (Scenarios.bad_timestamp :: Scenarios.scenario_A)
  = CPython.compute_metrics64 Scenarios.scenario_A
  ∧ is_Ok (CPython.aggregate64 (Scenarios.bad_timestamp :: Scenarios.scenario_A) ∅)
  ∧ get_float Scenarios.no_quantity "quantity" = Ok 0%float
  ∧ get_side Scenarios.no_quantity = Ok "buy".
Proof.
  destruct (proj1 skips_bad_timestamps_and_reads_well_shaped_records
              float Binary64.binary64 Datetime.fromisoformat_model
              (Scenarios.bad_timestamp :: Scenarios.scenario_A)) as [Hskip Hok].
  split; [|split; [|split]].
  - unfold CPython.compute_metrics64. rewrite Hskip. vm_compute. reflexivity.
  - apply Hok. repeat constructor; intros _; vm_compute; auto.
  - apply (proj1 (proj2 (proj2 skips_bad_timestamps_and_reads_well_shaped_records))
             float Binary64.binary64 Scenarios.no_quantity "quantity").
    by left.
  - by apply (proj1 (proj2 (proj2 (proj2
                skips_bad_timestamps_and_reads_well_shaped_records)))
                float Binary64.binary64 Scenarios.no_quantity).
Defined.

Lemma sharpe_is_mean_over_deviation_above_epsilon_witness :
  sharpe Scenarios.metrics_B
  = Binary64.round
      (PrimFloat.div (mean_of [100; 105; 98]%float)
         (PrimFloat.sqrt (sample_variance [100; 105; 98]%float))) 4
  ∧ sharpe (summary [Scenarios.pnl_one]) = 0%R.
Proof.
  split.
  - exact (proj1 sharpe_is_mean_over_deviation_above_epsilon
             float Binary64.binary64 Datetime.fromisoformat_model
             Scenarios.scenario_B Scenarios.metrics_B Scenarios.series_B
             scenario_B_result).
  - apply (proj2 sharpe_is_mean_over_deviation_above_epsilon
             Datetime.fromisoformat_model Scenarios.one_trade _ _
             one_trade_result).
    cbn. rewrite sqrt_0. lra.
Defined.

Lemma drawdown_days_result :
  compute_metrics (P := Datetime.fromisoformat_model) Scenarios.drawdown_days
  = Ok (Scenarios.metrics_D, Scenarios.series_D).
Proof. vm_compute. reflexivity. Defined.

Lemma max_drawdown_is_the_largest_drawdown_witness :
  max_drawdown Scenarios.metrics_D
  = Binary64.round (largest (drawdowns [100; -30; 20]%float)) 4
  ∧ largest (drawdowns [100; -30; 20]%float) = 30%float
  ∧ (0 <= max_drawdown (summary [Scenarios.pnl_one]))%R
  ∧ (0 <=? max_drawdown Scenarios.metrics_D)%float = true
  ∧ max_drawdown Scenarios.metrics_B = 0%float.
Proof.
  split; [|split; [|split; [|split]]].
  - exact (proj2 (proj1 max_drawdown_is_the_largest_drawdown
             float Binary64.binary64 Datetime.fromisoformat_model
             Scenarios.drawdown_days Scenarios.metrics_D Scenarios.series_D
             drawdown_days_result)).
  - vm_compute. reflexivity.
  - exact (proj1 (proj2 (proj1 (proj2 max_drawdown_is_the_largest_drawdown)
             Datetime.fromisoformat_model Scenarios.one_trade _ _
             one_trade_result))).
  - exact (proj1 (proj2 (proj2 (proj2 (proj2
             max_drawdown_is_the_largest_drawdown)
             Datetime.fromisoformat_model
             Scenarios.drawdown_days Scenarios.metrics_D Scenarios.series_D
             drawdown_days_result)))).
  - refine (proj2 (proj2 (proj2 (proj2 (proj2 (proj2
             max_drawdown_is_the_largest_drawdown)
             Datetime.fromisoformat_model
             Scenarios.scenario_B Scenarios.metrics_B Scenarios.series_B
             scenario_B_result))) _)).
    vm_compute. repeat constructor.
Defined.

Lemma volatility_is_sample_standard_deviation_witness :
  volatility Scenarios.metrics_B
  = Binary64.round (PrimFloat.sqrt (sample_variance [100; 105; 98]%float)) 4
  ∧ volatility (summary [Scenarios.pnl_one]) = 0%R.
Proof.
  split.
  - exact (proj1 volatility_is_sample_standard_deviation
             float Binary64.binary64 Datetime.fromisoformat_model
             Scenarios.scenario_B Scenarios.metrics_B Scenarios.series_B
             scenario_B_result).
  - apply (proj1 (proj2 volatility_is_sample_standard_deviation)
             Datetime.fromisoformat_model Scenarios.one_trade _ _
             one_trade_result).
    cbn. lia.
Defined.

Lemma win_rate_is_share_of_positive_days_witness :
  win_rate Scenarios.metrics_D
  = Binary64.round (PrimFloat.mul (PrimFloat.div 2 3) 100) 2
  ∧ (0 <= win_rate (summary [Scenarios.pnl_one]) <= 100)%R
  ∧ (0 <=? win_rate Scenarios.metrics_D)%float = true
  ∧ (win_rate Scenarios.metrics_D <=? 100)%float = true.
Proof.
  split; [|split; [|split]].
  - exact (proj1 win_rate_is_share_of_positive_days
             float Binary64.binary64 Datetime.fromisoformat_model
             Scenarios.drawdown_days Scenarios.metrics_D Scenarios.series_D
             drawdown_days_result).
  - exact (proj1 (proj1 (proj2 win_rate_is_share_of_positive_days)
             Datetime.fromisoformat_model Scenarios.one_trade _ _
             one_trade_result)).
  - exact (proj1 (proj2 (proj2 win_rate_is_share_of_positive_days)
             Datetime.fromisoformat_model
             Scenarios.drawdown_days Scenarios.metrics_D Scenarios.series_D
             drawdown_days_result)).
  - exact (proj1 (proj2 (proj2 (proj2 win_rate_is_share_of_positive_days)
             Datetime.fromisoformat_model
             Scenarios.drawdown_days Scenarios.metrics_D Scenarios.series_D
             drawdown_days_result))).
Defined.

(* ===================================================================== *)
(** ** Beyond the specification: the engine at its edges *)
(* ===================================================================== *)

Section Undated.
Context {F : Type} {PF : PyFloat F} {P : IsoParser}.
Implicit Types (t : trade F) (trades : list (trade F)).

Lemma filter_has_day_undated trades :
  Forall (λ t, parse_day t = None) trades ↔ List.filter has_day trades = [].
Proof.
  induction trades as [|t rest IH]; [done|]. cbn [List.filter].
  rewrite Forall_cons, IH. destruct (has_day t) eqn:E.
  - apply has_day_true in E as [day E]. split; [intros [? _]; congruence | done].
  - apply has_day_false in E. split; [by intros [_ ?] | done].
Qed.

Lemma compute_metrics_undated trades :
  Forall (λ t, parse_day t = None) trades →
  compute_metrics trades = compute_metrics [].
Proof.
  intros Hall. unfold compute_metrics.
  by rewrite aggregate_filter_has_day, (proj1 (filter_has_day_undated _) Hall).
Qed.

Lemma length_filter_has_day trades :
  length (List.filter has_day trades) = length (omap parse_day trades).
Proof.
  induction trades as [|t rest IH]; [done|]. cbn [List.filter omap list_omap].
  destruct (has_day t) eqn:E.
  - apply has_day_true in E as [day E]. rewrite E. cbn. by rewrite IH.
  - apply has_day_false in E. by rewrite E.
Qed.

Lemma elem_of_omap_parse_day trades (k : string) :
  k ∈ omap parse_day trades ↔ ∃ t, t ∈ trades ∧ parse_day t = Some k.
Proof. apply list_elem_of_omap. Qed.

End Undated.

Lemma compute_metrics_nil64 (P : IsoParser) :
  compute_metrics (PF := Binary64.binary64) []
  = Ok ({| total_return := 0%float; win_rate := 0%float;
           volatility := 0%float; sharpe := 0%float;
           max_drawdown := 0%float |}, []).
Proof. vm_compute. reflexivity. Qed.

Lemma compute_metrics_nil_exact (P : IsoParser) :
  compute_metrics (PF := Exact.exact) []
  = Ok ({| total_return := 0%R; win_rate := 0%R; volatility := 0%R;
           sharpe := 0%R; max_drawdown := 0%R |}, []).
Proof.
  unfold compute_metrics. cbn [aggregate]. cbn [mbind result_bind].
  change (pnl_series_of (∅ : gmap string R)) with (@nil R).
  change (daily_list_of (∅ : gmap string R)) with (@nil (daily_point R)).
  unfold metrics_of, variance_of. cbn [length Nat.ltb Nat.leb mbind result_bind].
  unfold std_of, sharpe_of, mean_of, win_rate_of, max_drawdown_of, py_sum.
  cbn [fold_left max_dd fltb fsqrt round_nd fzero of_int f1e_9 Exact.exact].
  rewrite sqrt_0, (ExactFacts.round_IZR 0 4), (ExactFacts.round_IZR 0 2) by lia.
  rewrite bool_decide_eq_false_2 by lra.
  by rewrite (ExactFacts.round_IZR 0 4) by lia.
Qed.

(** X1. When no trade has a timestamp that parses (the empty list
    included), [compute_metrics] returns five zeros and an empty daily
    series: on binary64 and in exact arithmetic. *)
Theorem no_dated_trade_gives_zero_metrics :
  (∀ (P : IsoParser) (trades : list (trade float)),
     Forall (λ t, parse_day t = None) trades →
     compute_metrics trades
     = Ok ({| total_return := 0%float; win_rate := 0%float;
              volatility := 0%float; sharpe := 0%float;
              max_drawdown := 0%float |}, []))
  ∧ (∀ (P : IsoParser) (trades : list (trade R)),
       Forall (λ t, parse_day t = None) trades →
       compute_metrics trades
       = Ok ({| total_return := 0%R; win_rate := 0%R; volatility := 0%R;
                sharpe := 0%R; max_drawdown := 0%R |}, [])).
Proof.
  split; intros P trades Hall; rewrite (compute_metrics_undated trades Hall).
  - apply compute_metrics_nil64.
  - apply compute_metrics_nil_exact.
Qed.

(** X2. The daily series never has more points than there are trades
    with a timestamp that parses, and it is empty exactly when there is
    no such trade. *)
Theorem daily_points_bounded_by_dated_trades :
  ∀ (F : Type) (PF : PyFloat F) (P : IsoParser) (trades : list (trade F))
    (m : metrics F) (series : list (daily_point F)),
    compute_metrics trades = Ok (m, series) →
    (length series ≤ length (List.filter has_day trades))%nat
    ∧ (length (List.filter has_day trades) ≤ length trades)%nat
    ∧ (series = [] ↔ Forall (λ t, parse_day t = None) trades).
Proof.
  intros F PF P trades m series (daily & Hagg & -> & _)%compute_metrics_Ok.
  assert (∀ k, k ∈ sorted_days daily ↔ k ∈ omap parse_day trades) as Hkeys.
  { intros k. by rewrite elem_of_sorted_days, (aggregate_keys _ _ k Hagg),
      elem_of_omap_parse_day. }
  split; [|split].
  - unfold daily_list_of. rewrite List.length_map, length_filter_has_day.
    apply submseteq_length, NoDup_submseteq; [apply NoDup_sorted_days|].
    intros k. apply (proj1 (Hkeys k)).
  - apply List.filter_length_le.
  - unfold daily_list_of. split.
    + intros Hnil. apply Forall_forall. intros t Ht.
      destruct (parse_day t) as [k|] eqn:E; [|done].
      assert (k ∈ sorted_days daily) as Hin
        by (apply (proj2 (Hkeys k)), elem_of_omap_parse_day; eauto).
      apply map_eq_nil in Hnil. rewrite Hnil in Hin. by apply elem_of_nil in Hin.
    + intros Hall. destruct (sorted_days daily) as [|k ks] eqn:E; [done|].
      assert (k ∈ omap parse_day trades) as Hin
        by (apply (proj1 (Hkeys k)); left).
      apply elem_of_omap_parse_day in Hin as (t & Ht & Hk).
      rewrite Forall_forall in Hall. specialize (Hall t Ht). congruence.
Qed.

(* ===================================================================== *)
(** ** Beyond the specification: gains and the side of zero on binary64 *)
(* ===================================================================== *)

Module Binary64GainFacts.
Import Binary64Order Binary64OrderFacts Binary64Gain Binary64Loop.

Lemma at_least_step (b : Z) (r : shr_record) :
  at_least (2 * b) r → at_least b (shr_1 r).
Proof.
  destruct r as [[|[p|p|]|[p|p|]] [] []]; unfold at_least; cbn; lia.
Qed.

Lemma reaches_positive (c t m e : Z) : 0 < c → -1074 ≤ t → reaches c t m e → 0 < m.
Proof.
  intros Hc Ht [[He Hm]|[He Hm]]; [|lia].
  pose proof (pow2_pos (t - e) ltac:(lia)). nia.
Qed.

Lemma reaches_mono (c t m m' e : Z) : m ≤ m' → reaches c t m e → reaches c t m' e.
Proof. intros Hm [[He H]|[He H]]; [left | right]; lia. Qed.

(** The shift to the working exponent keeps the mantissa at or above a
    binary64 number. *)
Lemma shr_fexp_reaches (c t m e : Z) (l : location) :
  0 < c < 2 ^ 53 → -1074 ≤ t → reaches c t m e →
  ∃ r e', shr_fexp prec emax m e l = (r, e') ∧ reaches c t (shr_m r) e'.
Proof.
  intros Hc Ht Hr. pose proof (reaches_positive c t m e (proj1 Hc) Ht Hr) as Hm.
  unfold shr_fexp, shr.
  destruct (record_inexact_of_loc m l) as [_ Hm0].
  destruct (fexp prec emax (Zdigits2 m + e) - e) as [|n|n] eqn:En.
  - eexists _, _. split; [done|]. by rewrite Hm0.
  - eexists _, _. split; [done|].
    rewrite fexp_eq in En.
    destruct m as [|p|p]; [lia| |lia]. cbn [Zdigits2] in En.
    pose proof (digits2_pos_bounds p) as [Hlo _].
    set (d := Z.pos (digits2_pos p)) in *.
    assert (e + Z.pos n ≤ t ∨ (t < e + Z.pos n ∧ Z.pos n = d - 53)) as [Hle|[Hgt Hn]].
    { destruct Hr as [[He _]|[He _]]; lia. }
    + left. split; [done|].
      destruct Hr as [[He Hv]|[He _]]; [|lia].
      apply (iter_pos_halving at_least at_least_step).
      unfold at_least. rewrite Hm0.
      replace (t - e) with (Z.pos n + (t - (e + Z.pos n))) in Hv by lia.
      rewrite pow2_split in Hv by lia. lia.
    + right. split; [done|].
      apply (iter_pos_halving at_least at_least_step).
      unfold at_least. rewrite Hm0.
      replace (d - 1) with (Z.pos n + 52) in Hlo by lia.
      rewrite pow2_split in Hlo by lia. lia.
  - eexists _, _. split; [done|]. by rewrite Hm0.
Qed.

Lemma binary_round_aux_above (c t m e : Z) (l : location) :
  0 < c < 2 ^ 53 → -1074 ≤ t → reaches c t m e →
  above c t (binary_round_aux prec emax false m e l).
Proof.
  intros Hc Ht Hr. unfold binary_round_aux.
  destruct (shr_fexp_reaches c t m e l Hc Ht Hr) as (r1 & e1 & -> & H1).
  pose proof (reaches_positive c t _ _ (proj1 Hc) Ht H1) as Hp1.
  pose proof (round_nearest_even_bounds r1 ltac:(lia)) as [Hlo _].
  set (m2 := round_nearest_even (shr_m r1) (loc_of_shr_record r1)) in *.
  destruct (shr_fexp_reaches c t m2 e1 loc_Exact Hc Ht
              (reaches_mono _ _ _ _ _ Hlo H1)) as (r2 & e2 & -> & H2).
  pose proof (reaches_positive c t _ _ (proj1 Hc) Ht H2) as Hp2.
  destruct (shr_m r2) as [|p|p] eqn:E; [lia| |lia].
  destruct (e2 <=? emax - prec); [right | by left].
  by exists p, e2.
Qed.

Lemma binary_round_above (c t : Z) (mx : positive) (ex : Z) :
  0 < c < 2 ^ 53 → -1074 ≤ t → ex ≤ t → c * 2 ^ (t - ex) ≤ Z.pos mx →
  above c t (binary_round prec emax false mx ex).
Proof.
  intros Hc Ht He Hle. unfold binary_round.
  destruct (shl_align_spec mx ex (fexp prec emax (Z.pos (digits2_pos mx) + ex)))
    as (mz & ez & -> & Hez & Hmz).
  apply binary_round_aux_above; [done | done |].
  left. split; [lia|]. rewrite Hmz.
  replace (t - ez) with (t - ex + (ex - ez)) by lia.
  rewrite pow2_split by lia.
  pose proof (pow2_pos (ex - ez) ltac:(lia)). nia.
Qed.

Lemma shl_align_le (mx : positive) (ex ez : Z) :
  ez ≤ ex → Z.pos (fst (shl_align mx ex ez)) = Z.pos mx * 2 ^ (ex - ez).
Proof.
  intros Hle. unfold shl_align. destruct (ez - ex) as [|d|d] eqn:E.
  - replace (ex - ez) with 0 by lia. cbn. lia.
  - lia.
  - cbn [fst]. rewrite iter_xO. f_equal. f_equal. lia.
Qed.

(** The sum of two positive doubles is not under the first. *)
Lemma SFadd_above (mx my : positive) (ex ey : Z) :
  Z.pos mx < 2 ^ 53 → -1074 ≤ ex →
  above (Z.pos mx) ex
    (SFadd prec emax (S754_finite false mx ex) (S754_finite false my ey)).
Proof.
  intros Hmx Hex. cbn [SFadd cond_Zopp].
  set (ez := Z.min ex ey).
  rewrite (shl_align_le mx ex ez), (shl_align_le my ey ez) by (unfold ez; lia).
  pose proof (pow2_pos (ex - ez) ltac:(unfold ez; lia)).
  pose proof (pow2_pos (ey - ez) ltac:(unfold ez; lia)).
  destruct (Z.pos mx * 2 ^ (ex - ez) + Z.pos my * 2 ^ (ey - ez)) as [|p|p] eqn:E;
    [nia| |nia].
  cbn [binary_normalize].
  apply binary_round_above; [lia | done | unfold ez; lia | nia].
Qed.

(** A valid double is not larger than a valid double above it. *)
Lemma above_leb (mx : positive) (ex : Z) (y : spec_float) :
  valid_binary (S754_finite false mx ex) = true →
  above (Z.pos mx) ex y → valid_binary y = true →
  SFleb (S754_finite false mx ex) y = true.
Proof.
  intros Hvx Hy Hvy.
  destruct Hy as [->|(m & e & -> & Hr)]; [done|].
  apply valid_canonical, canonical_digits in Hvx as (Hx0 & Hx1 & Hx2).
  apply valid_canonical, canonical_digits in Hvy as (Hy0 & Hy1 & Hy2).
  unfold SFleb, SFcompare.
  destruct (Z.compare_spec ex e) as [->|Hlt|Hgt]; [|done|].
  - change (Pos.compare_cont Eq mx m) with (Pos.compare mx m).
    destruct (Pos.compare_spec mx m) as [?|?|Hgt]; [done|done|].
    destruct Hr as [[_ Hv]|[? _]]; [|lia].
    rewrite Z.sub_diag in Hv. lia.
  - exfalso. specialize (Hx2 ltac:(lia)).
    destruct Hr as [[_ Hv]|[? _]]; [|lia].
    pose proof (pow2_le_mono 1 (ex - e) ltac:(lia)) as H1.
    change (2 ^ 1) with 2 in H1. nia.
Qed.

(** *** Floats above zero *)

Lemma positive64_ltb (x : float) : positive64 x ↔ (0 <? x)%float = true.
Proof.
  unfold positive64. rewrite FloatAxioms.ltb_spec.
  change (Prim2SF 0) with (S754_zero false).
  unfold SFltb, SFcompare. by destruct (Prim2SF x) as [[]|[]| |[] m e].
Qed.

Lemma positive64_nonneg (x : float) : positive64 x → (0 <=? x)%float = true.
Proof.
  unfold positive64. intros H. apply Binary64Sign.leb_zero.
  by destruct (Prim2SF x) as [[]|[]| |[] m e].
Qed.

(** Adding a float above zero to a float above zero does not make it
    smaller. *)
Lemma add_positive (x v : float) :
  positive64 x → positive64 v →
  positive64 (x + v) ∧ (x <=? x + v)%float = true.
Proof.
  unfold positive64. intros Hx Hv.
  rewrite FloatAxioms.leb_spec.
  pose proof (FloatAxioms.Prim2SF_valid x) as Hvx.
  pose proof (FloatAxioms.Prim2SF_valid (x + v)) as Hvs.
  rewrite FloatAxioms.add_spec in *. unfold SF64add in *.
  destruct (Prim2SF x) as [[]|[]| |[] mx ex]; try done;
    destruct (Prim2SF v) as [[]|[]| |[] mv ev]; try done.
  pose proof (valid_canonical _ _ _ Hvx) as Hc.
  apply canonical_digits in Hc as (Hx0 & Hx1 & _).
  pose proof (SFadd_above mx mv ex ev Hx1 Hx0) as Ha.
  split.
  - by destruct Ha as [->|(m & e & -> & _)].
  - by apply above_leb.
Qed.

Lemma add_zero_positive (v : float) : positive64 v → positive64 (0 + v).
Proof.
  unfold positive64. rewrite FloatAxioms.add_spec.
  change (Prim2SF 0) with (S754_zero false).
  by destruct (Prim2SF v) as [[]|[]| |[] mv ev].
Qed.

Lemma fold_add_positive (series : list float) (c : float) :
  positive64 c → Forall positive64 series →
  positive64 (fold_left PrimFloat.add series c).
Proof.
  intros Hc Hall. revert c Hc.
  induction Hall as [|v rest Hv _ IH]; intros c Hc; [done|].
  cbn [fold_left]. apply IH. by apply add_positive.
Qed.

(** The sum of floats above zero is not below zero. *)
Lemma py_sum_positive64 (series : list float) :
  Forall positive64 series → (0 <=? py_sum series)%float = true.
Proof.
  intros Hall. destruct Hall as [|v rest Hv Hrest]; [done|].
  apply positive64_nonneg. unfold py_sum. cbn [fold_left].
  apply fold_add_positive; [|done]. by apply add_zero_positive.
Qed.

(** The cumulative P&L of gains never falls. *)
Lemma cumulative_from_positive (series : list float) (c : float) :
  positive64 c → Forall positive64 series →
  Sorted float_le (cumulative_from c series)
  ∧ HdRel float_le c (cumulative_from c series).
Proof.
  intros Hc Hall. revert c Hc.
  induction Hall as [|v rest Hv _ IH]; intros c Hc; cbn [cumulative_from].
  { split; constructor. }
  destruct (add_positive c v Hc Hv) as [Hp Hle].
  destruct (IH _ Hp) as [Hs Hh].
  split; constructor; done.
Qed.

Lemma cumulative_positive (series : list float) :
  Forall positive64 series → Sorted float_le (cumulative series).
Proof.
  intros Hall. unfold cumulative.
  destruct Hall as [|v rest Hv Hrest]; cbn [cumulative_from]; [constructor|].
  destruct (cumulative_from_positive rest (fadd fzero v)) as [Hs Hh];
    [by apply add_zero_positive | done |].
  by constructor.
Qed.

(** *** A double divided by itself *)

Lemma div_eucl_multiple (a b : Z) : 0 < b → Z.div_eucl (b * a) b = (a, 0).
Proof.
  intros Hb.
  pose proof (Z.div_mul a b ltac:(lia)) as Hq.
  pose proof (Z.mod_mul a b ltac:(lia)) as Hr.
  rewrite (Z.mul_comm a b) in Hq, Hr. unfold Z.div, Z.modulo in Hq, Hr.
  destruct (Z.div_eucl (b * a) b) as [q r]. by subst.
Qed.

Lemma SFdiv_self (m : positive) (e : Z) :
  SFdiv prec emax (S754_finite false m e) (S754_finite false m e)
  = Prim2SF 1.
Proof.
  cbn [SFdiv xorb]. unfold SFdiv_core_binary.
  rewrite !Z.sub_diag.
  change (Z.min (fexp prec emax 0) 0) with (-53).
  change (0 - -53) with 53.
  rewrite Z.shiftl_mul_pow2 by lia.
  rewrite div_eucl_multiple by lia.
  unfold new_location, new_location_even, new_location_odd.
  change (0 =? 0) with true. destruct (Z.even (Z.pos m)); vm_compute; reflexivity.
Qed.

Lemma div_self (n : Z) :
  0 < n < 2 ^ 53 → (Binary64.of_Z n / Binary64.of_Z n)%float = 1%float.
Proof.
  intros Hn. apply FloatAxioms.Prim2SF_inj. rewrite FloatAxioms.div_spec.
  destruct (of_Z_exactly n Hn) as (m & e & -> & _). apply SFdiv_self.
Qed.

(** When every value is above zero, the win rate is 100. *)
Lemma win_rate_of_gains (series : list float) :
  series ≠ [] → Z.of_nat (length series) < 2 ^ 53 →
  Forall positive64 series →
  Binary64.round (win_rate_of series) 2 = 100%float.
Proof.
  intros Hne Hlen Hall.
  assert (count_wins series = length series) as Hc.
  { unfold count_wins. clear Hne Hlen.
    induction Hall as [|v rest Hv _ IH]; [done|]. cbn [List.filter].
    apply positive64_ltb in Hv.
    destruct (fltb fzero v) eqn:E; [cbn [length]; by rewrite IH|].
    change (fltb fzero v) with (0 <? v)%float in E. congruence. }
  unfold win_rate_of. destruct series as [|v rest]; [done|].
  rewrite Hc. unfold float_of_nat. cbn [fmul fdiv of_int Binary64.binary64].
  rewrite div_self by (cbn [length] in *; lia).
  vm_compute. reflexivity.
Qed.

(** *** Buckets of gains *)

Section Gains.
Context {P : IsoParser}.

Lemma fold_bucket_add_positive (ns : list float) (b : option float) :
  Forall positive64 ns →
  (∀ x, b = Some x → positive64 x) →
  ∀ y, fold_left bucket_add ns b = Some y → is_Some b ∨ ns ≠ [] → positive64 y.
Proof.
  intros Hall. revert b. induction Hall as [|n rest Hn _ IH]; intros b Hb y.
  - cbn. intros -> [[x [= ->]]|?]; [by apply Hb | done].
  - cbn [fold_left]. intros Hy _. apply (IH (bucket_add b n)); [|done|left; by eexists].
    intros x [= <-]. destruct b as [x0|]; cbn [default from_option Datatypes.id].
    + by apply add_positive; [apply Hb|].
    + by apply add_zero_positive.
Qed.

Lemma day_notionals_positive64 (trades : list (trade float)) (k : string) :
  Forall (λ t, ∀ n, signed_notional t = Ok n → (0 <? n)%float = true)
         (List.filter has_day trades) →
  Forall positive64 (day_notionals k trades).
Proof.
  intros Hall. apply Forall_forall. intros n (t & Hin & Hn)%list_elem_of_omap.
  destruct (decide (parse_day t = Some k)) as [E|]; [|done].
  destruct (signed_notional t) as [n'|] eqn:En; [|done]. injection Hn as ->.
  rewrite Forall_forall in Hall. apply positive64_ltb, (Hall t); [|done].
  apply list_elem_of_In, filter_In. split; [by apply list_elem_of_In|].
  apply has_day_true. rewrite E. by eexists.
Qed.

(** When every dated trade has a notional above zero, so has every
    date. *)
Lemma buckets_positive64 (trades : list (trade float)) (daily : gmap string float) :
  aggregate trades ∅ = Ok daily →
  Forall (λ t, ∀ n, signed_notional t = Ok n → (0 <? n)%float = true)
         (List.filter has_day trades) →
  Forall positive64 (pnl_series_of daily).
Proof.
  intros Hagg Hall. apply Forall_forall.
  intros x (k & -> & Hk)%list_elem_of_fmap.
  apply elem_of_sorted_days in Hk.
  pose proof (aggregate_lookup _ _ _ k Hagg) as Hlook.
  rewrite lookup_empty in Hlook.
  destruct Hk as [y Hy]. unfold bucket. rewrite Hy.
  cbn [default from_option Datatypes.id].
  rewrite Hlook in Hy.
  apply (fold_bucket_add_positive (day_notionals k trades) None); [|done|done|].
  - by apply day_notionals_positive64.
  - right. intros Hnil. by rewrite Hnil in Hy.
Qed.

End Gains.

(** *** The side of zero a float is on *)

Lemma sided_not_negative (x : float) :
  sided false (Prim2SF x) ↔ (x <? 0)%float = false.
Proof.
  rewrite FloatAxioms.ltb_spec. change (Prim2SF 0) with (S754_zero false).
  unfold SFltb, SFcompare, sided. by destruct (Prim2SF x) as [[]|[]| |[] m e].
Qed.

Lemma sided_not_positive (x : float) :
  sided true (Prim2SF x) ↔ (0 <? x)%float = false.
Proof.
  rewrite FloatAxioms.ltb_spec. change (Prim2SF 0) with (S754_zero false).
  unfold SFltb, SFcompare, sided. by destruct (Prim2SF x) as [[]|[]| |[] m e].
Qed.

Lemma leb_zero_r (x : float) :
  (x <=? 0)%float = true ↔
  match Prim2SF x with
  | S754_zero _ => True
  | S754_nan => False
  | y => has_sign true y
  end.
Proof.
  rewrite FloatAxioms.leb_spec. change (Prim2SF 0) with (S754_zero false).
  unfold SFleb, SFcompare. destruct (Prim2SF x) as [s|[]| |[] m e]; by cbn.
Qed.

Lemma has_sign_sided (s : bool) (y : spec_float) : has_sign s y → sided s y.
Proof. by destruct y. Qed.

Lemma SFdiv_has_sign (s : bool) (p q : positive) (e1 e2 : Z) :
  has_sign s (SFdiv prec emax (S754_finite s p e1) (S754_finite false q e2)).
Proof.
  cbn [SFdiv]. rewrite xorb_false_r. unfold SFdiv_core_binary.
  set (m' := match _ with Z.pos _ => _ | Z0 => _ | Z.neg _ => 0 end).
  assert (Hm : 0 ≤ m').
  { subst m'. destruct (_ - _); [lia| |lia]. by apply Z.shiftl_nonneg. }
  pose proof (Z.div_pos m' (Z.pos q) Hm ltac:(lia)) as Hq.
  unfold Z.div in Hq. clearbody m'.
  destruct (Z.div_eucl m' (Z.pos q)) as [d r]. cbn [fst] in Hq.
  by apply Binary64Sign.binary_round_aux_sign.
Qed.

(** Dividing by a float above zero keeps the side. *)
Lemma div_sided (s : bool) (a b : float) :
  sided s (Prim2SF a) → positive64 b → sided s (Prim2SF (a / b)).
Proof.
  unfold positive64. rewrite FloatAxioms.div_spec. unfold SF64div.
  intros Ha Hb.
  destruct (Prim2SF b) as [[]|[]| |[] q e2]; try done;
    destruct (Prim2SF a) as [s'|s'| |s' p e1]; try done;
    cbn [sided] in Ha; subst; cbn [SFdiv sided]; try by rewrite xorb_false_r.
  apply has_sign_sided, SFdiv_has_sign.
Qed.

Lemma SF2Prim_finite_sign (s : bool) (m : positive) (e : Z) :
  match Prim2SF (SF2Prim (S754_finite s m e)) with
  | S754_zero s' | S754_infinity s' | S754_finite s' _ _ => s' = s
  | S754_nan => False
  end.
Proof.
  assert (has_sign false (Prim2SF (SF2Prim (S754_finite false m e)))) as Hf.
  { cbn [SF2Prim].
    rewrite FloatLemmas.Z_ldexp_spec, FloatAxioms.of_uint63_spec.
    pose proof (Uint63.to_Z_bounded (Uint63.of_Z (Z.pos m))) as [Hn _].
    destruct (Uint63.to_Z _) as [|n|n]; [done| |lia].
    cbn [binary_normalize].
    pose proof (Binary64Sign.binary_round_sign false n 0) as Hs.
    destruct (binary_round prec emax false n 0) as [?|?| |sx mx ex];
      cbn [SFldexp]; try done.
    cbn in Hs. subst sx. apply Binary64Sign.binary_round_sign. }
  destruct s.
  - change (SF2Prim (S754_finite true m e))
      with (- SF2Prim (S754_finite false m e))%float.
    rewrite FloatAxioms.opp_spec.
    destruct (Prim2SF (SF2Prim (S754_finite false m e))) as [?|?| |? ? ?];
      cbn in *; by subst.
  - by destruct (Prim2SF (SF2Prim (S754_finite false m e))).
Qed.

Lemma SF2Prim_has_sign (s : bool) (y : spec_float) :
  has_sign s y → has_sign s (Prim2SF (SF2Prim y)).
Proof.
  destruct y as [s'|s'| |s' m e]; cbn [has_sign]; try done; intros ->.
  - by destruct s.
  - by destruct s.
  - pose proof (SF2Prim_finite_sign s m e) as H.
    by destruct (Prim2SF (SF2Prim (S754_finite s m e))).
Qed.

Lemma of_decimal_has_sign (s : bool) (n e : Z) :
  has_sign s (Prim2SF (Binary64.of_decimal s n e)).
Proof.
  unfold Binary64.of_decimal. destruct n as [|p|p]; try by destruct s.
  destruct (0 <=? e).
  - apply SF2Prim_has_sign, Binary64Sign.binary_round_sign.
  - apply SF2Prim_has_sign, SFdiv_has_sign.
Qed.

(** [round] keeps the side of zero, and a number a number. *)
Lemma round_sided (s : bool) (x : float) (nd : Z) :
  sided s (Prim2SF x) → sided s (Prim2SF (Binary64.round x nd)).
Proof.
  intros Hx. unfold Binary64.round.
  destruct (Prim2SF x) as [s'|s'| |s' m e] eqn:E; try by rewrite E.
  cbn [sided] in Hx. subst s'. apply has_sign_sided, of_decimal_has_sign.
Qed.

Lemma round_nonpos (x : float) (nd : Z) :
  (x <=? 0)%float = true → (Binary64.round x nd <=? 0)%float = true.
Proof.
  intros Hx. apply leb_zero_r in Hx. apply leb_zero_r. unfold Binary64.round.
  destruct (Prim2SF x) as [s'|s'| |s' m e] eqn:E; try by rewrite E.
  cbn [has_sign] in Hx. subst s'.
  pose proof (of_decimal_has_sign true
                (if 0 <=? e then Z.pos m * 2 ^ e * 10 ^ nd
                 else Binary64.div_half_even (Z.pos m * 10 ^ nd) (2 ^ (- e)))
                (- nd)) as H.
  cbv zeta.
  by destruct (Prim2SF (Binary64.of_decimal true _ _)).
Qed.

Lemma above_epsilon_positive (std : float) :
  fltb f1e_9 std = true → positive64 std.
Proof.
  cbn [fltb f1e_9 Binary64.binary64]. rewrite FloatAxioms.ltb_spec.
  unfold positive64.
  destruct (Prim2SF std) as [[]|[]| |[] m e]; try done; vm_compute; done.
Qed.

Lemma of_Z_positive (n : Z) : 0 < n < 2 ^ 53 → positive64 (Binary64.of_Z n).
Proof.
  intros Hn. unfold positive64.
  by destruct (of_Z_exactly n Hn) as (m & e & -> & _).
Qed.

(** The Sharpe value before rounding is on the side of the total. *)
Lemma sharpe_sided (s : bool) (series : list float) :
  Z.of_nat (length series) < 2 ^ 53 →
  sided s (Prim2SF (py_sum series)) →
  sided s (Prim2SF (sharpe_of (mean_of series)
                      (fsqrt (sample_variance series)))).
Proof.
  intros Hlen Hs. unfold sharpe_of.
  destruct (fltb f1e_9 _) eqn:E; [|done].
  apply div_sided; [|by apply above_epsilon_positive].
  unfold mean_of. destruct series as [|v rest]; [done|].
  apply div_sided; [done|].
  apply of_Z_positive. cbn [length] in *. lia.
Qed.

End Binary64GainFacts.

(** X4. On binary64 the Sharpe value is never on the other side of
    zero than the total P&L: when the daily values add up to 0 or more,
    [total_return] is 0 or more and [sharpe] is not below 0; when they
    add up to 0 or less, [total_return] is 0 or less and [sharpe] is
    not above 0. *)
Theorem sharpe_has_the_sign_of_the_total :
  ∀ (P : IsoParser) (trades : list (trade float))
    (m : metrics float) (series : list (daily_point float)),
    compute_metrics trades = Ok (m, series) →
    ((0 <=? py_sum (map pnl series))%float = true →
     (0 <=? total_return m)%float = true ∧ (sharpe m <? 0)%float = false)
    ∧ ((py_sum (map pnl series) <=? 0)%float = true →
       (total_return m <=? 0)%float = true ∧ (0 <? sharpe m)%float = false).
Proof.
  intros P trades m series H.
  pose proof (Binary64OrderFacts.daily_series_length _ _ _ H) as Hlen.
  apply compute_metrics_Ok in H as (daily & _ & _ & ->).
  unfold summary. cbn [total_return sharpe].
  assert (Z.of_nat (length (map pnl series)) < 2 ^ 53) as Hl
    by (rewrite List.length_map; lia).
  split; intros Ht.
  - split; [by apply Binary64Sign.round64_nonneg|].
    apply Binary64GainFacts.sided_not_negative, Binary64GainFacts.round_sided,
      Binary64GainFacts.sharpe_sided; [done|].
    by apply Binary64GainFacts.sided_not_negative,
      Binary64Sign.leb_zero_not_ltb.
  - split; [by apply Binary64GainFacts.round_nonpos|].
    apply Binary64GainFacts.sided_not_positive, Binary64GainFacts.round_sided,
      Binary64GainFacts.sharpe_sided; [done|].
    apply Binary64GainFacts.leb_zero_r in Ht.
    by destruct (Prim2SF (py_sum (map pnl series))) as [?|?| |? ? ?].
Qed.

(** X6. On binary64, when every trade whose timestamp parses has a
    notional above zero (buys at positive prices and quantities), every
    daily point is above zero, the cumulative P&L never falls, the
    [max_drawdown] returned is 0, [total_return] is not below 0, and
    [win_rate] is 100 as soon as there is a daily point. *)
Theorem gains_only_means_no_drawdown :
  ∀ (P : IsoParser) (trades : list (trade float))
    (m : metrics float) (series : list (daily_point float)),
    compute_metrics trades = Ok (m, series) →
    Forall (λ t, ∀ n, signed_notional t = Ok n → (0 <? n)%float = true)
           (List.filter has_day trades) →
    Forall (λ p, (0 <? pnl p)%float = true) series
    ∧ Sorted Binary64Loop.float_le (cumulative (map pnl series))
    ∧ max_drawdown m = 0%float
    ∧ (0 <=? total_return m)%float = true
    ∧ (series ≠ [] → win_rate m = 100%float).
Proof.
  intros P trades m series H Hall.
  pose proof (Binary64OrderFacts.daily_series_length _ _ _ H) as Hlen.
  apply compute_metrics_Ok in H as (daily & Hagg & -> & ->).
  rewrite pnl_daily_list in *.
  pose proof (Binary64GainFacts.buckets_positive64 trades daily Hagg Hall)
    as Hpos.
  pose proof (Binary64GainFacts.cumulative_positive _ Hpos) as Hs.
  split; [|split; [done|]].
  { apply Forall_forall. intros p (k & -> & Hk)%list_elem_of_fmap. cbn [pnl].
    apply Binary64GainFacts.positive64_ltb.
    rewrite Forall_forall in Hpos. apply Hpos.
    unfold pnl_series_of. by apply list_elem_of_fmap_2. }
  unfold summary. cbn [max_drawdown total_return win_rate].
  split; [|split].
  - rewrite (Binary64Facts.max_drawdown_of_sorted _ Hs). vm_compute. reflexivity.
  - by apply Binary64Sign.round64_nonneg, Binary64GainFacts.py_sum_positive64.
  - intros Hne. apply Binary64GainFacts.win_rate_of_gains; [| |done].
    + intros Hnil. apply Hne. unfold daily_list_of, pnl_series_of in *.
      apply map_eq_nil in Hnil. by rewrite Hnil.
    + unfold daily_list_of, pnl_series_of in *.
      rewrite List.length_map in *. lia.
Qed.

Section SideCase.
Context {F : Type} {PF : PyFloat F} {P : IsoParser}.
Implicit Types (t : trade F) (trades : list (trade F)).

Lemma lower_ascii_idemp (c : ascii) : lower_ascii (lower_ascii c) = lower_ascii c.
Proof. by destruct c as [[] [] [] [] [] [] [] []]. Qed.

Lemma lower_idemp (s : string) : lower (lower s) = lower s.
Proof. induction s as [|c s IH]; cbn; [done|]. by rewrite lower_ascii_idemp, IH. Qed.

Lemma parse_day_with_lower_side t : parse_day (with_lower_side t) = parse_day t.
Proof.
  unfold with_lower_side. destruct (t !! "side") as [[]|]; try done.
  unfold parse_day. by rewrite lookup_insert_ne.
Qed.

Lemma signed_notional_with_lower_side t :
  signed_notional (with_lower_side t) = signed_notional t.
Proof.
  unfold with_lower_side. destruct (t !! "side") as [[| | | |s]|] eqn:E; try done.
  unfold signed_notional, get_float, get_side.
  rewrite (lookup_insert_ne _ "side" "quantity"),
    (lookup_insert_ne _ "side" "price") by done.
  rewrite lookup_insert_eq, E. cbn [default from_option Datatypes.id].
  by rewrite lower_idemp.
Qed.

Lemma aggregate_with_lower_side trades (daily : gmap string F) :
  aggregate (map with_lower_side trades) daily = aggregate trades daily.
Proof.
  revert daily. induction trades as [|t rest IH]; intros daily; [done|].
  cbn [map aggregate].
  rewrite parse_day_with_lower_side, signed_notional_with_lower_side.
  destruct (parse_day t); [|apply IH].
  destruct (signed_notional t); cbn; [apply IH | done].
Qed.

(** A dated record that cannot be read ends the loop with its
    exception, whatever follows it. *)
Lemma aggregate_raises_at (l1 l2 : list (trade F)) t (day : string) (e : exn)
    (daily : gmap string F) :
  Forall (λ t, parse_day t = None ∨ is_Ok (signed_notional t)) l1 →
  parse_day t = Some day → signed_notional t = Raise e →
  aggregate (l1 ++ t :: l2) daily = Raise e.
Proof.
  intros Hl1 Eday En. revert daily.
  induction Hl1 as [|t1 l1 Ht1 _ IH]; intros daily.
  - apply (aggregate_raise _ _ _ _ _ Eday En).
  - cbn [app aggregate]. destruct (parse_day t1) as [d1|]; [|apply IH].
    destruct Ht1 as [?|[n ->]]; [done|]. cbn. apply IH.
Qed.

Lemma replace_char_absent (c : ascii) (new s : string) :
  has_char c s = false → replace_char c new s = s.
Proof.
  induction s as [|c' s IH]; cbn; [done|].
  intros [E1 E2]%orb_false_iff. by rewrite E1, IH.
Qed.

Lemma string_app_assoc (a b c : string) : (a +:+ b) +:+ c = a +:+ (b +:+ c).
Proof.
  induction a as [|x a IH]; [done|].
  change (String x ((a +:+ b) +:+ c) = String x (a +:+ (b +:+ c))).
  by rewrite IH.
Qed.

Lemma replace_char_app (c : ascii) (new s1 s2 : string) :
  replace_char c new (s1 +:+ s2)
  = replace_char c new s1 +:+ replace_char c new s2.
Proof.
  induction s1 as [|c' s1 IH]; [done|].
  change (String c' s1 +:+ s2) with (String c' (s1 +:+ s2)). cbn [replace_char].
  rewrite IH. destruct (Ascii.eqb c' c); [|done].
  by rewrite string_app_assoc.
Qed.

End SideCase.

(** X7. The side is read without regard to letter case: two lists of
    trades that become equal once every side is put in lower case give
    the same result, and so does a list and its lower-cased form. *)
Theorem side_is_read_without_case :
  ∀ (F : Type) (PF : PyFloat F) (P : IsoParser) (l1 l2 : list (trade F)),
    compute_metrics (map with_lower_side l1) = compute_metrics l1
    ∧ (map with_lower_side l1 = map with_lower_side l2 →
       compute_metrics l1 = compute_metrics l2).
Proof.
  intros F PF P l1 l2.
  assert (∀ l, compute_metrics (map with_lower_side l) = compute_metrics l) as H.
  { intros l. unfold compute_metrics. by rewrite aggregate_with_lower_side. }
  split; [apply H|]. intros E. by rewrite <- (H l1), <- (H l2), E.
Qed.

(** X8. One dated record whose quantity, price or side cannot be read
    makes the whole call fail, wherever it sits: [compute_metrics]
    raises the exception of the first such record, and the records
    after it are not looked at. *)
Theorem first_unreadable_record_fails_the_call :
  ∀ (F : Type) (PF : PyFloat F) (P : IsoParser)
    (before after : list (trade F)) (t : trade F) (day : string) (e : exn),
    Forall (λ t, parse_day t = None ∨ is_Ok (signed_notional t)) before →
    parse_day t = Some day → signed_notional t = Raise e →
    compute_metrics (before ++ t :: after) = Raise e.
Proof.
  intros F PF P l1 l2 t day e Hl1 Eday En. unfold compute_metrics.
  by rewrite (aggregate_raises_at l1 l2 t day e ∅ Hl1 Eday En).
Qed.

(** X9. A trailing ["Z"] is read as the offset ["+00:00"]: a trade
    stamped [ts ++ "Z"] falls on the date of the trade stamped
    [ts ++ "+00:00"], when [ts] itself holds no ["Z"]; and a timestamp
    without ["Z"] reaches the parser as it is. *)
Theorem trailing_Z_is_utc :
  ∀ (F : Type) (PF : PyFloat F) (P : IsoParser) (t : trade F) (ts : string),
    has_char "Z" ts = false →
    parse_day (stamped (ts +:+ "Z") t) = parse_day (stamped (ts +:+ "+00:00") t)
    ∧ parse_day (stamped ts t)
      = (dt ← fromisoformat ts; Some (Datetime.isoformat (Datetime.dt_date dt))).
Proof.
  intros F PF P t ts Hz. unfold parse_day, stamped. rewrite !lookup_insert_eq.
  rewrite !replace_char_app, (replace_char_absent _ _ ts Hz). done.
Qed.

(** X10. When every dated trade falls on one date, so that the daily
    series has a single point, on binary64 the volatility, the Sharpe
    value and the maximum drawdown are 0 whatever the P&L of that date
    (infinities and NaN included), the win rate is 100 or 0 according
    to whether the P&L is above zero, and [total_return] is the P&L
    rounded. *)
Theorem single_day_metrics :
  ∀ (P : IsoParser) (trades : list (trade float))
    (m : metrics float) (p : daily_point float),
    compute_metrics trades = Ok (m, [p]) →
    total_return m = Binary64.round (0 + pnl p) 4
    ∧ win_rate m = (if (0 <? pnl p)%float then 100%float else 0%float)
    ∧ volatility m = 0%float
    ∧ sharpe m = 0%float
    ∧ max_drawdown m = 0%float.
Proof.
  intros P trades m p (daily & _ & _ & ->)%compute_metrics_Ok.
  cbn [map]. set (v := pnl p). clearbody v. metrics_field.
  split; [reflexivity|]. split; [|split; [|split]].
  - unfold win_rate_of, count_wins. cbn [List.filter].
    change (fltb fzero v) with (0 <? v)%float.
    destruct (0 <? v)%float; vm_compute; reflexivity.
  - rewrite sample_variance_short by (cbn; lia). vm_compute. reflexivity.
  - rewrite sample_variance_short by (cbn; lia). vm_compute. reflexivity.
  - rewrite (Binary64Facts.max_drawdown_of_sorted [v]).
    + vm_compute. reflexivity.
    + repeat constructor.
Qed.

Section ForecastFacts.
Context {F : Type} {PF : PyFloat F}.

Lemma last_n_app {A} (older recent : list A) (n : nat) :
  (n ≤ length recent)%nat → last_n n (older ++ recent) = last_n n recent.
Proof.
  intros Hn. unfold last_n. rewrite length_app.
  replace (length older + length recent - n)%nat
    with (length older + (length recent - n))%nat by lia.
  apply drop_app_add.
Qed.

End ForecastFacts.

(** X11. The forecast looks at the last three daily points only: any
    older points before them leave it unchanged. *)
Theorem forecast_reads_the_last_three_points :
  ∀ (F : Type) (PF : PyFloat F) (older recent : list (daily_point F)),
    (3 ≤ length recent)%nat →
    forecast_of (older ++ recent) = forecast_of recent.
Proof.
  intros F PF older recent Hlen. unfold forecast_of.
  by rewrite last_n_app.
Qed.

(** X14. [portfolio_summary] answers 500 when the handle is [None] or
    false, and raises what the truth test of the handle raises, whatever
    the user and the trades: with a handle that cannot be tested for
    truth no request is answered. With a handle that is true it answers
    401 without a user; otherwise its metrics are, as numbers, those of
    [compute_metrics] on the same trades, the shortcut for a user
    without trades included (the ints [0] are the floats [0.0]), and an
    exception of [compute_metrics] passes through. On binary64 and in
    exact arithmetic. *)
Theorem summary_agrees_with_compute_metrics :
  (∀ (F : Type) (PF : PyFloat F) (P : IsoParser) (user : option string)
     (trades : list (trade F)),
     portfolio_summary (Ok false) user trades
     = Ok (HTTPException 500 (Message "Database not configured"))
     ∧ (∀ e, portfolio_summary (Raise e) user trades = Raise e)
     ∧ portfolio_summary (Ok true) None trades
       = Ok (HTTPException 401 (Message "Invalid user token")))
  ∧ (∀ (P : IsoParser) (user : string) (trades : list (trade float)),
       portfolio_summary (Ok true) (Some user) trades ≫= answer_numbers
       = (r ← compute_metrics trades; Ok (Respond r)))
  ∧ (∀ (P : IsoParser) (user : string) (trades : list (trade R)),
       portfolio_summary (Ok true) (Some user) trades ≫= answer_numbers
       = (r ← compute_metrics trades; Ok (Respond r)))
  ∧ portfolio_summary (PF := Binary64.binary64)
      (P := Datetime.fromisoformat_model)
      (Raise NotImplementedError) (Some "u1") Scenarios.scenario_B
    = Raise NotImplementedError.
Proof.
  split; [done|].
  split; [|split; [|done]]; intros P user trades; unfold portfolio_summary;
    cbn [mbind result_bind negb];
    (destruct trades as [|t rest];
     [ | destruct (compute_metrics (t :: rest)) as [[[] daily]|e]; done ]).
  - by rewrite compute_metrics_nil64.
  - cbn [mbind result_bind answer_numbers]. by rewrite compute_metrics_nil_exact.
Qed.

(* ===================================================================== *)
(** ** Beyond the specification: the upload *)
(* ===================================================================== *)

Section UploadFacts.
Context {F : Type} {PF : PyFloat F} {P : IsoParser} {Pr : IsoPrinter}.
Implicit Types (r rec : trade F) (rows : list (trade F)).

(** What a row must hold for its record to be built, and what the
    record then holds. *)
Lemma record_of_row_Some (user_id : string) r rec :
  record_of_row user_id r = Some rec →
  ∃ (s : string) (vq vp : value F) (q p : F),
    r !! "side" = Some (VStr s)
    ∧ r !! "quantity" = Some vq ∧ py_float vq = Ok q
    ∧ r !! "price" = Some vp ∧ py_float vp = Ok p
    ∧ is_Some (r !! "symbol")
    ∧ is_Some (r !! "timestamp" ≫= stored_timestamp)
    ∧ rec !! "side" = Some (VStr (lower s))
    ∧ rec !! "quantity" = Some (VFloat q)
    ∧ rec !! "price" = Some (VFloat p)
    ∧ rec !! "user_id" = Some (VStr user_id).
Proof.
  unfold record_of_row. intros H.
  destruct (r !! "symbol") as [sym|] eqn:Esym; [|done]. cbn in H.
  destruct (lower_of _) as [asset|]; [|done]. cbn in H.
  destruct (r !! "quantity") as [vq|] eqn:Eq; [|done]. cbn in H.
  destruct (py_float vq) as [q|] eqn:Eqf; [|done]. cbn in H.
  destruct (r !! "price") as [vp|] eqn:Ep; [|done]. cbn in H.
  destruct (py_float vp) as [p|] eqn:Epf; [|done]. cbn in H.
  destruct (r !! "side") as [[| | | |s]|] eqn:Es; try done. cbn in H.
  destruct (r !! "timestamp" ≫= stored_timestamp) as [ts|] eqn:Ets; [|done].
  cbn in H. destruct (caught (get_float r "fees")) as [fees|]; [|done].
  cbn in H. injection H as <-.
  exists s, vq, vp, q, p. repeat split; try done; try by eexists.
Qed.

Lemma record_of_row_well_shaped (user_id : string) r rec :
  record_of_row user_id r = Some rec → well_shaped rec.
Proof.
  intros (s & vq & vp & q & p & _ & _ & _ & _ & _ & _ & _ & Hs & Hq & Hp & _)
    %record_of_row_Some.
  unfold well_shaped. by rewrite Hs, Hq, Hp.
Qed.

Lemma uploaded_records_well_shaped (user_id : string) rows :
  Forall well_shaped (uploaded_records user_id rows).
Proof.
  apply Forall_forall. intros rec (r & _ & Hr)%list_elem_of_omap.
  by apply (record_of_row_well_shaped user_id r).
Qed.

Section StoreFacts.
Context {D : Type} (create_document : string → trade F → D → D * option string).

Lemma insert_rows_bounds (user_id : string) rows (store : D) (n : nat) :
  (n ≤ fst (insert_rows create_document user_id rows store n)
   ≤ n + length (uploaded_records user_id rows))%nat.
Proof.
  revert store n. induction rows as [|r rest IH]; intros store n; [cbn; lia|].
  cbn [insert_rows]. unfold uploaded_records. cbn [omap list_omap].
  destruct (record_of_row user_id r) as [rec|]; [|apply IH].
  destruct (create_document "trade" rec store) as [store' [id|]]; cbn [length].
  - specialize (IH store' (S n)). unfold uploaded_records in IH. lia.
  - specialize (IH store' n). unfold uploaded_records in IH. lia.
Qed.

Lemma insert_rows_accepted (user_id : string) rows (store : D) (n : nat) :
  (∀ c rec s, is_Some (snd (create_document c rec s))) →
  fst (insert_rows create_document user_id rows store n)
  = (n + length (uploaded_records user_id rows))%nat.
Proof.
  intros Hacc. revert store n.
  induction rows as [|r rest IH]; intros store n; [cbn; lia|].
  cbn [insert_rows]. unfold uploaded_records. cbn [omap list_omap].
  destruct (record_of_row user_id r) as [rec|]; [|apply IH].
  pose proof (Hacc "trade" rec store) as [id Hid].
  destruct (create_document "trade" rec store) as [store' o]. cbn in Hid.
  subst o. rewrite IH. unfold uploaded_records. cbn [length]. lia.
Qed.

Lemma insert_rows_refused (user_id : string) rows (store : D) (n : nat) :
  (∀ c rec s, snd (create_document c rec s) = None) →
  fst (insert_rows create_document user_id rows store n) = n.
Proof.
  intros Href. revert store n.
  induction rows as [|r rest IH]; intros store n; [done|].
  cbn [insert_rows].
  destruct (record_of_row user_id r) as [rec|]; [|apply IH].
  pose proof (Href "trade" rec store) as Hid.
  destruct (create_document "trade" rec store) as [store' o]. cbn in Hid.
  subst o. apply IH.
Qed.

Lemma length_uploaded_records (user_id : string) rows :
  (length (uploaded_records user_id rows) ≤ length rows)%nat.
Proof.
  unfold uploaded_records. induction rows as [|r rest IH]; [done|].
  cbn [omap list_omap]. destruct (record_of_row user_id r); cbn; lia.
Qed.

End StoreFacts.
End UploadFacts.

(** X17. The count an upload answers with is at most the number of
    rows whose record can be built, hence at most the number of rows;
    it is that number when the store accepts every document, and 0 when
    it refuses them all. *)
Theorem inserted_counts_the_rows_stored :
  ∀ (F : Type) (PF : PyFloat F) (P : IsoParser) (Pr : IsoPrinter) (D : Type)
    (create_document : string → trade F → D → D * option string)
    (user_id : string) (rows : list (trade F)) (store : D),
    (fst (insert_rows create_document user_id rows store 0)
     ≤ length (uploaded_records user_id rows) ≤ length rows)%nat
    ∧ ((∀ c rec s, is_Some (snd (create_document c rec s))) →
       fst (insert_rows create_document user_id rows store 0)
       = length (uploaded_records user_id rows))
    ∧ ((∀ c rec s, snd (create_document c rec s) = None) →
       fst (insert_rows create_document user_id rows store 0) = 0%nat).
Proof.
  intros F PF P Pr D create uid rows store. split; [split|split].
  - pose proof (insert_rows_bounds create uid rows store 0). lia.
  - apply length_uploaded_records.
  - intros Hacc. by rewrite insert_rows_accepted.
  - intros Href. by apply insert_rows_refused.
Qed.

(** X18. The records an upload builds can always be aggregated: each
    has a float quantity, a float price and a string side, so the loop
    of [compute_metrics] over them does not raise, and the only
    exception left to [compute_metrics] is the [OverflowError] of
    [** 2]; in exact arithmetic it returns. *)
Theorem uploaded_records_can_be_aggregated :
  (∀ (F : Type) (PF : PyFloat F) (P : IsoParser) (Pr : IsoPrinter)
     (user_id : string) (rows : list (trade F)),
     Forall well_shaped (uploaded_records user_id rows)
     ∧ is_Ok (aggregate (uploaded_records user_id rows) ∅)
     ∧ (∀ e, compute_metrics (uploaded_records user_id rows) = Raise e →
             e = OverflowError))
  ∧ (∀ (P : IsoParser) (Pr : IsoPrinter) (user_id : string)
       (rows : list (trade R)),
       is_Ok (compute_metrics (PF := Exact.exact)
                (uploaded_records user_id rows))).
Proof.
  split.
  - intros F PF P Pr uid rows.
    pose proof (uploaded_records_well_shaped uid rows) as Hws.
    assert (is_Ok (aggregate (uploaded_records uid rows) ∅)) as Hok.
    { apply aggregate_ok. eapply Forall_impl; [exact Hws | auto]. }
    split; [done|]. split; [done|]. intros e. unfold compute_metrics.
    destruct Hok as [daily ->]. cbn.
    destruct (metrics_of (pnl_series_of daily)) as [m|e'] eqn:E; [done|].
    cbn. intros [= <-]. by apply (metrics_of_raises _ _ E).
  - intros P Pr uid rows. unfold compute_metrics.
    destruct (aggregate_ok (PF := Exact.exact) (uploaded_records uid rows) ∅)
      as [daily ->].
    { eapply Forall_impl; [apply uploaded_records_well_shaped | auto]. }
    cbn.
    destruct (proj2 (metrics_of_is_Ok (PF := Exact.exact) (pnl_series_of daily)))
      as [m ->]; [|by eexists].
    right. by apply Forall_forall.
Qed.

Section UploadSide.
Context {F : Type} {PF : PyFloat F} {P : IsoParser} {Pr : IsoPrinter}.
Implicit Types (r rec : trade F).

(** Which rows give a record. *)
Lemma record_of_row_is_Some (user_id : string) r :
  is_Some (record_of_row user_id r)
  ↔ is_Some (r !! "symbol")
    ∧ is_Some (lower_of (py_or (default VNone (r !! "asset_type")) (VStr "stock")))
    ∧ is_Some (r !! "quantity" ≫= λ v, caught (py_float v))
    ∧ is_Some (r !! "price" ≫= λ v, caught (py_float v))
    ∧ is_Some (r !! "side" ≫= lower_of)
    ∧ is_Some (r !! "timestamp" ≫= stored_timestamp)
    ∧ is_Some (caught (get_float r "fees")).
Proof.
  unfold record_of_row.
  destruct (r !! "symbol") as [sym|]; cbn [mbind option_bind];
    [|split; [by intros [? ?] | by intros ([? ?] & _)]].
  destruct (lower_of _) as [asset|]; cbn [mbind option_bind];
    [|split; [by intros [? ?] | by intros (_ & [? ?] & _)]].
  destruct (r !! "quantity" ≫= _) as [q|]; cbn [mbind option_bind];
    [|split; [by intros [? ?] | by intros (_ & _ & [? ?] & _)]].
  destruct (r !! "price" ≫= _) as [p|]; cbn [mbind option_bind];
    [|split; [by intros [? ?] | by intros (_ & _ & _ & [? ?] & _)]].
  destruct (r !! "side" ≫= lower_of) as [s|]; cbn [mbind option_bind];
    [|split; [by intros [? ?] | by intros (_ & _ & _ & _ & [? ?] & _)]].
  destruct (r !! "timestamp" ≫= stored_timestamp) as [ts|]; cbn [mbind option_bind];
    [|split; [by intros [? ?] | by intros (_ & _ & _ & _ & _ & [? ?] & _)]].
  destruct (caught (get_float r "fees")) as [fees|]; cbn [mbind option_bind];
    [|split; [by intros [? ?] | by intros (_ & _ & _ & _ & _ & _ & [? ?])]].
  split; [intros _; repeat split; by eexists | intros _; by eexists].
Qed.

(** The text of the side plays no part in whether a row is kept. *)
Lemma record_of_row_any_side (user_id : string) r (s' : string) :
  is_Some (record_of_row user_id r) →
  is_Some (record_of_row user_id (<["side" := VStr s']> r)).
Proof.
  rewrite !record_of_row_is_Some. unfold get_float.
  rewrite (lookup_insert_ne r "side" "symbol"),
    (lookup_insert_ne r "side" "asset_type"),
    (lookup_insert_ne r "side" "quantity"),
    (lookup_insert_ne r "side" "price"),
    (lookup_insert_ne r "side" "timestamp"),
    (lookup_insert_ne r "side" "fees") by done.
  rewrite lookup_insert_eq.
  intros (? & ? & ? & ? & _ & ? & ?). repeat split; try done; by eexists.
Qed.

End UploadSide.

(** X19. An upload does not check the side: a row is kept or dropped
    whatever its side says, and the record keeps that text in lower
    case. [compute_metrics] then takes every side other than ["buy"]
    for a sell: in exact arithmetic the notional of the record is
    price times quantity of the row, times 1 when the lower-cased side
    is ["buy"] and times -1 otherwise. *)
Theorem upload_does_not_check_the_side :
  (∀ (F : Type) (PF : PyFloat F) (P : IsoParser) (Pr : IsoPrinter)
     (user_id : string) (r rec : trade F),
     record_of_row user_id r = Some rec →
     (∃ s, r !! "side" = Some (VStr s)
           ∧ rec !! "side" = Some (VStr (lower s)))
     ∧ (∀ s', is_Some (record_of_row user_id (<["side" := VStr s']> r))))
  ∧ (∀ (P : IsoParser) (Pr : IsoPrinter) (user_id : string) (r rec : trade R),
       record_of_row user_id r = Some rec →
       ∃ (s : string) (vq vp : value R) (q p : R),
         r !! "side" = Some (VStr s)
         ∧ r !! "quantity" = Some vq ∧ py_float vq = Ok q
         ∧ r !! "price" = Some vp ∧ py_float vp = Ok p
         ∧ signed_notional rec = Ok (p * q * IZR (sign_of (lower s)))%R).
Proof.
  split.
  - intros F PF P Pr uid r rec Hrec. split.
    + destruct (record_of_row_Some uid r rec Hrec)
        as (s & vq & vp & q & p & Hs & _ & _ & _ & _ & _ & _ & Hs' & _).
      by exists s.
    + intros s'. apply record_of_row_any_side. by eexists.
  - intros P Pr uid r rec Hrec.
    destruct (record_of_row_Some uid r rec Hrec)
      as (s & vq & vp & q & p & Hs & Hq & Hqf & Hp & Hpf & _ & _ & Hs' & Hq' & Hp' & _).
    exists s, vq, vp, q, p. repeat (split; [done|]).
    rewrite (signed_notional_with_side rec q p (lower s)); [|..|done].
    + by rewrite lower_idemp.
    + unfold get_float, float_or_zero. rewrite Hq'. cbn.
      case_bool_decide; [by subst|done].
    + unfold get_float, float_or_zero. rewrite Hp'. cbn.
      case_bool_decide; [by subst|done].
Qed.

(** X20. A row is dropped when its symbol, quantity, price, side or
    timestamp is missing, and when its quantity, price, side or
    timestamp is [None]. On binary64 it is dropped as well when its
    quantity or price is the empty text, which [compute_metrics] would
    have read as 0. *)
Theorem rows_with_blanks_are_dropped :
  (∀ (F : Type) (PF : PyFloat F) (P : IsoParser) (Pr : IsoPrinter)
     (user_id : string) (r : trade F) (key : string),
     (key ∈ ["symbol"; "quantity"; "price"; "side"; "timestamp"]
      ∧ r !! key = None)
     ∨ (key ∈ ["quantity"; "price"; "side"; "timestamp"]
        ∧ r !! key = Some VNone) →
     record_of_row user_id r = None)
  ∧ (∀ (P : IsoParser) (Pr : IsoPrinter) (user_id : string)
       (r : trade float) (key : string),
       key ∈ ["quantity"; "price"] → r !! key = Some (VStr "") →
       record_of_row user_id r = None ∧ get_float r key = Ok 0%float).
Proof.
  split.
  - intros F PF P Pr uid r key Hkey.
    apply eq_None_not_Some. rewrite record_of_row_is_Some.
    intros (Hsym & _ & Hq & Hp & Hs & Hts & _).
    destruct Hkey as [[Hin E]|[Hin E]];
      repeat (apply elem_of_cons in Hin as [->|Hin]);
      try (by apply elem_of_nil in Hin);
      first [ rewrite E in Hsym; destruct Hsym as [? Hx]; discriminate Hx
            | rewrite E in Hq; destruct Hq as [? Hx]; discriminate Hx
            | rewrite E in Hp; destruct Hp as [? Hx]; discriminate Hx
            | rewrite E in Hs; destruct Hs as [? Hx]; discriminate Hx
            | rewrite E in Hts; destruct Hts as [? Hx]; discriminate Hx ].
  - intros P Pr uid r key Hin E. split.
    + apply eq_None_not_Some. rewrite record_of_row_is_Some.
      intros (_ & _ & Hq & Hp & _).
      repeat (apply elem_of_cons in Hin as [->|Hin]);
        try (by apply elem_of_nil in Hin);
        first [ rewrite E in Hq; destruct Hq as [? Hx]; vm_compute in Hx;
                discriminate Hx
              | rewrite E in Hp; destruct Hp as [? Hx]; vm_compute in Hx;
                discriminate Hx ].
    + unfold get_float. rewrite E. vm_compute. reflexivity.
Qed.

(* ===================================================================== *)
(** ** Beyond the specification: the diagnostic handler *)
(* ===================================================================== *)

(** X21. What [test_database] reports under [database_url] and
    [database_name] depends on the two environment variables only
    (the name of the database, put there first, is always written
    over); it lists at most 10 collections; the status is
    ["Connected"] exactly when there is a handle whose name can be
    asked, and the database is reported as working exactly when, on
    top of that, its collections can be listed, the first 10 of which
    are the ones shown. *)
Theorem diagnostics_report_the_environment :
  ∀ (db : option Diagnostics.handle) (url name : option string),
    let r := Diagnostics.test_database db url name in
    Diagnostics.database_url r
    = Some (if Diagnostics.env_set url then "✅ Set" else "❌ Not Set")
    ∧ Diagnostics.database_name r
      = Some (if Diagnostics.env_set name then "✅ Set" else "❌ Not Set")
    ∧ (length (Diagnostics.collections r) ≤ 10)%nat
    ∧ (Diagnostics.connection_status r = "Connected"
       ↔ ∃ h n, db = Some h ∧ Diagnostics.name h = inr n)
    ∧ (Diagnostics.database r = "✅ Connected & Working"
       ↔ ∃ h n cs, db = Some h ∧ Diagnostics.name h = inr n
                   ∧ Diagnostics.list_collection_names h = inr cs
                   ∧ Diagnostics.collections r = take 10 cs).
Proof.
  intros db url name r. subst r. unfold Diagnostics.test_database.
  destruct db as [[[text|n] [text'|cs]]|]; cbn -[take];
    (split; [done|]); (split; [done|]);
    (split; [rewrite ?length_take; cbn [length]; lia|]);
    (split; split);
    try discriminate; try (by intros (? & ? & [= <-] & [=]));
    try (by intros (? & ? & ? & [= <-] & [=] & _));
    try (by intros (? & ? & ? & [= <-] & _ & [=] & _));
    try (by intros (? & ? & [=] & _)); try (by intros (? & ? & ? & [=] & _));
    try (intros _; by eauto 10).
Qed.

(* ===================================================================== *)
(** ** The further theorems at concrete inputs *)
(* ===================================================================== *)

Lemma scenario_A_result :
  compute_metrics (P := Datetime.fromisoformat_model) Scenarios.scenario_A
  = Ok (Uploads.metrics_A, Uploads.series_A).
Proof. vm_compute. reflexivity. Defined.

Lemma hold_row_record :
  Uploads.record64 "u1" Uploads.hold_row = Some Uploads.hold_record.
Proof. reflexivity. Defined.

Lemma no_dated_trade_gives_zero_metrics_witness :
  CPython.compute_metrics64 [Scenarios.bad_timestamp]
  = Ok ({| total_return := 0%float; win_rate := 0%float;
           volatility := 0%float; sharpe := 0%float;
           max_drawdown := 0%float |}, []).
Proof.
  apply (proj1 no_dated_trade_gives_zero_metrics Datetime.fromisoformat_model).
  constructor; [vm_compute; reflexivity | constructor].
Defined.

Lemma daily_points_bounded_by_dated_trades_witness :
  (length Scenarios.series_B
   ≤ length (List.filter (has_day (P := Datetime.fromisoformat_model))
               Scenarios.scenario_B))%nat
  ∧ (length (List.filter (has_day (P := Datetime.fromisoformat_model))
               Scenarios.scenario_B)
     ≤ length Scenarios.scenario_B)%nat
  ∧ (Scenarios.series_B = []
     ↔ Forall (λ t, parse_day (P := Datetime.fromisoformat_model) t = None)
              Scenarios.scenario_B).
Proof.
  exact (daily_points_bounded_by_dated_trades float Binary64.binary64
           Datetime.fromisoformat_model Scenarios.scenario_B
           Scenarios.metrics_B Scenarios.series_B scenario_B_result).
Defined.

Lemma single_day_metrics_witness :
  total_return Uploads.metrics_A = Binary64.round (0 + -100) 4
  ∧ win_rate Uploads.metrics_A = 0%float
  ∧ volatility Uploads.metrics_A = 0%float
  ∧ sharpe Uploads.metrics_A = 0%float
  ∧ max_drawdown Uploads.metrics_A = 0%float.
Proof.
  exact (single_day_metrics Datetime.fromisoformat_model Scenarios.scenario_A
           Uploads.metrics_A {| timestamp := "2024-03-04"; pnl := (-100)%float |}
           scenario_A_result).
Defined.

Lemma side_is_read_without_case_witness :
  CPython.compute_metrics64 Uploads.upper_buy
  = CPython.compute_metrics64 Uploads.lower_buy.
Proof.
  apply (proj2 (side_is_read_without_case float Binary64.binary64
                  Datetime.fromisoformat_model Uploads.upper_buy Uploads.lower_buy)).
  reflexivity.
Defined.

Lemma first_unreadable_record_fails_the_call_witness :
  CPython.compute_metrics64
    (Scenarios.scenario_A ++ Scenarios.bad_quantity :: Scenarios.scenario_B)
  = Raise ValueError.
Proof.
  apply (first_unreadable_record_fails_the_call float Binary64.binary64
           Datetime.fromisoformat_model Scenarios.scenario_A Scenarios.scenario_B
           Scenarios.bad_quantity "2024-03-04" ValueError).
  - repeat (constructor; [right; unfold is_Ok; vm_compute; eexists; reflexivity|]).
    constructor.
  - vm_compute. reflexivity.
  - vm_compute. reflexivity.
Defined.

Lemma trailing_Z_is_utc_witness :
  parse_day (P := Datetime.fromisoformat_model)
    (stamped ("2024-03-04T09:30:00" +:+ "Z") Scenarios.no_side)
  = parse_day (P := Datetime.fromisoformat_model)
      (stamped ("2024-03-04T09:30:00" +:+ "+00:00") Scenarios.no_side)
  ∧ parse_day (P := Datetime.fromisoformat_model)
      (stamped "2024-03-04T09:30:00" Scenarios.no_side)
    = Some "2024-03-04".
Proof.
  destruct (trailing_Z_is_utc float Binary64.binary64 Datetime.fromisoformat_model
              Scenarios.no_side "2024-03-04T09:30:00" eq_refl) as [H1 H2].
  split; [exact H1 | rewrite H2; vm_compute; reflexivity].
Defined.

Lemma forecast_reads_the_last_three_points_witness :
  forecast_of ({| timestamp := "2024-03-01"; pnl := 7%float |} :: Scenarios.series_B)
  = forecast_of Scenarios.series_B.
Proof.
  apply (forecast_reads_the_last_three_points float Binary64.binary64
           [ {| timestamp := "2024-03-01"; pnl := 7%float |} ] Scenarios.series_B).
  cbn. lia.
Defined.

Lemma uploaded_records_can_be_aggregated_witness :
  Forall well_shaped (Uploads.uploaded64 "u1" Uploads.rows_A)
  ∧ is_Ok (CPython.aggregate64 (Uploads.uploaded64 "u1" Uploads.rows_A) ∅)
  ∧ (∀ e, CPython.compute_metrics64 (Uploads.uploaded64 "u1" Uploads.rows_A)
          = Raise e → e = OverflowError).
Proof.
  exact (proj1 uploaded_records_can_be_aggregated float Binary64.binary64
           Datetime.fromisoformat_model DatetimeText.isoformat_model
           "u1" Uploads.rows_A).
Defined.

Lemma upload_does_not_check_the_side_witness :
  (∃ s, Uploads.hold_row !! "side" = Some (VStr s)
        ∧ Uploads.hold_record !! "side" = Some (VStr (lower s)))
  ∧ (∀ s', is_Some (Uploads.record64 "u1" (<["side" := VStr s']> Uploads.hold_row))).
Proof.
  exact (proj1 upload_does_not_check_the_side float Binary64.binary64
           Datetime.fromisoformat_model DatetimeText.isoformat_model
           "u1" Uploads.hold_row Uploads.hold_record hold_row_record).
Defined.

Lemma inserted_counts_the_rows_stored_witness :
  fst (Uploads.insert64 "u1" Uploads.rows_A [] 0)
  = length (Uploads.uploaded64 "u1" Uploads.rows_A)
  ∧ length (Uploads.uploaded64 "u1" Uploads.rows_A) = 2%nat.
Proof.
  split.
  - apply (proj1 (proj2 (inserted_counts_the_rows_stored float Binary64.binary64
                           Datetime.fromisoformat_model DatetimeText.isoformat_model
                           (list (trade float)) Uploads.append_document
                           "u1" Uploads.rows_A []))).
    intros c rec s. by eexists.
  - vm_compute. reflexivity.
Defined.

Lemma rows_with_blanks_are_dropped_witness :
  Uploads.record64 "u1" Uploads.blank_row = None
  ∧ get_float Uploads.blank_row "quantity" = Ok 0%float.
Proof.
  apply (proj2 rows_with_blanks_are_dropped Datetime.fromisoformat_model
           DatetimeText.isoformat_model "u1" Uploads.blank_row "quantity").
  - by left.
  - vm_compute. reflexivity.
Defined.

Lemma sharpe_has_the_sign_of_the_total_witness :
  ((0 <=? total_return Scenarios.metrics_D)%float = true
   ∧ (sharpe Scenarios.metrics_D <? 0)%float = false)
  ∧ ((total_return Uploads.metrics_A <=? 0)%float = true
     ∧ (0 <? sharpe Uploads.metrics_A)%float = false).
Proof.
  split.
  - apply (proj1 (sharpe_has_the_sign_of_the_total Datetime.fromisoformat_model
                    Scenarios.drawdown_days _ _ drawdown_days_result)).
    vm_compute. reflexivity.
  - apply (proj2 (sharpe_has_the_sign_of_the_total Datetime.fromisoformat_model
                    Scenarios.scenario_A _ _ scenario_A_result)).
    vm_compute. reflexivity.
Defined.

Lemma gains_only_means_no_drawdown_witness :
  Forall (λ p, (0 <? pnl p)%float = true) Scenarios.series_B
  ∧ Sorted Binary64Loop.float_le (cumulative (map pnl Scenarios.series_B))
  ∧ max_drawdown Scenarios.metrics_B = 0%float
  ∧ (0 <=? total_return Scenarios.metrics_B)%float = true
  ∧ (Scenarios.series_B ≠ [] → win_rate Scenarios.metrics_B = 100%float).
Proof.
  apply (gains_only_means_no_drawdown Datetime.fromisoformat_model
           Scenarios.scenario_B _ _ scenario_B_result).
  repeat constructor; intros n; vm_compute; intros [= <-]; reflexivity.
Defined.
